(** * The booking blueprint ([bookings.py]): wizard steps, totals, payment

    A shallow embedding of the Flask blueprint that drives a booking through
    its five wizard steps, recomputes the derived total, and confirms, pays
    and cancels it.  Python values are the JSON values a request body decodes
    to; Python floats are IEEE binary64 numbers (the kernel's primitive
    floats); the database session is threaded explicitly through every
    handler.  Routing, rate limits and the processor itself are the
    framework's and the provider's: a handler takes the caller, the decoded
    body and the processor's answers as arguments. *)

From Stdlib Require Import ZArith String List Bool Lia.
From Stdlib Require Import DecimalString DecimalPos DecimalZ.
From Stdlib Require Import Floats.PrimFloat Floats.SpecFloat Floats.FloatOps.
From stdpp Require Import base option list strings gmap.

#[local] Set Warnings "-register-all,-inexact-float".

Local Open Scope string_scope.
Local Open Scope Z_scope.

(** ** Python's numbers *)

Module PyNum.

(** What a builtin either returns or raises. *)
Inductive pyexc : Type :=
| TypeError
| ValueError
| OverflowError
| AttributeError.

Definition raises (A : Type) : Type := (A + pyexc)%type.

Definition signed (s : bool) (n : Z) : Z := if s then - n else n.

(** [int(x)] on a float: the integral part, towards zero; NaN and the
    infinities have none. *)
Definition py_int (x : float) : raises Z :=
  match Prim2SF x with
  | S754_zero _ => inl 0
  | S754_infinity _ => inr OverflowError
  | S754_nan => inr ValueError
  | S754_finite s m e =>
      inl (signed s (if 0 <=? e then Z.pos m * 2 ^ e
                     else Z.pos m / 2 ^ (- e)))
  end.

(** The integer nearest to [n / d], a tie going to the even one
    ([0 <= n], [0 < d]). *)
Definition div_half_even (n d : Z) : Z :=
  let q := n / d in
  match 2 * (n mod d) ?= d with
  | Lt => q
  | Gt => q + 1
  | Eq => if Z.even q then q else q + 1
  end.

(** [round(x)] with one argument: the nearest integer, ties to even. *)
Definition py_round (x : float) : raises Z :=
  match Prim2SF x with
  | S754_zero _ => inl 0
  | S754_infinity _ => inr OverflowError
  | S754_nan => inr ValueError
  | S754_finite s m e =>
      inl (signed s (if 0 <=? e then Z.pos m * 2 ^ e
                     else div_half_even (Z.pos m) (2 ^ (- e))))
  end.

(** The binary64 number nearest to [n / d] ([0 <= n], [0 < d]), sign [s].
    The quotient is taken with at least 55 significant bits and a sticky
    bit below them, so the one rounding of [binary_normalize] is the
    correct one. *)
Definition nearest_ratio (s : bool) (n d : Z) : float :=
  if n =? 0 then SF2Prim (S754_zero s)
  else
    let k := Z.max 0 (56 + Z.log2 d - Z.log2 n) in
    let q := (n * 2 ^ k) / d in
    let sticky := if (n * 2 ^ k) mod d =? 0 then 0 else 1 in
    SF2Prim (binary_normalize prec emax (signed s (2 * q + sticky)) (- k - 1) s).

(** [round(x, 2)]: the decimal with two fractional digits nearest to the
    exact value of [x] (ties to even), read back as the nearest float.
    NaN and the infinities round to themselves. *)
Definition py_round2 (x : float) : float :=
  match Prim2SF x with
  | S754_finite s m e =>
      let cents := if 0 <=? e then Z.pos m * 2 ^ e * 100
                   else div_half_even (Z.pos m * 100) (2 ^ (- e)) in
      nearest_ratio s cents 100
  | _ => x
  end.

(** [float(n)] on an int: the nearest float, [OverflowError] past the
    largest one. *)
Definition float_of_int (n : Z) : raises float :=
  match binary_normalize prec emax n 0 false with
  | S754_infinity _ => inr OverflowError
  | sf => inl (SF2Prim sf)
  end.

End PyNum.

Import PyNum.

(** ** JSON values, as a request body decodes to them *)

Inductive pyval : Type :=
| PNone
| PBool (b : bool)
| PInt (n : Z)
| PFloat (x : float)
| PStr (s : string)
| PList (l : list pyval)
| PDict (d : list (string * pyval)).

(** Python's truth value: [None], [False], zero, and the empty string, list
    and dict are false (NaN is true, [-0.0] is false). *)
Definition truthy (v : pyval) : bool :=
  match v with
  | PNone => false
  | PBool b => b
  | PInt n => negb (n =? 0)
  | PFloat x => negb (PrimFloat.is_zero x)
  | PStr s => negb (String.eqb s "")
  | PList l => negb (Nat.eqb (length l) 0)
  | PDict d => negb (Nat.eqb (length d) 0)
  end.

(** [v or w] *)
Definition py_or (v w : pyval) : pyval := if truthy v then v else w.

(** A dict is kept as its items in insertion order, keys distinct. *)
Fixpoint dict_get (k : string) (d : list (string * pyval)) : option pyval :=
  match d with
  | [] => None
  | (k', v) :: d' => if String.eqb k k' then Some v else dict_get k d'
  end.

Definition dict_values (d : list (string * pyval)) : list pyval := map snd d.

(** [v.get(k, dflt)]: only a dict has the method. *)
Definition py_get (v : pyval) (k : string) (dflt : pyval) : raises pyval :=
  match v with
  | PDict d => inl (default dflt (dict_get k d))
  | _ => inr AttributeError
  end.

(** [str(n)] on an int. *)
Definition py_str_int (n : Z) : string := NilZero.string_of_int (Z.to_int n).

(** ** The tables ([models.py] is not among the sources) *)

(** The values of the status column: the three the handlers assign, and
    [draft], the one a new row starts with. *)
Inductive status : Type :=
| draft
| in_progress
| confirmed
| cancelled.

Record Booking : Type := mkBooking {
  id : Z;
  user_id : option Z;
  search_data : pyval;
  selection_data : pyval;
  travelers_data : pyval;
  addons_data : pyval;
  review_data : pyval;
  total_amount : float;
  booking_status : status
}.

(** Modelled from the spec: the row [Booking(user_id=...)] inserts; the
    column defaults are those of the missing [models.py]: every data slot
    unset, a total of 0, status [draft]. *)
Definition new_booking (i : Z) (owner : option Z) : Booking :=
  mkBooking i owner PNone PNone PNone PNone PNone 0%float draft.

Record Payment : Type := mkPayment {
  payment_id : Z;
  payment_booking_id : Z;
  amount : float;
  payment_status : string;
  provider : string;
  txn_ref : string
}.

(** The database: both tables and their next primary keys.  A handler works
    on its own copy of a row; [commit] is what writes the copy back, and a
    handler that returns without it leaves the row as it was. *)
Record DB : Type := mkDB {
  bookings : gmap Z Booking;
  next_booking_id : Z;
  payments : list Payment;
  next_payment_id : Z
}.

Definition commit (b : Booking) (db : DB) : DB :=
  mkDB (<[id b := b]> (bookings db)) (next_booking_id db)
       (payments db) (next_payment_id db).

Definition add_payment (p : Payment) (db : DB) : DB :=
  mkDB (bookings db) (next_booking_id db)
       (payments db ++ [p]) (next_payment_id db + 1).

Definition set_user_id (u : option Z) (b : Booking) : Booking :=
  mkBooking (id b) u (search_data b) (selection_data b) (travelers_data b)
            (addons_data b) (review_data b) (total_amount b) (booking_status b).

Definition set_total_amount (t : float) (b : Booking) : Booking :=
  mkBooking (id b) (user_id b) (search_data b) (selection_data b)
            (travelers_data b) (addons_data b) (review_data b) t
            (booking_status b).

Definition set_status (s : status) (b : Booking) : Booking :=
  mkBooking (id b) (user_id b) (search_data b) (selection_data b)
            (travelers_data b) (addons_data b) (review_data b)
            (total_amount b) s.

(** The five slot assignments of [save_step]; [None] is its [else]. *)
Definition set_step_data (step : Z) (data : pyval) (b : Booking) : option Booking :=
  if step =? 0 then
    Some (mkBooking (id b) (user_id b) data (selection_data b) (travelers_data b)
                    (addons_data b) (review_data b) (total_amount b) (booking_status b))
  else if step =? 1 then
    Some (mkBooking (id b) (user_id b) (search_data b) data (travelers_data b)
                    (addons_data b) (review_data b) (total_amount b) (booking_status b))
  else if step =? 2 then
    Some (mkBooking (id b) (user_id b) (search_data b) (selection_data b) data
                    (addons_data b) (review_data b) (total_amount b) (booking_status b))
  else if step =? 3 then
    Some (mkBooking (id b) (user_id b) (search_data b) (selection_data b)
                    (travelers_data b) data (review_data b) (total_amount b) (booking_status b))
  else if step =? 4 then
    Some (mkBooking (id b) (user_id b) (search_data b) (selection_data b)
                    (travelers_data b) (addons_data b) data (total_amount b) (booking_status b))
  else None.

(** ** Requests, responses and the payment processor *)

(** The decoded body: [booking_id] an integer or absent, [data] any value
    ([None] when absent), [payment_intent_id] a string or absent. *)
Record payload : Type := mkPayload {
  p_booking_id : option Z;
  p_data : pyval;
  p_payment_intent_id : option string
}.

(** [jsonify(body), code], or an abort with no body: 401 from
    [login_required], 404 from [get_or_404], 500 for an exception nothing
    catches. *)
Inductive response : Type :=
| Jsonify (body : list (string * pyval)) (code : Z)
| Abort (code : Z).

Record PaymentIntent : Type := mkIntent {
  intent_id : string;
  intent_status : string;
  intent_amount : Z;
  client_secret : string
}.

(** What a call to the processor comes back with. *)
Inductive stripe_result : Type :=
| StripeOk (intent : PaymentIntent)
| StripeError (msg : string).

Definition STEP_TO_PAGE : gmap Z string :=
  list_to_map
    [ (0, "booking1.html");
      (1, "booking2.html");
      (2, "booking3.html");
      (3, "booking4.html");
      (4, "checkout.html") ].

Definition _next_url_for_step (step booking_id : Z) : option string :=
  match STEP_TO_PAGE !! step with
  | None => None
  | Some page =>
      if String.eqb page "" then None
      else Some ("/" ++ page ++ "?booking_id=" ++ py_str_int booking_id)%string
  end.

Definition opt_str (o : option string) : pyval :=
  match o with
  | Some s => PStr s
  | None => PNone
  end.

(** [str(e)] for what [int(x)] raises on a float. *)
Definition int_error_message (e : pyexc) : string :=
  match e with
  | ValueError => "cannot convert float NaN to integer"
  | _ => "cannot convert float infinity to integer"
  end.

(** ** [app.py]: the checks on an address and on an uploaded file *)

Module App.

(** A [str], as the code points it is made of. *)
Definition pystr : Type := list Z.

Definition of_ascii (s : string) : pystr :=
  map (fun a => Z.of_N (Ascii.N_of_ascii a)) (list_ascii_of_string s).

(** [c in s] for a one-character [c]. *)
Definition contains (c : Z) (s : pystr) : bool := existsb (Z.eqb c) s.

(** [s.rsplit(sep, 1)] for a one-character [sep]: the string cut at the last
    [sep], or the string alone when it has none. *)
Fixpoint cut_last (sep : Z) (s : pystr) : option (pystr * pystr) :=
  match s with
  | [] => None
  | c :: s' =>
      match cut_last sep s' with
      | Some (before, after) => Some (c :: before, after)
      | None => if c =? sep then Some ([], s') else None
      end
  end.

Definition rsplit1 (sep : Z) (s : pystr) : list pystr :=
  match cut_last sep s with
  | Some (before, after) => [before; after]
  | None => [s]
  end.

(** [s.lower()], on ASCII: [A]..[Z] go to [a]..[z].  Other characters are
    left as they are, which is all a comparison with [pdf] can see: no
    character outside ASCII lowers to [p], [d] or [f]. *)
Definition lower_char (c : Z) : Z :=
  if (65 <=? c) && (c <=? 90) then c + 32 else c.

Definition lower (s : pystr) : pystr := map lower_char s.

Definition pystr_eqb (s t : pystr) : bool := bool_decide (s = t).

Definition ALLOWED_EXTENSIONS : list pystr := [of_ascii "pdf"].

(** [None] is the [IndexError] of [[1]] on a list of one. *)
Definition allowed_file (filename : pystr) : option bool :=
  if contains 46 filename then
    match rsplit1 46 filename !! 1%nat with
    | Some ext => Some (existsb (pystr_eqb (lower ext)) ALLOWED_EXTENSIONS)
    | None => None
    end
  else Some false.

(** [f"{name}_{counter}{ext}"] *)
Definition numbered (name ext : pystr) (counter : Z) : pystr :=
  (name ++ of_ascii "_" ++ of_ascii (py_str_int counter) ++ ext)%list.

(** The loop of [documents] that looks for a name no file of the upload
    folder has: [exists_ final_name] is [os.path.exists] on the name joined
    to the folder, [name] and [ext] are the two halves [os.path.splitext]
    made of the file name.  The loop is run for at most [fuel] tests. *)
Fixpoint unused_name (fuel : nat) (exists_ : pystr -> bool) (name ext : pystr)
    (final_name : pystr) (counter : Z) : option pystr :=
  match fuel with
  | O => None
  | S fuel' =>
      if exists_ final_name then
        unused_name fuel' exists_ name ext (numbered name ext counter) (counter + 1)
      else Some final_name
  end.

(** [os.path.splitext] on a name without a directory separator, as
    [secure_filename] returns them: the name is cut before its last dot,
    unless nothing but dots precedes that dot. *)
Definition splitext (p : pystr) : pystr * pystr :=
  match cut_last 46 p with
  | Some (root, after) =>
      if existsb (fun c => negb (c =? 46)) root then (root, 46 :: after) else (p, [])
  | None => (p, [])
  end.

(** The name under which [documents] stores an upload called [filename]:
    the two halves of the name, then the loop. *)
Definition upload_name (fuel : nat) (exists_ : pystr -> bool) (filename : pystr)
    : option pystr :=
  let '(name, ext) := splitext filename in
  unused_name fuel exists_ name ext filename 1.

(** The regular expressions [validate_email] needs, and [re]'s reading of
    them. *)
Inductive regex : Type :=
| Void
| Eps
| Class (p : Z -> bool)
| Cat (r1 r2 : regex)
| Alt (r1 r2 : regex)
| Star (r : regex).

(** [r+] *)
Definition Plus (r : regex) : regex := Cat r (Star r).

Fixpoint nullable (r : regex) : bool :=
  match r with
  | Void => false
  | Eps => true
  | Class _ => false
  | Cat r1 r2 => nullable r1 && nullable r2
  | Alt r1 r2 => nullable r1 || nullable r2
  | Star _ => true
  end.

(** What is left of [r] to match once [c] has been read. *)
Fixpoint deriv (c : Z) (r : regex) : regex :=
  match r with
  | Void => Void
  | Eps => Void
  | Class p => if p c then Eps else Void
  | Cat r1 r2 =>
      if nullable r1 then Alt (Cat (deriv c r1) r2) (deriv c r2)
      else Cat (deriv c r1) r2
  | Alt r1 r2 => Alt (deriv c r1) (deriv c r2)
  | Star r1 => Cat (deriv c r1) (Star r1)
  end.

(** Whether [r] matches the whole of [s]. *)
Fixpoint fullmatch (r : regex) (s : pystr) : bool :=
  match s with
  | [] => nullable r
  | c :: s' => fullmatch (deriv c r) s'
  end.

(** [re.match('^' r '$', s) is not None]: [$] holds at the end of the
    string and just before a newline that ends it. *)
Definition match_to_end (r : regex) (s : pystr) : bool :=
  fullmatch r s ||
  match last s with
  | Some 10 => fullmatch r (removelast s)
  | _ => false
  end.

(** [\s] on a [str]: the whitespace of Unicode. *)
Definition is_space (c : Z) : bool :=
  ((9 <=? c) && (c <=? 13)) || ((28 <=? c) && (c <=? 32)) ||
  (c =? 133) || (c =? 160) || (c =? 5760) ||
  ((8192 <=? c) && (c <=? 8202)) ||
  (c =? 8232) || (c =? 8233) || (c =? 8239) || (c =? 8287) || (c =? 12288).

(** [[^\s@]] *)
Definition not_space_at (c : Z) : bool := negb (is_space c || (c =? 64)).

(** [^[^\s@]+@[^\s@]+\.[^\s@]+$] between its anchors. *)
Definition email_pattern : regex :=
  Cat (Plus (Class not_space_at))
      (Cat (Class (Z.eqb 64))
           (Cat (Plus (Class not_space_at))
                (Cat (Class (Z.eqb 46))
                     (Plus (Class not_space_at))))).

Definition validate_email (email : pystr) : bool := match_to_end email_pattern email.

(** The strings a regular expression stands for. *)
Inductive lang : regex -> pystr -> Prop :=
| lang_eps : lang Eps []
| lang_class p c : p c = true -> lang (Class p) [c]
| lang_cat r1 r2 s1 s2 : lang r1 s1 -> lang r2 s2 -> lang (Cat r1 r2) (s1 ++ s2)%list
| lang_alt_l r1 r2 s : lang r1 s -> lang (Alt r1 r2) s
| lang_alt_r r1 r2 s : lang r2 s -> lang (Alt r1 r2) s
| lang_star_nil r : lang (Star r) []
| lang_star_cons r s1 s2 : lang r s1 -> lang (Star r) s2 -> lang (Star r) (s1 ++ s2)%list.

(** A non-empty run of characters that are neither whitespace nor [@]. *)
Definition word (s : pystr) : Prop :=
  s <> [] /\ Forall (fun c => not_space_at c = true) s.

(** A folder for the examples: [report.pdf] and [report_1.pdf] are there. *)
Definition folder : list pystr := [of_ascii "report.pdf"; of_ascii "report_1.pdf"].

Definition in_folder (x : pystr) : bool := bool_decide (x ∈ folder).

End App.

(** ** [app2.py]: cancelling and deleting a stored booking *)

Module App2.

(** What a field of a stored document may hold. *)
Inductive bson : Type :=
| BNull
| BBool (b : bool)
| BInt (n : Z)
| BFloat (x : float)
| BStr (s : string)
| BDate (us : Z)
| BOid (hex : string)
| BArray (items : list bson)
| BDoc (fields : list (string * bson)).

(** A document, as the driver hands it over: a dict. *)
Abbreviation document := (gmap string bson).

(** [doc.get(k)] *)
Definition doc_get (d : document) (k : string) : bson := default BNull (d !! k).

Definition bson_truthy (v : bson) : bool :=
  match v with
  | BNull => false
  | BBool b => b
  | BInt n => negb (n =? 0)
  | BFloat x => negb (PrimFloat.is_zero x)
  | BStr s => negb (String.eqb s "")
  | BDate _ => true
  | BOid _ => true
  | BArray items => negb (Nat.eqb (length items) 0)
  | BDoc fields => negb (Nat.eqb (length fields) 0)
  end.

(** [v == s] for a string [s]: nothing but that string equals it. *)
Definition is_str (v : bson) (s : string) : bool :=
  match v with
  | BStr s' => String.eqb s' s
  | _ => false
  end.

(** A datetime as the driver stores and returns it: whole milliseconds,
    counted here in microseconds since the epoch. *)
Definition stored_date (us : Z) : bson := BDate (1000 * (us / 1000)).

(** [timedelta.total_seconds()] of a difference of [us] microseconds: the
    float nearest to [us / 10**6]. *)
Definition total_seconds (us : Z) : float :=
  nearest_ratio (us <? 0) (Z.abs us) 1000000.

(** The bookings collection: the documents by [_id], each kept without the
    [_id] field, which [find_one] puts back. *)
Definition find_one (oid : string) (bookings : gmap string document) : option document :=
  match bookings !! oid with
  | Some fields => Some (<["_id" := BOid oid]> fields)
  | None => None
  end.

(** [update_one({"_id": oid}, {"$set": {status, cancelled_at, updated_at}})] *)
Definition set_cancelled (now : Z) (fields : document) : document :=
  <["status" := BStr "cancelled"]>
    (<["cancelled_at" := stored_date now]>
       (<["updated_at" := stored_date now]> fields)).

(** What a route hands to [jsonify]: a message, a message with a booking, or
    a booking alone; [None] is the null of [serialize_booking]. *)
Inductive body : Type :=
| Message (message : string)
| MessageBooking (message : string) (booking : option (list (string * bson)))
| Serialized (booking : option (list (string * bson))).

Definition response : Type := (body * Z)%type.

Section Routes.

(** [ObjectId(id_str)]: the id, in hex, or nothing where it raises. *)
Variable ObjectId : string -> option string.

(** [val.isoformat()] on a datetime and [str(val)] on any value. *)
Variable isoformat : Z -> string.
Variable py_str : bson -> string.

Definition get_object_id (id_str : string) : option string := ObjectId id_str.

Definition to_iso (val : bson) : bson :=
  match val with
  | BDate us => BStr (isoformat us)
  | _ => val
  end.

Definition serialize_booking (doc : option document)
    : option (list (string * bson)) :=
  match doc with
  | None => None
  | Some doc =>
      if decide (doc = ∅) then None else
      Some [("id", if bson_truthy (doc_get doc "_id")
                   then BStr (py_str (doc_get doc "_id")) else BNull);
            ("email", doc_get doc "email");
            ("destination", doc_get doc "destination");
            ("start_date", to_iso (doc_get doc "start_date"));
            ("end_date", to_iso (doc_get doc "end_date"));
            ("num_guests", doc_get doc "num_guests");
            ("total_price", doc_get doc "total_price");
            ("notes", doc_get doc "notes");
            ("status", doc_get doc "status");
            ("created_at", to_iso (doc_get doc "created_at"));
            ("updated_at", to_iso (doc_get doc "updated_at"));
            ("cancelled_at", to_iso (doc_get doc "cancelled_at"))]
  end.

Definition get_booking (booking_id : string) (bookings : gmap string document) : response :=
  match get_object_id booking_id with
  | None => (Message "Invalid booking id", 400)
  | Some oid =>
      match find_one oid bookings with
      | None => (Message "Booking not found", 404)
      | Some doc => (Serialized (serialize_booking (Some doc)), 200)
      end
  end.

(** [now] is [datetime.utcnow()], in microseconds. *)
Definition cancel_booking (booking_id : string) (now : Z)
    (bookings : gmap string document) : response * gmap string document :=
  match get_object_id booking_id with
  | None => ((Message "Invalid booking id", 400), bookings)
  | Some oid =>
      match find_one oid bookings with
      | None => ((Message "Booking not found", 404), bookings)
      | Some doc =>
          if is_str (doc_get doc "status") "cancelled" then
            ((MessageBooking "Booking already cancelled"
                             (serialize_booking (Some doc)), 200), bookings)
          else
            let bookings := alter (set_cancelled now) oid bookings in
            let updated := find_one oid bookings in
            ((MessageBooking "Booking cancelled"
                             (serialize_booking updated), 200), bookings)
      end
  end.

(** The rule of [delete_booking]: cancelled, or made less than 600 seconds
    ago.  A [created_at] that is no datetime makes the subtraction raise,
    which the handler passes over. *)
Definition allow_delete (now : Z) (doc : document) : bool :=
  let allow := is_str (doc_get doc "status") "cancelled" in
  if negb allow && bson_truthy (doc_get doc "created_at") then
    match doc_get doc "created_at" with
    | BDate created =>
        if PrimFloat.ltb (total_seconds (now - created)) 600%float then true else allow
    | _ => allow
    end
  else allow.

Definition delete_booking (booking_id : string) (now : Z)
    (bookings : gmap string document) : response * gmap string document :=
  match get_object_id booking_id with
  | None => ((Message "Invalid booking id", 400), bookings)
  | Some oid =>
      match find_one oid bookings with
      | None => ((Message "Booking not found", 404), bookings)
      | Some doc =>
          if negb (allow_delete now doc) then
            ((Message "Deletion not allowed for this booking", 403), bookings)
          else ((Message "Booking deleted", 200), delete oid bookings)
      end
  end.

End Routes.

(** Data for the examples: an [ObjectId] that reads one id only, and a
    collection with a confirmed booking under that id. *)
Definition one_id (s : string) : option string :=
  if String.eqb s "65f0c0ffee65f0c0ffee65f0" then Some s else None.

Definition week_trip : document :=
  <["status" := BStr "confirmed"]>
    (<["created_at" := BDate 1700000000000000]> ∅).

Definition one_booking : gmap string document :=
  {["65f0c0ffee65f0c0ffee65f0" := week_trip]}.

Definition no_format (us : Z) : string := "".
Definition no_str (v : bson) : string := "".

End App2.

(** ** [app4.py]: the users and reset tokens kept in memory *)

Module App4.

(** What a field of a user may hold. *)
Inductive value : Type :=
| VNone
| VBool (b : bool)
| VInt (n : Z)
| VStr (s : string)
| VDate (us : Z).

(** [a == b] *)
Definition py_eq (a b : value) : bool :=
  match a, b with
  | VNone, VNone => true
  | VBool x, VBool y => Bool.eqb x y
  | VBool x, VInt n => (if x then 1 else 0) =? n
  | VInt n, VBool x => n =? (if x then 1 else 0)
  | VInt m, VInt n => m =? n
  | VStr s, VStr t => String.eqb s t
  | VDate x, VDate y => x =? y
  | _, _ => false
  end.

Definition value_truthy (v : value) : bool :=
  match v with
  | VNone => false
  | VBool b => b
  | VInt n => negb (n =? 0)
  | VStr s => negb (String.eqb s "")
  | VDate _ => true
  end.

(** A user: a dict.  The list holds the dict the caller gave; what the
    caller does to it later is not followed here. *)
Abbreviation pydict := (gmap string value).

(** [d.get(k)] *)
Definition get (d : pydict) (k : string) : value := default VNone (d !! k).

(** [if d:] on what a search returned. *)
Definition found (d : option pydict) : bool :=
  match d with
  | Some d => if decide (d = ∅) then false else true
  | None => false
  end.

(** A reset token, as [create_password_reset_token] makes it. *)
Record reset_token : Type := mkToken {
  token : string;
  email : value;
  user_id : string;
  expiry : Z;
  used : bool;
  token_id : Z
}.

(** What is raised and not caught. *)
Inductive exc : Type :=
| KeyError
| AttributeError.

(** The first element of [l] that [p] holds of is replaced by its image
    under [f]; nothing, when there is none. *)
Fixpoint update_first {A : Type} (p : A -> bool) (f : A -> A) (l : list A)
    : option (list A) :=
  match l with
  | [] => None
  | x :: l' =>
      if p x then Some (f x :: l')
      else match update_first p f l' with
           | Some l'' => Some (x :: l'')
           | None => None
           end
  end.

Section Memory.

(** [str(d)] on a datetime, [check_password_hash] and the lifetime of a
    token in seconds, [int(os.getenv('RESET_TOKEN_EXPIRY', 3600))]. *)
Variable date_str : Z -> string.
Variable check_password_hash : string -> string -> bool.
Variable RESET_TOKEN_EXPIRY : Z.

(** [str(v)] *)
Definition py_str (v : value) : string :=
  match v with
  | VNone => "None"
  | VBool true => "True"
  | VBool false => "False"
  | VInt n => py_str_int n
  | VStr s => s
  | VDate us => date_str us
  end.

(** [hashed] is what [generate_password_hash('123')] gave, [now] is
    [datetime.datetime.utcnow()] in microseconds. *)
Definition init_test_user (hashed : string) (now : Z)
    (_users_memory : list pydict) : list pydict :=
  let test_user : pydict :=
    <["created_at" := VDate now]>
      (<["oauth_id" := VNone]>
         (<["oauth_provider" := VNone]>
            (<["password" := VStr hashed]>
               (<["username" := VStr "user"]>
                  (<["email" := VStr "test@test.com"]>
                     (<["name" := VStr "Test User"]> ∅)))))) in
  let existing_user :=
    find (fun user => py_eq (get user "username") (VStr "user")
                      || py_eq (get user "email") (VStr "test@test.com"))
         _users_memory in
  if negb (found existing_user) then
    (_users_memory ++ [<["_id" := VInt (Z.of_nat (length _users_memory) + 1)]> test_user])%list
  else _users_memory.

Definition find_by_email (email : value) (_users_memory : list pydict) : option pydict :=
  find (fun user => py_eq (get user "email") email) _users_memory.

Definition find_by_username (username : value) (_users_memory : list pydict)
    : option pydict :=
  find (fun user => py_eq (get user "username") username) _users_memory.

Definition find_by_email_or_username (identifier : value)
    (_users_memory : list pydict) : option pydict :=
  find (fun user => py_eq (get user "email") identifier
                    || py_eq (get user "username") identifier) _users_memory.

Definition find_by_id (user_id : value) (_users_memory : list pydict) : option pydict :=
  find (fun user => String.eqb (py_str (get user "_id")) (py_str user_id)) _users_memory.

Definition find_by_oauth (provider oauth_id : value) (_users_memory : list pydict)
    : option pydict :=
  find (fun user => py_eq (get user "oauth_provider") provider
                    && py_eq (get user "oauth_id") oauth_id) _users_memory.

(** [setdefault]-like: [if k not in d: d[k] = None] *)
Definition none_if_missing (k : string) (d : pydict) : pydict :=
  match d !! k with
  | Some _ => d
  | None => <[k := VNone]> d
  end.

(** The id of the new user, or [None] when the e-mail is taken, with the
    list as it then is. *)
Definition create_user (now : Z) (user_data : pydict) (_users_memory : list pydict)
    : (option Z * list pydict) + exc :=
  let user_data := <["created_at" := VDate now]> user_data in
  let user_data := none_if_missing "oauth_provider" user_data in
  let user_data := none_if_missing "oauth_id" user_data in
  match user_data !! "email" with
  | None => inr KeyError
  | Some email =>
      if found (find_by_email email _users_memory) then inl (None, _users_memory)
      else
        let user_id := Z.of_nat (length _users_memory) + 1 in
        let user_data := <["_id" := VInt user_id]> user_data in
        inl (Some user_id, (_users_memory ++ [user_data])%list)
  end.

Definition verify_user (identifier : value) (password : string)
    (_users_memory : list pydict) : option pydict + exc :=
  let user := find_by_email_or_username identifier _users_memory in
  match user with
  | Some u =>
      if found user && value_truthy (get u "password") then
        match get u "password" with
        | VStr pwhash => inl (if check_password_hash pwhash password then Some u else None)
        | _ => inr AttributeError
        end
      else inl None
  | None => inl None
  end.

Definition update_user (user_id : value) (update_data : pydict)
    (_users_memory : list pydict) : bool * list pydict :=
  match update_first (fun user => String.eqb (py_str (get user "_id")) (py_str user_id))
                     (fun user => update_data ∪ user) _users_memory with
  | Some users => (true, users)
  | None => (false, _users_memory)
  end.

(** [token] is what [secrets.token_urlsafe(32)] gave. *)
Definition create_password_reset_token (email : value) (token : string) (now : Z)
    (_users_memory : list pydict) (_reset_tokens_memory : list reset_token)
    : (option string * list reset_token) + exc :=
  let user := find_by_email email _users_memory in
  match user with
  | Some u =>
      if negb (found user) then inl (None, _reset_tokens_memory)
      else
        let expiry := now + RESET_TOKEN_EXPIRY * 1000000 in
        match u !! "_id" with
        | None => inr KeyError
        | Some uid =>
            let kept := filter (fun t => negb (py_eq (App4.email t) email))
                               _reset_tokens_memory in
            let token_data :=
              mkToken token email (py_str uid) expiry false
                      (Z.of_nat (length kept) + 1) in
            inl (Some token, (kept ++ [token_data])%list)
        end
  | None => inl (None, _reset_tokens_memory)
  end.

(** [now] stands for the [utcnow()] of every turn of the loop. *)
Definition verify_reset_token (token : string) (now : Z)
    (_reset_tokens_memory : list reset_token) : option reset_token :=
  find (fun t => String.eqb (App4.token t) token && negb (used t) && (now <? expiry t))
       _reset_tokens_memory.

Definition mark_used (t : reset_token) : reset_token :=
  mkToken (App4.token t) (email t) (user_id t) (expiry t) true (token_id t).

(** [Some true] and [Some false] are [True] and [False]; [None] is the
    [None] of a function that ends without a [return], as the source does
    when no user was updated.  [hashed] is what
    [generate_password_hash(new_password)] gave. *)
Definition use_reset_token (token : string) (hashed : string) (now : Z)
    (_users_memory : list pydict) (_reset_tokens_memory : list reset_token)
    : option bool * list pydict * list reset_token :=
  match verify_reset_token token now _reset_tokens_memory with
  | None => (Some false, _users_memory, _reset_tokens_memory)
  | Some token_doc =>
      let '(user_updated, users) :=
        update_user (VStr (user_id token_doc)) {["password" := VStr hashed]}
                    _users_memory in
      if user_updated then
        let tokens :=
          match update_first (fun t => String.eqb (App4.token t) token) mark_used
                             _reset_tokens_memory with
          | Some tokens => tokens
          | None => _reset_tokens_memory
          end in
        (Some true, users, tokens)
      else (None, users, _reset_tokens_memory)
  end.

(** The parts of what [create_user] and [create_password_reset_token]
    store, by name. *)
Definition stored_user (now : Z) (user_data : pydict) (user_id : Z) : pydict :=
  <["_id" := VInt user_id]>
    (none_if_missing "oauth_id"
       (none_if_missing "oauth_provider" (<["created_at" := VDate now]> user_data))).

Definition kept_tokens (email : value) (tokens : list reset_token) : list reset_token :=
  filter (fun t => negb (py_eq (App4.email t) email)) tokens.

Definition fresh_token (email : value) (uid : value) (tk : string) (now : Z)
    (kept : list reset_token) : reset_token :=
  mkToken tk email (py_str uid) (now + RESET_TOKEN_EXPIRY * 1000000) false
          (Z.of_nat (length kept) + 1).

End Memory.

(** The ids [create_user] gives: 1, 2, ... in the order of the list. *)
Definition ids_numbered (users : list pydict) : Prop :=
  forall (i : nat) u, users !! i = Some u -> u !! "_id" = Some (VInt (Z.of_nat i + 1)).

(** No two users have the same e-mail. *)
Definition emails_distinct (users : list pydict) : Prop :=
  forall (i j : nat) u v,
    users !! i = Some u -> users !! j = Some v ->
    py_eq (get u "email") (get v "email") = true -> i = j.

(** Data for the examples: the test user, as [init_test_user] makes it in
    an empty list at time 0, a second user, and a token of the test user
    that is good for an hour. *)
Definition test_user : pydict :=
  <["_id" := VInt 1]>
    (<["created_at" := VDate 0]>
       (<["oauth_id" := VNone]>
          (<["oauth_provider" := VNone]>
             (<["password" := VStr "hash:123"]>
                (<["username" := VStr "user"]>
                   (<["email" := VStr "test@test.com"]>
                      (<["name" := VStr "Test User"]> ∅))))))).

Definition ann : pydict :=
  <["email" := VStr "ann@example.com"]> (<["password" := VStr "hash:ann"]> ∅).

Definition test_token : reset_token :=
  mkToken "tok1" (VStr "test@test.com") "1" 3600000000 false 1.

Definition no_date_str (us : Z) : string := "".

End App4.

(** ** The handlers *)

Section Blueprint.

(** [float(s)] on a string: the number it spells, or nothing where Python
    raises [ValueError].  The builtin's grammar is left open. *)
Variable float_of_str : string -> option float.

(** [float(v)] *)
Definition py_float (v : pyval) : raises float :=
  match v with
  | PBool b => inl (if b then 1%float else 0%float)
  | PInt n => float_of_int n
  | PFloat x => inl x
  | PStr s =>
      match float_of_str s with
      | Some x => inl x
      | None => inr ValueError
      end
  | PNone | PList _ | PDict _ => inr TypeError
  end.

(** The logged-in user's id, [None] for an anonymous caller. *)
Definition user : Type := option Z.

(** [Booking.query.get_or_404(booking_id)] *)
Definition get_or_404 (booking_id : option Z) (db : DB) : option Booking :=
  match booking_id with
  | Some i => bookings db !! i
  | None => None
  end.

Definition _get_or_create_booking (current_user : user) (booking_id : option Z)
    (db : DB) : option (Booking * DB) :=
  let given :=
    match booking_id with
    | Some i => negb (i =? 0)
    | None => false
    end in
  if given then
    match get_or_404 booking_id db with
    | Some b => Some (b, db)
    | None => None
    end
  else
    let b := new_booking (next_booking_id db) current_user in
    Some (b, mkDB (<[id b := b]> (bookings db)) (next_booking_id db + 1)
                  (payments db) (next_payment_id db)).

Definition _attach_to_current_user_if_needed (current_user : user)
    (booking : Booking) (db : DB) : bool * Booking * DB :=
  match current_user with
  | Some uid =>
      let '(booking, db) :=
        match user_id booking with
        | None =>
            let booking := set_user_id (Some uid) booking in
            (booking, commit booking db)
        | Some _ => (booking, db)
        end in
      if negb (bool_decide (user_id booking = Some uid)) then (false, booking, db)
      else (true, booking, db)
  | None => (true, booking, db)
  end.

(** One [total += float(... or 0)] under its [try]: an exception leaves the
    total as it is. *)
Definition add_or_skip (total : float) (v : raises pyval) : float :=
  match v with
  | inl v =>
      match py_float (py_or v (PInt 0)) with
      | inl x => (total + x)%float
      | inr _ => total
      end
  | inr _ => total
  end.

Definition _recompute_total (booking : Booking) : Booking :=
  let total := 0%float in
  let sel := py_or (selection_data booking) (PDict []) in
  let total := add_or_skip total (py_get sel "price" (PInt 0)) in
  let addons := py_or (addons_data booking) (PDict []) in
  let total :=
    match addons with
    | PDict d => fold_left (fun total v => add_or_skip total (inl v)) (dict_values d) total
    | _ => total
    end in
  set_total_amount (py_round2 total) booking.

Definition save_step (current_user : user) (step : Z) (body : payload)
    (db : DB) : response * DB :=
  match _get_or_create_booking current_user (p_booking_id body) db with
  | None => (Abort 404, db)
  | Some (booking, db) =>
      let '(ok, booking, db) := _attach_to_current_user_if_needed current_user booking db in
      if negb ok then (Jsonify [("error", PStr "Forbidden")] 403, db)
      else
        match set_step_data step (p_data body) booking with
        | None => (Jsonify [("error", PStr "Invalid step")] 400, db)
        | Some booking =>
            let booking := _recompute_total booking in
            let db := commit booking db in
            let next_url := _next_url_for_step step (id booking) in
            (Jsonify [("message", PStr "Saved");
                      ("booking_id", PInt (id booking));
                      ("total", PFloat (total_amount booking));
                      ("next_url", opt_str next_url)] 200, db)
        end
  end.

Definition confirm_booking (current_user : user) (body : payload)
    (db : DB) : response * DB :=
  match current_user with
  | None => (Abort 401, db)
  | Some _ =>
      match get_or_404 (p_booking_id body) db with
      | None => (Abort 404, db)
      | Some booking =>
          let '(ok, booking, db) := _attach_to_current_user_if_needed current_user booking db in
          if negb ok then (Jsonify [("error", PStr "Forbidden")] 403, db)
          else
            let booking := set_status in_progress booking in
            let booking := _recompute_total booking in
            let db := commit booking db in
            (Jsonify [("message", PStr "Booking ready for payment");
                      ("booking_id", PInt (id booking));
                      ("total", PFloat (total_amount booking));
                      ("next_url", PStr ("/checkout.html?booking_id=" ++ py_str_int (id booking)))]
                     200, db)
      end
  end.

Definition status_name (s : status) : string :=
  match s with
  | draft => "draft"
  | in_progress => "in_progress"
  | confirmed => "confirmed"
  | cancelled => "cancelled"
  end.

Definition get_booking (current_user : user) (booking_id : Z) (db : DB) : response :=
  match current_user with
  | None => Abort 401
  | Some uid =>
      match bookings db !! booking_id with
      | None => Abort 404
      | Some b =>
          let other :=
            match user_id b with
            | Some owner => negb (owner =? 0) && negb (owner =? uid)
            | None => false
            end in
          if other then Jsonify [("error", PStr "Forbidden")] 403
          else Jsonify [("id", PInt (id b));
                        ("status", PStr (status_name (booking_status b)));
                        ("total", PFloat (total_amount b));
                        ("search_data", search_data b);
                        ("selection_data", selection_data b);
                        ("travelers_data", travelers_data b);
                        ("addons_data", addons_data b);
                        ("review_data", review_data b)] 200
      end
  end.

(** [create] is [stripe.PaymentIntent.create] as a function of the amount
    and of the booking id put in the metadata. *)
Definition create_payment_intent (current_user : user) (body : payload)
    (create : Z -> Z -> stripe_result) (db : DB) : response * DB :=
  match current_user with
  | None => (Abort 401, db)
  | Some _ =>
      match get_or_404 (p_booking_id body) db with
      | None => (Abort 404, db)
      | Some booking =>
          let '(ok, booking, db) := _attach_to_current_user_if_needed current_user booking db in
          if negb ok then (Jsonify [("error", PStr "Forbidden")] 403, db)
          else
            let booking := _recompute_total booking in
            match py_int (total_amount booking * 100)%float with
            | inr e => (Jsonify [("error", PStr (int_error_message e))] 400, db)
            | inl cents =>
                match create cents (id booking) with
                | StripeError msg => (Jsonify [("error", PStr msg)] 400, db)
                | StripeOk intent =>
                    (Jsonify [("clientSecret", PStr (client_secret intent));
                              ("paymentIntentId", PStr (intent_id intent))] 200, db)
                end
            end
      end
  end.

(** [retrieve] and [confirm] are [stripe.PaymentIntent.retrieve] and
    [stripe.PaymentIntent.confirm] as functions of the intent id. *)
Definition pay (current_user : user) (body : payload)
    (retrieve confirm : option string -> stripe_result) (db : DB) : response * DB :=
  match current_user with
  | None => (Abort 401, db)
  | Some _ =>
      match get_or_404 (p_booking_id body) db with
      | None => (Abort 404, db)
      | Some booking =>
          let '(ok, booking, db) := _attach_to_current_user_if_needed current_user booking db in
          if negb ok then (Jsonify [("error", PStr "Forbidden")] 403, db)
          else
            let booking := _recompute_total booking in
            match retrieve (p_payment_intent_id body) with
            | StripeError msg => (Jsonify [("error", PStr msg)] 400, db)
            | StripeOk intent =>
                let after :=
                  if String.eqb (intent_status intent) "requires_confirmation"
                  then Some (confirm (p_payment_intent_id body))
                  else if String.eqb (intent_status intent) "succeeded"
                  then Some (StripeOk intent)
                  else None in
                match after with
                | None => (Jsonify [("error", PStr "Payment not ready")] 400, db)
                | Some (StripeError msg) => (Jsonify [("error", PStr msg)] 400, db)
                | Some (StripeOk intent) =>
                    if negb (String.eqb (intent_status intent) "succeeded")
                    then (Jsonify [("error", PStr "Payment failed")] 400, db)
                    else
                      match py_int (total_amount booking * 100)%float with
                      | inr _ => (Abort 500, db)
                      | inl cents =>
                          if negb (intent_amount intent =? cents)
                          then (Jsonify [("error", PStr "Amount mismatch")] 400, db)
                          else
                            let txn := intent_id intent in
                            let p := mkPayment (next_payment_id db) (id booking)
                                       (total_amount booking) "success" "stripe" txn in
                            let db := add_payment p db in
                            let booking := set_status confirmed booking in
                            let db := commit booking db in
                            (Jsonify [("message", PStr "Payment success");
                                      ("payment_id", PInt (payment_id p));
                                      ("txn_ref", PStr (txn_ref p));
                                      ("booking_id", PInt (id booking));
                                      ("next_url", PStr ("/dashboard.html?booking_id=" ++ py_str_int (id booking)))]
                                     201, db)
                      end
                end
            end
      end
  end.

Definition cancel (current_user : user) (body : payload) (db : DB) : response * DB :=
  match current_user with
  | None => (Abort 401, db)
  | Some _ =>
      match get_or_404 (p_booking_id body) db with
      | None => (Abort 404, db)
      | Some booking =>
          let '(ok, booking, db) := _attach_to_current_user_if_needed current_user booking db in
          if negb ok then (Jsonify [("error", PStr "Forbidden")] 403, db)
          else
            let booking := set_status cancelled booking in
            let db := commit booking db in
            (Jsonify [("message", PStr "Booking cancelled");
                      ("booking_id", PInt (id booking))] 200, db)
      end
  end.

(** ** Requests and the runs of the service *)

Inductive request : Type :=
| SaveStep (step : Z) (body : payload)
| Confirm (body : payload)
| CreatePaymentIntent (body : payload) (create : Z -> Z -> stripe_result)
| Pay (body : payload) (retrieve confirm : option string -> stripe_result)
| Cancel (body : payload).

Definition request_body (r : request) : payload :=
  match r with
  | SaveStep _ body | Confirm body | CreatePaymentIntent body _
  | Pay body _ _ | Cancel body => body
  end.

Definition is_confirm (r : request) : bool :=
  match r with
  | Confirm _ => true
  | _ => false
  end.

Definition handle (current_user : user) (r : request) (db : DB) : response * DB :=
  match r with
  | SaveStep step body => save_step current_user step body db
  | Confirm body => confirm_booking current_user body db
  | CreatePaymentIntent body create => create_payment_intent current_user body create db
  | Pay body retrieve confirm => pay current_user body retrieve confirm db
  | Cancel body => cancel current_user body db
  end.

(** The database after a sequence of requests, each with its caller. *)
Fixpoint run (reqs : list (user * request)) (db : DB) : DB :=
  match reqs with
  | [] => db
  | (u, r) :: reqs' => run reqs' (snd (handle u r db))
  end.

(** Primary keys: a row sits under its own id, ids are positive and below
    the next one to be handed out. *)
Definition wf (db : DB) : Prop :=
  0 < next_booking_id db /\
  map_Forall (fun k b => id b = k /\ 0 < k < next_booking_id db) (bookings db).

Definition empty_db : DB := mkDB ∅ 1 [] 1.

Definition terminal (s : status) : bool :=
  match s with
  | confirmed | cancelled => true
  | draft | in_progress => false
  end.

(** Whether the ownership check lets the caller through: anyone on an unbound
    booking, the owner on a bound one, and an anonymous caller always. *)
Definition permitted (current_user : user) (b : Booking) : bool :=
  match current_user, user_id b with
  | Some uid, Some owner => owner =? uid
  | _, _ => true
  end.

(** The slot a step writes. *)
Definition step_slot (step : Z) (b : Booking) : option pyval :=
  if step =? 0 then Some (search_data b)
  else if step =? 1 then Some (selection_data b)
  else if step =? 2 then Some (travelers_data b)
  else if step =? 3 then Some (addons_data b)
  else if step =? 4 then Some (review_data b)
  else None.

(** ** The total, as the specification words it *)

(** The number a value stands for: a number itself, a boolean as 1 or 0,
    a string as the number it spells, and any empty or null value as 0;
    a value that is not numeric stands for none. *)
Definition as_number (v : pyval) : option float :=
  if truthy v then
    match v with
    | PBool _ => Some 1%float
    | PInt n =>
        match float_of_int n with
        | inl x => Some x
        | inr _ => None
        end
    | PFloat x => Some x
    | PStr s => float_of_str s
    | _ => None
    end
  else Some 0%float.

(** [selection.price], 0 when the selection is no mapping, has no price, or
    has one that is not numeric. *)
Definition price_of (sel : pyval) : float :=
  match sel with
  | PDict d =>
      match dict_get "price" d with
      | Some v => default 0%float (as_number v)
      | None => 0%float
      end
  | _ => 0%float
  end.

(** The numeric add-on values, in the mapping's order; none when the add-ons
    are missing or no mapping. *)
Definition addon_numbers (addons : pyval) : list float :=
  match addons with
  | PDict d => omap as_number (dict_values d)
  | _ => []
  end.

(** Python's [sum] over floats, from 0.0, left to right. *)
Definition fsum (l : list float) : float := fold_left PrimFloat.add l 0%float.

(** [round(selection.price + sum(numeric addon values), 2)], the price first. *)
Definition spec_total (sel addons : pyval) : float :=
  py_round2 (fsum (price_of sel :: addon_numbers addons)).

(** The body of a successful [save_step]. *)
Definition saved_body (booking_id : Z) (total : float) (next_url : option string)
    : list (string * pyval) :=
  [("message", PStr "Saved");
   ("booking_id", PInt booking_id);
   ("total", PFloat total);
   ("next_url", opt_str next_url)].

Definition forbidden : response := Jsonify [("error", PStr "Forbidden")] 403.

(** ** What the ownership check does, in one piece *)

(** The row after the check: bound to the caller when it was unbound and the
    caller is logged in. *)
Definition bound (current_user : user) (b : Booking) : Booking :=
  match current_user, user_id b with
  | Some uid, None => set_user_id (Some uid) b
  | _, _ => b
  end.

(** The database after the check: the binding is committed at once. *)
Definition bound_db (current_user : user) (b : Booking) (db : DB) : DB :=
  match current_user, user_id b with
  | Some uid, None => commit (set_user_id (Some uid) b) db
  | _, _ => db
  end.

(** How one request may change a row already in the table: the id stays, an
    owner once set stays, and the status stays or becomes what the handler
    writes ([in_progress] for confirm, [confirmed] for pay, [cancelled] for
    cancel). *)
Definition row_step (current_user : user) (r : request) (b b' : Booking) : Prop :=
  id b' = id b /\
  (user_id b' = user_id b \/ (user_id b = None /\ user_id b' = current_user)) /\
  (booking_status b' = booking_status b \/
   (if is_confirm r then booking_status b' = in_progress
    else terminal (booking_status b') = true)).

(** What one request may do to the bookings table: nothing, rewrite one row
    along [row_step], or insert one row under the next id. *)
Definition effect (current_user : user) (r : request) (db db' : DB) : Prop :=
  (bookings db' = bookings db /\ next_booking_id db' = next_booking_id db) \/
  (exists b b', bookings db !! id b = Some b /\ row_step current_user r b b' /\
     bookings db' = <[id b := b']> (bookings db) /\
     next_booking_id db' = next_booking_id db) \/
  (exists b', id b' = next_booking_id db /\
     bookings db' = <[id b' := b']> (bookings db) /\
     next_booking_id db' = next_booking_id db + 1).

(** ** What a request leaves alone *)

(** Two rows that agree on every column but the owner. *)
Definition same_content (x x' : Booking) : Prop :=
  id x' = id x /\
  search_data x' = search_data x /\
  selection_data x' = selection_data x /\
  travelers_data x' = travelers_data x /\
  addons_data x' = addons_data x /\
  review_data x' = review_data x /\
  total_amount x' = total_amount x /\
  booking_status x' = booking_status x.

(** The stored total is the one the row's own slots give. *)
Definition consistent (b : Booking) : Prop :=
  total_amount b = spec_total (selection_data b) (addons_data b).

Definition db_consistent (db : DB) : Prop :=
  map_Forall (fun _ b => consistent b) (bookings db).

(** An answer with code 200 or 201. *)
Definition succeeded (r : response) : bool :=
  match r with
  | Jsonify _ code => (code =? 200) || (code =? 201)
  | Abort _ => false
  end.

(** What one request does to the bookings table, with the row it names:
    nothing (and then the row named, if any, needed no binding), a rewrite
    of the row under the body's [booking_id], or a new row under the next
    id (and then the body named no row). *)
Definition touches (current_user : user) (r : request) (db db' : DB) : Prop :=
  (bookings db' = bookings db /\
   forall i b, p_booking_id (request_body r) = Some i -> bookings db !! i = Some b ->
               bound current_user b = b) \/
  (exists i b b',
     p_booking_id (request_body r) = Some i /\ bookings db !! i = Some b /\
     id b' = i /\ user_id b' = user_id (bound current_user b) /\
     (consistent b -> consistent b') /\
     bookings db' = <[i := b']> (bookings db)) \/
  (exists b',
     consistent b' /\ bookings db' = <[next_booking_id db := b']> (bookings db) /\
     forall i, p_booking_id (request_body r) = Some i -> i = 0).

(** The payment ids handed out so far are 1, 2, ... in the order of the
    rows, and the next one follows. *)
Definition payments_numbered (db : DB) : Prop :=
  map payment_id (payments db) = seqZ 1 (Z.of_nat (length (payments db))) /\
  next_payment_id db = 1 + Z.of_nat (length (payments db)).

(** The body of a successful [cancel]. *)
Definition cancelled_body (booking_id : Z) : list (string * pyval) :=
  [("message", PStr "Booking cancelled"); ("booking_id", PInt booking_id)].

(** The body [get_booking] answers with for a row. *)
Definition booking_body (b : Booking) : list (string * pyval) :=
  [("id", PInt (id b));
   ("status", PStr (status_name (booking_status b)));
   ("total", PFloat (total_amount b));
   ("search_data", search_data b);
   ("selection_data", selection_data b);
   ("travelers_data", travelers_data b);
   ("addons_data", addons_data b);
   ("review_data", review_data b)].

(** ** What a request stores under the booking it names *)

(** The row a request writes under the booking [b] it names when it is
    answered with success; with any other answer the row is [bound]. *)
Definition stored_by (current_user : user) (r : request) (b : Booking) : Booking :=
  match r with
  | SaveStep step body =>
      match set_step_data step (p_data body) (bound current_user b) with
      | Some b1 => _recompute_total b1
      | None => bound current_user b
      end
  | Confirm _ => _recompute_total (set_status in_progress (bound current_user b))
  | CreatePaymentIntent _ _ => bound current_user b
  | Pay _ _ _ => set_status confirmed (_recompute_total (bound current_user b))
  | Cancel _ => set_status cancelled (bound current_user b)
  end.


(** The requests whose handler calls [_recompute_total] before it commits. *)
Definition recomputes (r : request) : bool :=
  match r with
  | SaveStep _ _ | Confirm _ | Pay _ _ _ => true
  | CreatePaymentIntent _ _ | Cancel _ => false
  end.

(** Whether the body of [r] names booking [i]. *)
Definition names (r : request) (i : Z) : bool :=
  bool_decide (p_booking_id (request_body r) = Some i).

(** ** Sample data for the closed examples *)

Definition no_body : payload := mkPayload None PNone None.

Definition body_for (i : Z) (data : pyval) : payload := mkPayload (Some i) data None.

Definition pay_body (i : Z) (intent : string) : payload :=
  mkPayload (Some i) PNone (Some intent).

(** Booking 1 of user 7: a price of 500 and two add-ons, total 535.5. *)
Definition trip (s : status) : Booking :=
  mkBooking 1 (Some 7) PNone (PDict [("price", PInt 500)]) PNone
            (PDict [("meal", PInt 20); ("insurance", PFloat 15.5)]) PNone
            535.5%float s.

Definition trip_db (s : status) : DB := mkDB {[ 1 := trip s ]} 2 [] 1.

(** Booking 1 of user 7 with a price of 0.29 and no add-on. *)
Definition snack : Booking :=
  mkBooking 1 (Some 7) PNone (PDict [("price", PFloat 0.29)]) PNone PNone PNone
            0.29%float in_progress.

Definition snack_db : DB := mkDB {[ 1 := snack ]} 2 [] 1.

Definition succeeded_intent (cents : Z) : PaymentIntent :=
  mkIntent "pi_1" "succeeded" cents "pi_1_secret".

Definition stripe_has (i : PaymentIntent) : option string -> stripe_result :=
  fun _ => StripeOk i.

Definition stripe_down : option string -> stripe_result :=
  fun _ => StripeError "api connection error".

(** Add-ons with two values that are not numeric (a list, a dict) and a null
    among two numbers. *)
Definition mixed_addons : pyval :=
  PDict [("meal", PInt 20);
         ("seats", PList [PInt 12; PInt 13]);
         ("insurance", PFloat 15.5);
         ("gift", PNone);
         ("notes", PDict [("vegan", PBool true)])].

(** An instance of [float_of_str] for the closed examples, none of which
    holds a string among its values: it is never consulted there. *)
Definition no_numeric_strings : string -> option float := fun _ => None.

(** The payment the processor charged in full for booking 1, and the
    database once it is recorded. *)
Definition trip_payment : Payment :=
  mkPayment 1 1 535.5%float "success" "stripe" "pi_1".

Definition paid_db : DB := mkDB {[ 1 := trip confirmed ]} 2 [trip_payment] 2.

Definition paid_answer : list (string * pyval) :=
  [("message", PStr "Payment success");
   ("payment_id", PInt 1);
   ("txn_ref", PStr "pi_1");
   ("booking_id", PInt 1);
   ("next_url", PStr "/dashboard.html?booking_id=1")].

(** A processor that makes the intent it is asked for, its id spelling the
    amount. *)
Definition stripe_creates : Z -> Z -> stripe_result :=
  fun cents _ => StripeOk (mkIntent ("pi_" ++ py_str_int cents) "requires_payment_method"
                                    cents "secret").



(** Booking 1 with a total its slots do not give. *)
Definition stale : Booking :=
  mkBooking 1 (Some 7) PNone (PDict [("price", PFloat 12.5)]) PNone PNone PNone
            99%float draft.

Definition stale_db : DB := mkDB {[ 1 := stale ]} 2 [] 1.

(** Booking 1, not yet anyone's. *)
Definition unclaimed : Booking :=
  mkBooking 1 None PNone (PDict [("price", PInt 500)]) PNone PNone PNone
            500%float draft.

Definition unclaimed_db : DB := mkDB {[ 1 := unclaimed ]} 2 [] 1.

(** Three requests on the database of booking 1: its owner saves add-ons, an
    anonymous caller starts a draft, the owner cancels. *)
Definition busy_day : list (user * request) :=
  [(Some 7, SaveStep 3 (body_for 1 mixed_addons));
   (None, SaveStep 1 no_body);
   (Some 7, Cancel (body_for 1 PNone))].

(** The owner of the paid booking 1 confirms it again and pays again. *)
Definition pay_again : list (user * request) :=
  [(Some 7, Confirm (body_for 1 PNone));
   (Some 7, Pay (pay_body 1 "pi_2") (stripe_has (succeeded_intent 53550)) stripe_down)].

(** ** The recomputed total *)

Lemma add_or_skip_as_number (total : float) (v : pyval) :
  add_or_skip total (inl v) =
  match as_number v with
  | Some x => (total + x)%float
  | None => total
  end.
Proof.
  unfold add_or_skip, as_number, py_or.
  destruct (truthy v) eqn:Htruth.
  - destruct v; simpl in *; try discriminate; try reflexivity.
    + subst b. reflexivity.
    + destruct (float_of_int n); reflexivity.
    + destruct (float_of_str s); reflexivity.
  - reflexivity.
Qed.

Lemma fold_add_or_skip (vs : list pyval) (total : float) :
  fold_left (fun total v => add_or_skip total (inl v)) vs total =
  fold_left PrimFloat.add (omap as_number vs) total.
Proof.
  revert total. induction vs as [|v vs IH]; intros total.
  - reflexivity.
  - cbn [fold_left omap list_omap].
    rewrite IH, add_or_skip_as_number.
    destruct (as_number v); reflexivity.
Qed.

Lemma add_price_spec (sel : pyval) :
  add_or_skip 0%float (py_get (py_or sel (PDict [])) "price" (PInt 0)) =
  (0 + price_of sel)%float.
Proof.
  unfold py_or, price_of.
  destruct (truthy sel) eqn:Htruth.
  - destruct sel; simpl in Htruth; try discriminate; try reflexivity.
    unfold py_get.
    destruct (dict_get "price" d) as [v|].
    + change (default (PInt 0) (Some v)) with v.
      rewrite add_or_skip_as_number. destruct (as_number v); reflexivity.
    + reflexivity.
  - destruct sel; simpl in Htruth; try discriminate; try reflexivity.
    destruct d; [reflexivity | discriminate].
Qed.

Lemma add_addons_spec (addons : pyval) (total : float) :
  match py_or addons (PDict []) with
  | PDict d => fold_left (fun total v => add_or_skip total (inl v)) (dict_values d) total
  | _ => total
  end = fold_left PrimFloat.add (addon_numbers addons) total.
Proof.
  unfold py_or, addon_numbers.
  destruct (truthy addons) eqn:Htruth.
  - destruct addons; simpl in Htruth; try discriminate; try reflexivity.
    apply fold_add_or_skip.
  - destruct addons; simpl in Htruth; try discriminate; try reflexivity.
    destruct d; [reflexivity | discriminate].
Qed.

(** The recomputation is a total function of the two slots it reads, and
    touches nothing but the total. *)
Lemma recompute_total_spec (b : Booking) :
  _recompute_total b =
  set_total_amount (spec_total (selection_data b) (addons_data b)) b.
Proof.
  unfold _recompute_total, spec_total, fsum. simpl.
  rewrite add_price_spec, add_addons_spec. reflexivity.
Qed.

(** A string counts for the number it spells: what [float] accepts is what
    is numeric. *)
Lemma numeric_string_counts (b : Booking) (s : string) (x : float) :
  float_of_str s = Some x -> s <> "" ->
  selection_data b = PDict [("price", PStr s)] -> addons_data b = PNone ->
  total_amount (_recompute_total b) = py_round2 (0 + x)%float.
Proof.
  intros Hs Hne Hsel Hadd. rewrite recompute_total_spec. cbn [total_amount set_total_amount].
  rewrite Hsel, Hadd. unfold spec_total, fsum, price_of, addon_numbers, as_number.
  cbn [dict_get String.eqb Ascii.eqb Bool.eqb truthy fold_left].
  change (dict_get "price" [("price", PStr s)]) with (Some (PStr s)).
  cbn [truthy]. rewrite (proj2 (String.eqb_neq s "") Hne). cbn [negb default].
  rewrite Hs. reflexivity.
Qed.

(** ** The ownership check *)

Lemma attach_spec (current_user : user) (b : Booking) (db : DB) :
  _attach_to_current_user_if_needed current_user b db =
  (permitted current_user b, bound current_user b, bound_db current_user b db).
Proof.
  unfold _attach_to_current_user_if_needed, permitted, bound, bound_db.
  destruct current_user as [uid|]; [|reflexivity].
  destruct (user_id b) as [owner|] eqn:Hown; simpl.
  - rewrite Hown. destruct (Z.eqb_spec owner uid) as [->|Hne].
    + rewrite bool_decide_eq_true_2; reflexivity.
    + rewrite bool_decide_eq_false_2; [reflexivity | congruence].
  - rewrite bool_decide_eq_true_2; reflexivity.
Qed.

Lemma bound_db_spec (current_user : user) (b : Booking) (db : DB) :
  bound_db current_user b db = db \/
  bound_db current_user b db = commit (bound current_user b) db.
Proof.
  unfold bound_db, bound.
  destruct current_user as [uid|], (user_id b) as [owner|]; auto.
Qed.

Lemma commit_commit (b1 b2 : Booking) (db : DB) :
  id b1 = id b2 -> commit b2 (commit b1 db) = commit b2 db.
Proof.
  intros Hid. unfold commit. simpl. rewrite Hid, insert_insert_eq. reflexivity.
Qed.

Lemma commit_bound_db (current_user : user) (b b' : Booking) (db : DB) :
  id b' = id b -> commit b' (bound_db current_user b db) = commit b' db.
Proof.
  intros Hid. destruct (bound_db_spec current_user b db) as [-> | ->]; [reflexivity|].
  apply commit_commit. rewrite Hid. unfold bound.
  destruct current_user, (user_id b); reflexivity.
Qed.

Lemma id_bound (current_user : user) (b : Booking) : id (bound current_user b) = id b.
Proof. unfold bound. destruct current_user, (user_id b); reflexivity. Qed.

Lemma id_recompute (b : Booking) : id (_recompute_total b) = id b.
Proof. rewrite recompute_total_spec. reflexivity. Qed.

Lemma id_set_step_data (step : Z) (data : pyval) (b b' : Booking) :
  set_step_data step data b = Some b' ->
  id b' = id b /\ user_id b' = user_id b /\ booking_status b' = booking_status b.
Proof.
  unfold set_step_data. intros H.
  repeat case_match; simplify_eq; auto.
Qed.

(** ** One request touches at most one row *)

Lemma wf_fresh (db : DB) : wf db -> bookings db !! next_booking_id db = None.
Proof.
  intros [_ Hall]. destruct (bookings db !! next_booking_id db) as [b|] eqn:Hb; [|reflexivity].
  apply Hall in Hb. lia.
Qed.

Lemma wf_id (db : DB) (i : Z) (b : Booking) :
  wf db -> bookings db !! i = Some b -> id b = i /\ 0 < i < next_booking_id db.
Proof. intros [_ Hall] Hb. exact (Hall i b Hb). Qed.

Lemma get_or_404_Some (booking_id : option Z) (db : DB) (b : Booking) :
  get_or_404 booking_id db = Some b ->
  exists i, booking_id = Some i /\ bookings db !! i = Some b.
Proof. destruct booking_id as [i|]; simpl; [eauto | discriminate]. Qed.

Lemma row_step_bound (current_user : user) (r : request) (b : Booking) :
  row_step current_user r b (bound current_user b).
Proof.
  unfold row_step, bound.
  destruct current_user as [uid|], (user_id b) as [owner|] eqn:Hown;
    simpl; rewrite ?Hown; auto.
Qed.

Lemma row_step_recompute (current_user : user) (r : request) (b b' : Booking) :
  row_step current_user r b b' -> row_step current_user r b (_recompute_total b').
Proof. rewrite recompute_total_spec. exact (fun H => H). Qed.

Lemma row_step_set_step_data (current_user : user) (r : request) (step : Z)
    (data : pyval) (b b' b'' : Booking) :
  row_step current_user r b b' -> set_step_data step data b' = Some b'' ->
  row_step current_user r b b''.
Proof.
  intros (Hid & Hown & Hst) Hset.
  apply id_set_step_data in Hset as (Hid' & Hown' & Hst').
  unfold row_step. rewrite Hid', Hown', Hst'. auto.
Qed.

Lemma row_step_set_status (current_user : user) (r : request) (s : status)
    (b b' : Booking) :
  row_step current_user r b b' ->
  (if is_confirm r then s = in_progress else terminal s = true) ->
  row_step current_user r b (set_status s b').
Proof. intros (Hid & Hown & _) Hs. unfold row_step. simpl. auto. Qed.

Lemma effect_bound_db (current_user : user) (r : request) (db : DB) (i : Z) (b : Booking) :
  wf db -> bookings db !! i = Some b ->
  effect current_user r db (bound_db current_user b db).
Proof.
  intros Hwf Hb. destruct (wf_id db i b Hwf Hb) as [Hid _].
  destruct (bound_db_spec current_user b db) as [-> | ->].
  - left. auto.
  - right; left. exists b, (bound current_user b).
    rewrite Hid. split; [exact Hb|]. split; [apply row_step_bound|].
    simpl. rewrite id_bound, Hid. auto.
Qed.

Lemma effect_commit (current_user : user) (r : request) (db db' : DB) (i : Z) (b b' : Booking) :
  wf db -> bookings db !! i = Some b -> row_step current_user r b b' ->
  bookings db' = bookings (commit b' (bound_db current_user b db)) ->
  next_booking_id db' = next_booking_id db ->
  effect current_user r db db'.
Proof.
  intros Hwf Hb Hstep Hbk Hnext. destruct (wf_id db i b Hwf Hb) as [Hid _].
  right; left. exists b, b'. rewrite Hid. split; [exact Hb|]. split; [exact Hstep|].
  split; [|exact Hnext].
  rewrite Hbk, commit_bound_db by apply Hstep. simpl.
  destruct Hstep as [-> _]. rewrite Hid. reflexivity.
Qed.

Lemma next_bound_db (current_user : user) (b : Booking) (db : DB) :
  next_booking_id (bound_db current_user b db) = next_booking_id db.
Proof. destruct (bound_db_spec current_user b db) as [-> | ->]; reflexivity. Qed.

Lemma payments_bound_db (current_user : user) (b : Booking) (db : DB) :
  payments (bound_db current_user b db) = payments db /\
  next_payment_id (bound_db current_user b db) = next_payment_id db.
Proof. destruct (bound_db_spec current_user b db) as [-> | ->]; auto. Qed.

Lemma save_step_effect cur step body db :
  wf db -> effect cur (SaveStep step body) db (snd (save_step cur step body db)).
Proof.
  intros Hwf. unfold save_step, _get_or_create_booking.
  destruct (match p_booking_id body with Some i => negb (i =? 0) | None => false end).
  - destruct (get_or_404 (p_booking_id body) db) as [b|] eqn:Hget; [|left; auto].
    apply get_or_404_Some in Hget as (i & _ & Hb).
    rewrite attach_spec.
    destruct (permitted cur b); cbn [negb snd]; [|by eapply effect_bound_db].
    destruct (set_step_data _ _ _) as [b'|] eqn:Hset; cbn [snd]; [|by eapply effect_bound_db].
    eapply effect_commit; [exact Hwf | exact Hb | | reflexivity | apply next_bound_db].
    apply row_step_recompute. eapply row_step_set_step_data; eauto using row_step_bound.
  - rewrite attach_spec. set (b := new_booking _ _).
    assert (Hb : bound cur b = b) by (destruct cur; reflexivity).
    assert (Hdb : forall db0, bound_db cur b db0 = db0) by (destruct cur; reflexivity).
    assert (Hp : permitted cur b = true) by (destruct cur; simpl; auto using Z.eqb_refl).
    rewrite Hb, Hdb, Hp. simpl.
    right; right.
    destruct (set_step_data _ _ _) as [b'|] eqn:Hset; simpl.
    + apply id_set_step_data in Hset as (Hid & _).
      exists (_recompute_total b'). rewrite id_recompute, Hid. simpl.
      rewrite insert_insert_eq. auto.
    + exists b. auto.
Qed.

Lemma confirm_effect cur body db :
  wf db -> effect cur (Confirm body) db (snd (confirm_booking cur body db)).
Proof.
  intros Hwf. unfold confirm_booking.
  destruct cur as [uid|]; [|left; auto].
  destruct (get_or_404 (p_booking_id body) db) as [b|] eqn:Hget; [|left; auto].
  apply get_or_404_Some in Hget as (i & _ & Hb).
  rewrite attach_spec.
  destruct (permitted _ b); cbn [negb snd]; [|by eapply effect_bound_db].
  eapply effect_commit; [exact Hwf | exact Hb | | reflexivity | apply next_bound_db].
  apply row_step_recompute, row_step_set_status; [apply row_step_bound | reflexivity].
Qed.

Lemma create_payment_intent_effect cur body create db :
  wf db ->
  effect cur (CreatePaymentIntent body create) db
         (snd (create_payment_intent cur body create db)).
Proof.
  intros Hwf. unfold create_payment_intent.
  destruct cur as [uid|]; [|left; auto].
  destruct (get_or_404 (p_booking_id body) db) as [b|] eqn:Hget; [|left; auto].
  apply get_or_404_Some in Hget as (i & _ & Hb).
  rewrite attach_spec.
  destruct (permitted _ b); cbn [negb snd]; [|by eapply effect_bound_db].
  repeat case_match; cbn [snd]; by eapply effect_bound_db.
Qed.

Lemma pay_effect cur body retrieve confirm db :
  wf db ->
  effect cur (Pay body retrieve confirm) db (snd (pay cur body retrieve confirm db)).
Proof.
  intros Hwf. unfold pay.
  destruct cur as [uid|]; [|left; auto].
  destruct (get_or_404 (p_booking_id body) db) as [b|] eqn:Hget; [|left; auto].
  apply get_or_404_Some in Hget as (i & _ & Hb).
  rewrite attach_spec.
  destruct (permitted _ b); cbn [negb snd]; [|by eapply effect_bound_db].
  repeat case_match; cbn [snd]; try by eapply effect_bound_db.
  all: eapply effect_commit; [exact Hwf | exact Hb | | reflexivity | apply next_bound_db].
  all: apply row_step_set_status; [|reflexivity].
  all: apply row_step_recompute, row_step_bound.
Qed.

Lemma cancel_effect cur body db :
  wf db -> effect cur (Cancel body) db (snd (cancel cur body db)).
Proof.
  intros Hwf. unfold cancel.
  destruct cur as [uid|]; [|left; auto].
  destruct (get_or_404 (p_booking_id body) db) as [b|] eqn:Hget; [|left; auto].
  apply get_or_404_Some in Hget as (i & _ & Hb).
  rewrite attach_spec.
  destruct (permitted _ b); cbn [negb snd]; [|by eapply effect_bound_db].
  eapply effect_commit; [exact Hwf | exact Hb | | reflexivity | apply next_bound_db].
  apply row_step_set_status; [apply row_step_bound | reflexivity].
Qed.

Lemma handle_effect cur r db : wf db -> effect cur r db (snd (handle cur r db)).
Proof.
  destruct r; simpl;
    auto using save_step_effect, confirm_effect, create_payment_intent_effect,
               pay_effect, cancel_effect.
Qed.

(** ** The invariant and the fate of a row *)

Lemma row_step_refl (current_user : user) (r : request) (b : Booking) :
  row_step current_user r b b.
Proof. unfold row_step. auto. Qed.

Lemma empty_db_wf : wf empty_db.
Proof. split; [reflexivity | apply map_Forall_empty]. Qed.

Lemma handle_wf (current_user : user) (r : request) (db : DB) :
  wf db -> wf (snd (handle current_user r db)).
Proof.
  intros Hwf. destruct (handle_effect current_user r db Hwf)
    as [[Hbk Hnext] | [(b & b' & Hb & Hstep & Hbk & Hnext) | (b' & Hid & Hbk & Hnext)]];
    destruct Hwf as [Hpos Hall]; split; rewrite ?Hbk, ?Hnext; try lia; try assumption.
  - apply map_Forall_insert_2; [|exact Hall].
    destruct Hstep as [Hid _]. specialize (Hall _ _ Hb). simpl in Hall. lia.
  - apply map_Forall_insert_2; [lia|].
    intros k b Hb. specialize (Hall k b Hb). simpl in Hall. lia.
Qed.

Lemma run_wf (reqs : list (user * request)) (db : DB) : wf db -> wf (run reqs db).
Proof.
  revert db. induction reqs as [|[u r] reqs IH]; intros db Hwf; simpl;
    auto using handle_wf.
Qed.

(** Every database the service reaches from the empty one is well formed. *)
Lemma reachable_wf (reqs : list (user * request)) : wf (run reqs empty_db).
Proof. apply run_wf, empty_db_wf. Qed.

Lemma handle_row (current_user : user) (r : request) (db : DB) (i : Z) (b : Booking) :
  wf db -> bookings db !! i = Some b ->
  exists b', bookings (snd (handle current_user r db)) !! i = Some b' /\
             row_step current_user r b b'.
Proof.
  intros Hwf Hb. destruct (wf_id db i b Hwf Hb) as [Hid Hlt].
  destruct (handle_effect current_user r db Hwf)
    as [[Hbk _] | [(b0 & b' & Hb0 & Hstep & Hbk & _) | (b' & Hid' & Hbk & _)]];
    rewrite Hbk.
  - exists b. auto using row_step_refl.
  - destruct (decide (id b0 = i)) as [Heq | Hne].
    + rewrite Heq in Hb0. assert (b0 = b) as -> by congruence.
      exists b'. rewrite Hid, lookup_insert_eq. auto.
    + exists b. rewrite lookup_insert_ne by exact Hne. auto using row_step_refl.
  - exists b. rewrite lookup_insert_ne by lia. auto using row_step_refl.
Qed.

Lemma run_owner (reqs : list (user * request)) (db : DB) (i a : Z) (b : Booking) :
  wf db -> bookings db !! i = Some b -> user_id b = Some a ->
  exists b', bookings (run reqs db) !! i = Some b' /\ user_id b' = Some a.
Proof.
  revert db b. induction reqs as [|[u r] reqs IH]; intros db b Hwf Hb Hown; simpl.
  - eauto.
  - destruct (handle_row u r db i b Hwf Hb) as (b' & Hb' & _ & Hown' & _).
    apply (IH _ b'); [by apply handle_wf | exact Hb' |].
    destruct Hown' as [-> | [Hnone _]]; congruence.
Qed.


(** ** Successful saves *)

Lemma set_step_data_in_range (step : Z) (data : pyval) (b : Booking) :
  0 <= step <= 4 ->
  exists b', set_step_data step data b = Some b' /\
             step_slot step b' = Some data /\
             id b' = id b /\ user_id b' = user_id b /\
             booking_status b' = booking_status b.
Proof.
  intros Hstep.
  assert (step = 0 \/ step = 1 \/ step = 2 \/ step = 3 \/ step = 4)
    as [-> | [-> | [-> | [-> | ->]]]] by lia;
    eexists; (split; [reflexivity | auto]).
Qed.

Lemma set_step_data_out_of_range (step : Z) (data : pyval) (b : Booking) :
  step < 0 \/ 4 < step -> set_step_data step data b = None.
Proof.
  intros Hstep. unfold set_step_data.
  rewrite !(proj2 (Z.eqb_neq _ _)) by lia. reflexivity.
Qed.

Lemma step_slot_recompute (step : Z) (b : Booking) :
  step_slot step (_recompute_total b) = step_slot step b.
Proof. rewrite recompute_total_spec. reflexivity. Qed.

Lemma recompute_total_total (b : Booking) :
  total_amount (_recompute_total b) =
  spec_total (selection_data (_recompute_total b)) (addons_data (_recompute_total b)).
Proof. rewrite recompute_total_spec. reflexivity. Qed.

Lemma lookup_commit (b : Booking) (db : DB) : bookings (commit b db) !! id b = Some b.
Proof. simpl. apply lookup_insert_eq. Qed.

(** What [save_step] answers and stores once the booking is found or made
    and the ownership check passes. *)
Lemma save_step_saved (current_user : user) (step : Z) (body : payload)
    (db db0 : DB) (b0 : Booking) :
  0 <= step <= 4 ->
  _get_or_create_booking current_user (p_booking_id body) db = Some (b0, db0) ->
  permitted current_user b0 = true ->
  exists b1,
    set_step_data step (p_data body) (bound current_user b0) = Some b1 /\
    save_step current_user step body db =
      (Jsonify (saved_body (id b0) (total_amount (_recompute_total b1))
                           (_next_url_for_step step (id b0))) 200,
       commit (_recompute_total b1) (bound_db current_user b0 db0)).
Proof.
  intros Hstep Hget Hperm. unfold save_step. rewrite Hget, attach_spec, Hperm.
  destruct (set_step_data_in_range step (p_data body) (bound current_user b0) Hstep)
    as (b1 & Hset & _ & Hid & _).
  exists b1. split; [exact Hset|]. rewrite Hset. cbn [negb].
  rewrite id_recompute, Hid, id_bound. reflexivity.
Qed.

(** C1. For every step 0..4 and every data payload, once [save_step] has
    its booking and the ownership check passes, it answers 200 with the
    total it stored, the stored row holds the payload in the step's slot,
    and its [total_amount] is [round(selection.price + sum of the numeric
    add-on values, 2)]: a missing price, missing or non-mapping add-ons and
    every non-numeric value count as 0.  The recomputation fails on no
    booking, whatever the shape of its slots: it always returns the booking
    with that total and nothing else changed. *)
Theorem save_step_total (current_user : user) (step : Z) (body : payload)
    (db db0 : DB) (b0 : Booking) :
  0 <= step <= 4 ->
  _get_or_create_booking current_user (p_booking_id body) db = Some (b0, db0) ->
  permitted current_user b0 = true ->
  exists b,
    fst (save_step current_user step body db) =
      Jsonify (saved_body (id b0) (total_amount b)
                          (_next_url_for_step step (id b0))) 200 /\
    bookings (snd (save_step current_user step body db)) !! id b0 = Some b /\
    step_slot step b = Some (p_data body) /\
    total_amount b = spec_total (selection_data b) (addons_data b) /\
    forall any : Booking,
      _recompute_total any =
      set_total_amount (spec_total (selection_data any) (addons_data any)) any.
Proof.
  intros Hstep Hget Hperm.
  destruct (save_step_saved current_user step body db db0 b0 Hstep Hget Hperm)
    as (b1 & Hset & ->).
  destruct (set_step_data_in_range step (p_data body) (bound current_user b0) Hstep)
    as (b1' & Hset' & Hslot & Hid & _).
  assert (b1' = b1) as -> by congruence.
  exists (_recompute_total b1). cbn [fst snd]. split; [reflexivity|].
  split; [|split; [|split]].
  - rewrite <- (id_bound current_user b0), <- Hid, <- (id_recompute b1).
    apply lookup_commit.
  - rewrite step_slot_recompute. exact Hslot.
  - apply recompute_total_total.
  - apply recompute_total_spec.
Qed.


(** C9. The ownership check turns away only a logged-in caller who is not
    the owner: on a stored booking bound to some user, [save_step] by an
    anonymous caller with that booking id and a step 0..4 answers 200, not
    403, and overwrites the row: the booking then found under the id has the
    payload in the step's slot, whatever was there, and the total its
    selection and add-ons now give; its owner, its status and its other
    slots are as they were, and so is every other booking. *)
Theorem anonymous_save_step_overwrites (step : Z) (body : payload) (db : DB)
    (i a : Z) (b : Booking) :
  wf db -> 0 <= step <= 4 ->
  p_booking_id body = Some i -> bookings db !! i = Some b -> user_id b = Some a ->
  exists b',
    save_step None step body db =
      (Jsonify (saved_body i (total_amount b') (_next_url_for_step step i)) 200,
       commit b' db) /\
    bookings (snd (save_step None step body db)) !! i = Some b' /\
    (forall j, j <> i ->
       bookings (snd (save_step None step body db)) !! j = bookings db !! j) /\
    id b' = i /\
    user_id b' = Some a /\
    booking_status b' = booking_status b /\
    step_slot step b' = Some (p_data body) /\
    (forall other, other <> step -> step_slot other b' = step_slot other b) /\
    total_amount b' = spec_total (selection_data b') (addons_data b').
Proof.
  intros Hwf Hstep Hbody Hb Hown.
  destruct (wf_id db i b Hwf Hb) as [Hidb Hi].
  assert (Hget : _get_or_create_booking None (p_booking_id body) db = Some (b, db)).
  { unfold _get_or_create_booking. rewrite Hbody.
    rewrite (proj2 (Z.eqb_neq i 0)) by lia. simpl. rewrite Hb. reflexivity. }
  destruct (save_step_saved None step body db db b Hstep Hget eq_refl)
    as (b1 & Hset & Hsave).
  destruct (set_step_data_in_range step (p_data body) (bound None b) Hstep)
    as (b1' & Hset' & Hslot & Hid & Hown' & Hst).
  assert (b1' = b1) as -> by congruence.
  assert (Hid' : id (_recompute_total b1) = i)
    by (rewrite id_recompute, Hid; exact Hidb).
  exists (_recompute_total b1). rewrite Hsave, Hidb. cbn [snd bound_db].
  split; [reflexivity|].
  split.
  { pose proof (lookup_commit (_recompute_total b1) db) as Hl.
    rewrite Hid' in Hl. exact Hl. }
  split.
  { intros j Hj. cbn [commit bookings]. rewrite Hid'.
    apply lookup_insert_ne. congruence. }
  split; [exact Hid'|].
  rewrite step_slot_recompute.
  split; [rewrite recompute_total_spec; simpl; rewrite Hown'; exact Hown|].
  split; [rewrite recompute_total_spec; exact Hst|].
  split; [exact Hslot|].
  split; [|apply recompute_total_total].
  intros other Hother. rewrite step_slot_recompute.
  cbn [bound] in Hset. unfold set_step_data in Hset. unfold step_slot.
  repeat case_match; simplify_eq; try reflexivity; lia.
Qed.

(** C10. [save_step] with no booking id and a step outside 0..4 answers
    400 "Invalid step", yet the draft it made first stays committed: the
    table has a new row under an id it did not hold, with every slot unset,
    a total of 0 and status [draft]. *)
Theorem invalid_step_leaves_draft (current_user : user) (step : Z)
    (body : payload) (db : DB) :
  wf db -> p_booking_id body = None -> step < 0 \/ 4 < step ->
  bookings db !! next_booking_id db = None /\
  save_step current_user step body db =
    (Jsonify [("error", PStr "Invalid step")] 400,
     mkDB (<[next_booking_id db := new_booking (next_booking_id db) current_user]>
             (bookings db))
          (next_booking_id db + 1) (payments db) (next_payment_id db)).
Proof.
  intros Hwf Hbody Hstep. split; [by apply wf_fresh|].
  unfold save_step, _get_or_create_booking. rewrite Hbody, attach_spec.
  set (b := new_booking _ _).
  assert (Hb : bound current_user b = b) by (destruct current_user; reflexivity).
  assert (Hdb : forall db0, bound_db current_user b db0 = db0)
    by (destruct current_user; reflexivity).
  assert (Hp : permitted current_user b = true)
    by (destruct current_user; simpl; auto using Z.eqb_refl).
  rewrite Hb, Hdb, Hp, set_step_data_out_of_range by exact Hstep.
  reflexivity.
Qed.

(** ** Confirming twice *)

Lemma confirm_fixpoint (uid : Z) (b : Booking) :
  permitted (Some uid) b = true ->
  let b1 := _recompute_total (set_status in_progress (bound (Some uid) b)) in
  permitted (Some uid) b1 = true /\
  _recompute_total (set_status in_progress (bound (Some uid) b1)) = b1.
Proof.
  intros Hperm b1. subst b1.
  destruct b as [i [owner|] ? ? ? ? ? ? ?]; cbn [bound user_id] in *;
    rewrite recompute_total_spec;
    cbn [bound set_status set_total_amount set_user_id user_id];
    rewrite recompute_total_spec; simpl; auto using Z.eqb_refl.
Qed.

(** The body of a successful [confirm]. *)
Lemma confirm_booking_ok (uid : Z) (body : payload) (db : DB) (b : Booking) :
  get_or_404 (p_booking_id body) db = Some b ->
  permitted (Some uid) b = true ->
  confirm_booking (Some uid) body db =
    (Jsonify [("message", PStr "Booking ready for payment");
              ("booking_id", PInt (id b));
              ("total", PFloat (total_amount
                 (_recompute_total (set_status in_progress (bound (Some uid) b)))));
              ("next_url", PStr ("/checkout.html?booking_id=" ++ py_str_int (id b)))]
             200,
     commit (_recompute_total (set_status in_progress (bound (Some uid) b))) db).
Proof.
  intros Hget Hperm. unfold confirm_booking.
  rewrite Hget, attach_spec, Hperm. cbn [negb].
  rewrite id_recompute. cbn [id set_status]. rewrite id_bound.
  rewrite commit_bound_db; [reflexivity|].
  rewrite id_recompute. cbn [id set_status]. apply id_bound.
Qed.

(** C6. [confirm] is idempotent: on a booking the logged-in caller owns (or
    that is still unbound), the first call stores the booking with the
    caller as owner, the status [in_progress] and the total its selection
    and add-ons give, everything else as it was; the second of two calls in
    a row recomputes the same total, gives the same answer as the first and
    leaves the database exactly as the first left it. *)
Theorem confirm_idempotent (uid : Z) (body : payload) (db : DB) (i : Z) (b : Booking) :
  p_booking_id body = Some i -> bookings db !! i = Some b ->
  permitted (Some uid) b = true ->
  exists b1 answer,
    confirm_booking (Some uid) body db = (Jsonify answer 200, commit b1 db) /\
    confirm_booking (Some uid) body (commit b1 db) = (Jsonify answer 200, commit b1 db) /\
    dict_get "total" answer = Some (PFloat (total_amount b1)) /\
    bookings (commit b1 db) !! id b = Some b1 /\
    booking_status b1 = in_progress /\
    total_amount b1 = spec_total (selection_data b) (addons_data b) /\
    b1 = mkBooking (id b) (Some uid) (search_data b) (selection_data b)
                   (travelers_data b) (addons_data b) (review_data b)
                   (spec_total (selection_data b) (addons_data b)) in_progress.
Proof.
  intros Hbody Hb Hperm.
  destruct (confirm_fixpoint uid b Hperm) as [Hperm1 Hfix].
  pose proof (confirm_booking_ok uid body db b) as Hfirst.
  remember (_recompute_total (set_status in_progress (bound (Some uid) b))) as b1 eqn:Hb1.
  assert (Hid1 : id b1 = id b).
  { subst b1. rewrite id_recompute. cbn [id set_status]. apply id_bound. }
  assert (Hget : get_or_404 (p_booking_id body) db = Some b) by (rewrite Hbody; exact Hb).
  assert (Hrow : b1 = mkBooking (id b) (Some uid) (search_data b) (selection_data b)
                   (travelers_data b) (addons_data b) (review_data b)
                   (spec_total (selection_data b) (addons_data b)) in_progress).
  { subst b1. rewrite recompute_total_spec. unfold permitted in Hperm.
    unfold bound. destruct b as [k [owner|] ? ? ? ? ? ? ?]; cbn in *; [|reflexivity].
    apply Z.eqb_eq in Hperm. subst owner. reflexivity. }
  exists b1. eexists. split; [apply Hfirst; assumption|].
  split; [|split; [reflexivity | split; [|split; [|split]]]].
  - destruct (decide (id b = i)) as [Heq | Hne].
    + assert (Hget1 : get_or_404 (p_booking_id body) (commit b1 db) = Some b1).
      { rewrite Hbody. cbn [get_or_404 commit bookings].
        rewrite Hid1, Heq. apply lookup_insert_eq. }
      rewrite (confirm_booking_ok uid body _ b1 Hget1 Hperm1), Hfix, Hid1.
      rewrite commit_commit by reflexivity. reflexivity.
    + assert (Hget1 : get_or_404 (p_booking_id body) (commit b1 db) = Some b).
      { rewrite Hbody. cbn [get_or_404 commit bookings].
        rewrite Hid1, lookup_insert_ne by exact Hne. exact Hb. }
      rewrite (confirm_booking_ok uid body _ b Hget1 Hperm), <- Hb1.
      rewrite commit_commit by reflexivity. reflexivity.
  - rewrite <- Hid1. apply lookup_commit.
  - subst b1. rewrite recompute_total_spec. reflexivity.
  - rewrite Hrow. reflexivity.
  - exact Hrow.
Qed.

(** ** Payment *)

Lemma bound_db_row (current_user : user) (b : Booking) (db : DB) (k : Z) :
  wf db -> bookings db !! k = Some b ->
  forall i x, bookings db !! i = Some x ->
    exists x', bookings (bound_db current_user b db) !! i = Some x' /\
               booking_status x' = booking_status x /\
               total_amount x' = total_amount x.
Proof.
  intros Hwf Hb i x Hx. destruct (wf_id db k b Hwf Hb) as [Hid _].
  destruct (bound_db_spec current_user b db) as [-> | ->]; [eauto|].
  cbn [commit bookings]. rewrite id_bound, Hid.
  destruct (decide (k = i)) as [-> | Hne].
  - rewrite lookup_insert_eq. assert (x = b) as -> by congruence.
    eexists. split; [reflexivity|].
    unfold bound. destruct current_user, (user_id b); auto.
  - rewrite lookup_insert_ne by exact Hne. eauto.
Qed.

(** C7. When [pay] answers 201, the intent it ended with is in state
    [succeeded] and its amount is the booking's total in cents as the
    handler converts it; exactly one Payment row was appended, its amount
    the booking's recomputed total, its transaction reference the intent's
    id, its status [success]; the booking is stored with status
    [confirmed]; and the answer carries the payment id, the transaction
    reference and the next-page hint. *)
Theorem pay_success (current_user : user) (body : payload)
    (retrieve confirm : option string -> stripe_result) (db db' : DB)
    (answer : list (string * pyval)) :
  pay current_user body retrieve confirm db = (Jsonify answer 201, db') ->
  exists b b' intent p,
    get_or_404 (p_booking_id body) db = Some b /\
    (retrieve (p_payment_intent_id body) = StripeOk intent \/
     confirm (p_payment_intent_id body) = StripeOk intent) /\
    intent_status intent = "succeeded" /\
    py_int (total_amount b' * 100)%float = inl (intent_amount intent) /\
    p = mkPayment (next_payment_id db) (id b) (total_amount b')
                  "success" "stripe" (intent_id intent) /\
    payments db' = (payments db ++ [p])%list /\
    bookings db' !! id b = Some b' /\
    booking_status b' = confirmed /\
    total_amount b' = spec_total (selection_data b') (addons_data b') /\
    answer = [("message", PStr "Payment success");
              ("payment_id", PInt (payment_id p));
              ("txn_ref", PStr (intent_id intent));
              ("booking_id", PInt (id b));
              ("next_url", PStr ("/dashboard.html?booking_id=" ++ py_str_int (id b)))].
Proof.
  unfold pay. intros Hpay.
  destruct current_user as [uid|]; [|discriminate].
  destruct (get_or_404 (p_booking_id body) db) as [b|] eqn:Hget; [|discriminate].
  rewrite attach_spec in Hpay.
  destruct (permitted (Some uid) b); cbn [negb] in Hpay; [|discriminate].
  remember (_recompute_total (bound (Some uid) b)) as bR eqn:HbR.
  assert (HidR : id bR = id b) by (subst bR; rewrite id_recompute; apply id_bound).
  destruct (retrieve (p_payment_intent_id body)) as [i0|] eqn:Hret; [|discriminate].
  assert (Hfinal : exists intent,
    (retrieve (p_payment_intent_id body) = StripeOk intent \/
     confirm (p_payment_intent_id body) = StripeOk intent) /\
    intent_status intent = "succeeded" /\
    py_int (total_amount bR * 100)%float = inl (intent_amount intent) /\
    (Jsonify answer 201, db') =
      (Jsonify [("message", PStr "Payment success");
                ("payment_id", PInt (next_payment_id (bound_db (Some uid) b db)));
                ("txn_ref", PStr (intent_id intent));
                ("booking_id", PInt (id bR));
                ("next_url", PStr ("/dashboard.html?booking_id=" ++ py_str_int (id bR)))]
               201,
       commit (set_status confirmed bR)
         (add_payment (mkPayment (next_payment_id (bound_db (Some uid) b db)) (id bR)
                         (total_amount bR) "success" "stripe" (intent_id intent))
                      (bound_db (Some uid) b db)))).
  { repeat case_match; simplify_eq;
      match goal with
      | H : negb (String.eqb (intent_status ?i) "succeeded") = false |- _ =>
          apply negb_false_iff, String.eqb_eq in H; exists i
      end;
      match goal with
      | H : negb (Z.eqb _ _) = false |- _ => apply negb_false_iff, Z.eqb_eq in H
      end; subst; rewrite ?Hret; eauto 10. }
  clear Hpay. destruct Hfinal as (intent & Hsrc & Hst & Hamt & Heq).
  destruct (payments_bound_db (Some uid) b db) as [Hpays Hnext].
  rewrite Hnext, HidR in Heq.
  remember (bound_db (Some uid) b db) as dbB eqn:HdbB.
  injection Heq as -> ->.
  exists b, (set_status confirmed bR), intent. eexists.
  split; [reflexivity|]. split; [rewrite <- Hret; exact Hsrc|]. split; [exact Hst|].
  split; [exact Hamt|]. split; [reflexivity|].
  split; [cbn [commit add_payment payments]; rewrite Hpays; reflexivity|].
  split; [rewrite <- HidR; apply (lookup_commit (set_status confirmed bR))|].
  split; [reflexivity|]. split; [|reflexivity].
  subst bR. rewrite recompute_total_spec. reflexivity.
Qed.

(** C8. When [pay] answers 400 "Amount mismatch", no Payment row has been
    added and every booking is stored with the status (and total) it had
    before the call. *)
Theorem amount_mismatch_changes_nothing (current_user : user) (body : payload)
    (retrieve confirm : option string -> stripe_result) (db db' : DB) :
  wf db ->
  pay current_user body retrieve confirm db =
    (Jsonify [("error", PStr "Amount mismatch")] 400, db') ->
  payments db' = payments db /\
  forall i b, bookings db !! i = Some b ->
    exists b', bookings db' !! i = Some b' /\
               booking_status b' = booking_status b /\
               total_amount b' = total_amount b.
Proof.
  unfold pay. intros Hwf Hpay.
  destruct current_user as [uid|]; [|discriminate].
  destruct (get_or_404 (p_booking_id body) db) as [b|] eqn:Hget; [|discriminate].
  apply get_or_404_Some in Hget as (k & _ & Hb).
  rewrite attach_spec in Hpay.
  assert (Hdb : db' = bound_db (Some uid) b db)
    by (repeat case_match; simplify_eq; reflexivity).
  subst db'. split; [apply payments_bound_db | by eapply bound_db_row].
Qed.


(** ** Status and ownership over time *)

Lemma forbidden_for_other (other a i : Z) (r : request) (db : DB) (b : Booking) :
  i <> 0 -> bookings db !! i = Some b -> user_id b = Some a -> other <> a ->
  p_booking_id (request_body r) = Some i ->
  handle (Some other) r db = (forbidden, db).
Proof.
  intros Hi Hb Hown Hne Hbody.
  assert (Hget : get_or_404 (Some i) db = Some b) by exact Hb.
  assert (Hperm : permitted (Some other) b = false).
  { unfold permitted. rewrite Hown. apply Z.eqb_neq. congruence. }
  assert (Hdb : bound_db (Some other) b db = db)
    by (unfold bound_db; rewrite Hown; reflexivity).
  destruct r; cbn [handle request_body] in *;
    unfold save_step, confirm_booking, create_payment_intent, pay, cancel,
           _get_or_create_booking;
    rewrite Hbody, ?(proj2 (Z.eqb_neq i 0) Hi); cbn [negb];
    rewrite Hget, attach_spec, Hperm, Hdb; reflexivity.
Qed.

(** C4. Ownership, once bound, stays: after any run of requests a booking
    bound to user [a] is still bound to [a]; and every request on that
    booking id by another logged-in user [other] is answered 403
    "Forbidden" and leaves the database as it was. *)
Theorem ownership_permanent (db : DB) (i a : Z) (b : Booking) :
  wf db -> bookings db !! i = Some b -> user_id b = Some a ->
  (forall reqs, exists b', bookings (run reqs db) !! i = Some b' /\
                           user_id b' = Some a) /\
  (forall other r, other <> a -> p_booking_id (request_body r) = Some i ->
     handle (Some other) r db = (forbidden, db)).
Proof.
  intros Hwf Hb Hown. split.
  - intros reqs. by eapply run_owner.
  - intros other r Hne Hbody.
    destruct (wf_id db i b Hwf Hb) as [_ Hpos].
    eapply forbidden_for_other; eauto. lia.
Qed.

(** ** One request, one row *)

Lemma consistent_recompute (b : Booking) : consistent (_recompute_total b).
Proof. unfold consistent. rewrite recompute_total_spec. reflexivity. Qed.

Lemma consistent_bound (current_user : user) (b : Booking) :
  consistent b -> consistent (bound current_user b).
Proof. unfold consistent, bound. destruct current_user, (user_id b); auto. Qed.

Lemma user_id_recompute (b : Booking) : user_id (_recompute_total b) = user_id b.
Proof. rewrite recompute_total_spec. reflexivity. Qed.

Lemma bound_db_cases (current_user : user) (b : Booking) (db : DB) :
  (bound current_user b = b /\ bound_db current_user b db = db) \/
  bound_db current_user b db = commit (bound current_user b) db.
Proof.
  unfold bound_db, bound.
  destruct current_user as [uid|], (user_id b) as [owner|]; auto.
Qed.

Lemma touches_none (current_user : user) (r : request) (db : DB) :
  (forall i b, p_booking_id (request_body r) = Some i -> bookings db !! i = Some b ->
               bound current_user b = b) ->
  touches current_user r db db.
Proof. left. auto. Qed.

Lemma touches_404 (current_user : user) (r : request) (db : DB) :
  get_or_404 (p_booking_id (request_body r)) db = None ->
  touches current_user r db db.
Proof.
  intros Hget. apply touches_none. intros i b Hbody Hb.
  rewrite Hbody in Hget. simpl in Hget. congruence.
Qed.

Lemma touches_bound_db (current_user : user) (r : request) (db : DB) (i : Z) (b : Booking) :
  wf db -> p_booking_id (request_body r) = Some i -> bookings db !! i = Some b ->
  touches current_user r db (bound_db current_user b db).
Proof.
  intros Hwf Hbody Hb. destruct (wf_id db i b Hwf Hb) as [Hid _].
  destruct (bound_db_cases current_user b db) as [[Hsame ->] | ->].
  - apply touches_none. intros i' b' Hbody' Hb'.
    assert (i' = i) as -> by congruence. assert (b' = b) as -> by congruence.
    exact Hsame.
  - right; left. exists i, b, (bound current_user b).
    split; [exact Hbody|]. split; [exact Hb|].
    split; [rewrite id_bound; exact Hid|]. split; [reflexivity|].
    split; [apply consistent_bound|].
    cbn [commit bookings]. rewrite id_bound, Hid. reflexivity.
Qed.

Lemma touches_commit (current_user : user) (r : request) (db db' : DB) (i : Z)
    (b b' : Booking) :
  wf db -> p_booking_id (request_body r) = Some i -> bookings db !! i = Some b ->
  id b' = id b -> user_id b' = user_id (bound current_user b) ->
  (consistent b -> consistent b') ->
  bookings db' = bookings (commit b' (bound_db current_user b db)) ->
  touches current_user r db db'.
Proof.
  intros Hwf Hbody Hb Hid' Hown Hcons Hbk.
  destruct (wf_id db i b Hwf Hb) as [Hid _].
  right; left. exists i, b, b'.
  split; [exact Hbody|]. split; [exact Hb|]. split; [congruence|].
  split; [exact Hown|]. split; [exact Hcons|].
  rewrite Hbk, commit_bound_db by exact Hid'.
  cbn [commit bookings]. rewrite Hid', Hid. reflexivity.
Qed.

Lemma save_step_touches cur step body db :
  wf db -> touches cur (SaveStep step body) db (snd (save_step cur step body db)).
Proof.
  intros Hwf. unfold save_step, _get_or_create_booking.
  destruct (match p_booking_id body with Some i => negb (i =? 0) | None => false end)
    eqn:Hgiven.
  - destruct (get_or_404 (p_booking_id body) db) as [b|] eqn:Hget;
      [|by apply touches_404].
    apply get_or_404_Some in Hget as (i & Hbody & Hb).
    rewrite attach_spec.
    destruct (permitted cur b); cbn [negb snd]; [|by eapply touches_bound_db].
    destruct (set_step_data _ _ _) as [b'|] eqn:Hset; cbn [snd];
      [|by eapply touches_bound_db].
    apply id_set_step_data in Hset as (Hid & Hown & _).
    eapply touches_commit; [exact Hwf | exact Hbody | exact Hb | | | | reflexivity].
    + rewrite id_recompute, Hid. apply id_bound.
    + rewrite user_id_recompute. exact Hown.
    + intros _. apply consistent_recompute.
  - rewrite attach_spec. set (b := new_booking _ _).
    assert (Hb : bound cur b = b) by (destruct cur; reflexivity).
    assert (Hdb : forall db0, bound_db cur b db0 = db0) by (destruct cur; reflexivity).
    assert (Hp : permitted cur b = true) by (destruct cur; simpl; auto using Z.eqb_refl).
    rewrite Hb, Hdb, Hp. cbn [negb].
    assert (Hzero : forall i, p_booking_id (request_body (SaveStep step body)) = Some i ->
                              i = 0).
    { cbn [request_body]. intros i Hi. rewrite Hi in Hgiven.
      apply negb_false_iff, Z.eqb_eq in Hgiven. exact Hgiven. }
    right; right.
    destruct (set_step_data _ _ _) as [b'|] eqn:Hset; cbn [snd].
    + apply id_set_step_data in Hset as (Hid & _).
      exists (_recompute_total b'). split; [apply consistent_recompute|].
      split; [|exact Hzero].
      cbn [commit bookings]. rewrite id_recompute, Hid. cbn [id b new_booking].
      rewrite insert_insert_eq. reflexivity.
    + exists b. split; [reflexivity|]. split; [reflexivity | exact Hzero].
Qed.

Lemma confirm_touches cur body db :
  wf db -> touches cur (Confirm body) db (snd (confirm_booking cur body db)).
Proof.
  intros Hwf. unfold confirm_booking.
  destruct cur as [uid|]; [|by apply touches_none].
  destruct (get_or_404 (p_booking_id body) db) as [b|] eqn:Hget; [|by apply touches_404].
  apply get_or_404_Some in Hget as (i & Hbody & Hb).
  rewrite attach_spec.
  destruct (permitted _ b); cbn [negb snd]; [|by eapply touches_bound_db].
  eapply touches_commit; [exact Hwf | exact Hbody | exact Hb | | | | reflexivity].
  - rewrite id_recompute. apply id_bound.
  - rewrite user_id_recompute. reflexivity.
  - intros _. apply consistent_recompute.
Qed.

Lemma create_payment_intent_touches cur body create db :
  wf db ->
  touches cur (CreatePaymentIntent body create) db
          (snd (create_payment_intent cur body create db)).
Proof.
  intros Hwf. unfold create_payment_intent.
  destruct cur as [uid|]; [|by apply touches_none].
  destruct (get_or_404 (p_booking_id body) db) as [b|] eqn:Hget; [|by apply touches_404].
  apply get_or_404_Some in Hget as (i & Hbody & Hb).
  rewrite attach_spec.
  destruct (permitted _ b); cbn [negb snd]; [|by eapply touches_bound_db].
  repeat case_match; cbn [snd]; by eapply touches_bound_db.
Qed.

Lemma pay_touches cur body retrieve confirm db :
  wf db ->
  touches cur (Pay body retrieve confirm) db (snd (pay cur body retrieve confirm db)).
Proof.
  intros Hwf. unfold pay.
  destruct cur as [uid|]; [|by apply touches_none].
  destruct (get_or_404 (p_booking_id body) db) as [b|] eqn:Hget; [|by apply touches_404].
  apply get_or_404_Some in Hget as (i & Hbody & Hb).
  rewrite attach_spec.
  destruct (permitted _ b); cbn [negb snd]; [|by eapply touches_bound_db].
  repeat case_match; cbn [snd]; try by eapply touches_bound_db.
  all: eapply touches_commit; [exact Hwf | exact Hbody | exact Hb | | | | reflexivity].
  all: try (cbn [id set_status]; rewrite id_recompute; apply id_bound).
  all: try (cbn [user_id set_status]; rewrite user_id_recompute; reflexivity).
  all: intros _; unfold consistent; rewrite recompute_total_spec; reflexivity.
Qed.

Lemma cancel_touches cur body db :
  wf db -> touches cur (Cancel body) db (snd (cancel cur body db)).
Proof.
  intros Hwf. unfold cancel.
  destruct cur as [uid|]; [|by apply touches_none].
  destruct (get_or_404 (p_booking_id body) db) as [b|] eqn:Hget; [|by apply touches_404].
  apply get_or_404_Some in Hget as (i & Hbody & Hb).
  rewrite attach_spec.
  destruct (permitted _ b); cbn [negb snd]; [|by eapply touches_bound_db].
  eapply touches_commit; [exact Hwf | exact Hbody | exact Hb | | | | reflexivity].
  - apply id_bound.
  - reflexivity.
  - intros Hc. apply (consistent_bound (Some uid)) in Hc. exact Hc.
Qed.

Lemma handle_touches cur r db : wf db -> touches cur r db (snd (handle cur r db)).
Proof.
  destruct r; cbn [handle];
    auto using save_step_touches, confirm_touches, create_payment_intent_touches,
               pay_touches, cancel_touches.
Qed.
(** A request leaves every booking but the one its body names exactly as
    it was: the handlers write one row, the one they looked up or made. *)
Theorem other_bookings_untouched (current_user : user) (r : request) (db : DB)
    (j : Z) (x : Booking) :
  wf db -> bookings db !! j = Some x ->
  p_booking_id (request_body r) <> Some j ->
  bookings (snd (handle current_user r db)) !! j = Some x.
Proof.
  intros Hwf Hx Hne. destruct (wf_id db j x Hwf Hx) as [_ Hlt].
  destruct (handle_touches current_user r db Hwf)
    as [[-> _] | [(i & b & b' & Hbody & _ & _ & _ & _ & ->) | (b' & _ & -> & _)]].
  - exact Hx.
  - rewrite lookup_insert_ne; [exact Hx | congruence].
  - rewrite lookup_insert_ne; [exact Hx | lia].
Qed.

Lemma handle_consistent (current_user : user) (r : request) (db : DB) :
  wf db -> db_consistent db -> db_consistent (snd (handle current_user r db)).
Proof.
  intros Hwf Hcons. unfold db_consistent in *.
  destruct (handle_touches current_user r db Hwf)
    as [[-> _] | [(i & b & b' & _ & Hb & _ & _ & Hkeep & ->) | (b' & Hnew & -> & _)]].
  - exact Hcons.
  - apply map_Forall_insert_2; [|exact Hcons]. apply Hkeep. exact (Hcons i b Hb).
  - apply map_Forall_insert_2; assumption.
Qed.

(** The first logged-in caller to name an unbound booking in a request
    that writes ([save_step], [confirm], [create_payment_intent], [pay] or
    [cancel]) becomes its owner, whether or not the request then succeeds;
    from then on each of these requests on it by another logged-in user is
    answered 403 and changes nothing.  [get_booking] is no such request: on
    the unbound booking it answers any logged-in caller with the row, and it
    writes nothing. *)
Theorem first_caller_binds (uid : Z) (r : request) (db : DB) (i : Z) (b : Booking) :
  wf db -> bookings db !! i = Some b -> user_id b = None ->
  p_booking_id (request_body r) = Some i ->
  (exists b', bookings (snd (handle (Some uid) r db)) !! i = Some b' /\
              user_id b' = Some uid) /\
  (forall other r', other <> uid -> p_booking_id (request_body r') = Some i ->
     handle (Some other) r' (snd (handle (Some uid) r db)) =
       (forbidden, snd (handle (Some uid) r db))) /\
  (forall reader, get_booking (Some reader) i db = Jsonify (booking_body b) 200).
Proof.
  intros Hwf Hb Hown Hbody. destruct (wf_id db i b Hwf Hb) as [_ Hpos].
  assert (Hbound : user_id (bound (Some uid) b) = Some uid)
    by (unfold bound; rewrite Hown; reflexivity).
  assert (Hrow : exists b', bookings (snd (handle (Some uid) r db)) !! i = Some b' /\
                            user_id b' = Some uid).
  { destruct (handle_touches (Some uid) r db Hwf)
      as [[_ Hsame] | [(i' & b0 & b' & Hbody' & Hb0 & _ & Hu & _ & ->) | (b' & _ & _ & Hz)]].
    - specialize (Hsame i b Hbody Hb). rewrite Hsame in Hbound. congruence.
    - assert (i' = i) as -> by congruence. assert (b0 = b) as -> by congruence.
      exists b'. rewrite lookup_insert_eq. split; [reflexivity | congruence].
    - specialize (Hz i Hbody). lia. }
  split; [exact Hrow|]. split.
  - destruct Hrow as (b' & Hb' & Hown').
    intros other r' Hne Hbody'.
    eapply forbidden_for_other; eauto. lia.
  - intros reader. unfold get_booking. rewrite Hb, Hown. reflexivity.
Qed.
(** ** Requests that fail *)

Lemma same_content_refl (x : Booking) : same_content x x.
Proof. unfold same_content. repeat split. Qed.

Lemma same_content_bound (current_user : user) (x : Booking) :
  same_content x (bound current_user x).
Proof.
  unfold same_content, bound.
  destruct current_user, (user_id x); repeat split.
Qed.

Lemma bound_db_content (current_user : user) (b : Booking) (db : DB) (k : Z) :
  wf db -> bookings db !! k = Some b ->
  payments (bound_db current_user b db) = payments db /\
  forall j x, bookings db !! j = Some x ->
    exists x', bookings (bound_db current_user b db) !! j = Some x' /\
               same_content x x'.
Proof.
  intros Hwf Hb. split; [apply payments_bound_db|].
  intros j x Hx. destruct (wf_id db k b Hwf Hb) as [Hid _].
  destruct (bound_db_spec current_user b db) as [-> | ->];
    [eauto using same_content_refl|].
  cbn [commit bookings]. rewrite id_bound, Hid.
  destruct (decide (k = j)) as [-> | Hne].
  - rewrite lookup_insert_eq. assert (x = b) as -> by congruence.
    eauto using same_content_bound.
  - rewrite lookup_insert_ne by exact Hne. eauto using same_content_refl.
Qed.

(** Where a request that did not succeed leaves the database: as it was, or
    with the owner of the named booking bound, or (for [save_step] with no
    booking id) with the new draft in it. *)
Lemma handle_failed (current_user : user) (r : request) (db db' : DB) (resp : response) :
  handle current_user r db = (resp, db') -> succeeded resp = false ->
  db' = db \/
  (exists k b, bookings db !! k = Some b /\ db' = bound_db current_user b db) \/
  db' = mkDB (<[next_booking_id db := new_booking (next_booking_id db) current_user]>
                (bookings db))
             (next_booking_id db + 1) (payments db) (next_payment_id db).
Proof.
  intros Hrun Hfail.
  destruct r as [step body | body | body create | body retrieve confirm | body];
    cbn [handle] in Hrun.
  - unfold save_step, _get_or_create_booking in Hrun.
    destruct (match p_booking_id body with Some i => negb (i =? 0) | None => false end).
    + destruct (get_or_404 (p_booking_id body) db) as [b|] eqn:Hget;
        [|left; congruence].
      apply get_or_404_Some in Hget as (k & _ & Hb).
      rewrite attach_spec in Hrun.
      right; left. exists k, b. split; [exact Hb|].
      repeat case_match; simplify_eq; try reflexivity; discriminate.
    + rewrite attach_spec in Hrun. set (b := new_booking _ _) in *.
      assert (Hb : bound current_user b = b) by (destruct current_user; reflexivity).
      assert (Hdb : forall db0, bound_db current_user b db0 = db0)
        by (destruct current_user; reflexivity).
      rewrite Hb, Hdb in Hrun. right; right.
      repeat case_match; simplify_eq; try reflexivity; discriminate.
  - unfold confirm_booking in Hrun.
    destruct current_user as [uid|]; [|left; congruence].
    destruct (get_or_404 (p_booking_id body) db) as [b|] eqn:Hget; [|left; congruence].
    apply get_or_404_Some in Hget as (k & _ & Hb).
    rewrite attach_spec in Hrun. right; left. exists k, b. split; [exact Hb|].
    repeat case_match; simplify_eq; try reflexivity; discriminate.
  - unfold create_payment_intent in Hrun.
    destruct current_user as [uid|]; [|left; congruence].
    destruct (get_or_404 (p_booking_id body) db) as [b|] eqn:Hget; [|left; congruence].
    apply get_or_404_Some in Hget as (k & _ & Hb).
    rewrite attach_spec in Hrun. right; left. exists k, b. split; [exact Hb|].
    repeat case_match; simplify_eq; reflexivity.
  - unfold pay in Hrun.
    destruct current_user as [uid|]; [|left; congruence].
    destruct (get_or_404 (p_booking_id body) db) as [b|] eqn:Hget; [|left; congruence].
    apply get_or_404_Some in Hget as (k & _ & Hb).
    rewrite attach_spec in Hrun. right; left. exists k, b. split; [exact Hb|].
    repeat case_match; simplify_eq; try reflexivity; discriminate.
  - unfold cancel in Hrun.
    destruct current_user as [uid|]; [|left; congruence].
    destruct (get_or_404 (p_booking_id body) db) as [b|] eqn:Hget; [|left; congruence].
    apply get_or_404_Some in Hget as (k & _ & Hb).
    rewrite attach_spec in Hrun. right; left. exists k, b. split; [exact Hb|].
    repeat case_match; simplify_eq; try reflexivity; discriminate.
Qed.

(** A request answered with anything but 200 or 201 adds no payment and
    leaves every stored booking with the slots, total and status it had;
    at most the owner of the booking it names gets bound. *)
Theorem failed_request_keeps_content (current_user : user) (r : request)
    (db db' : DB) (resp : response) :
  wf db -> handle current_user r db = (resp, db') -> succeeded resp = false ->
  payments db' = payments db /\
  forall j x, bookings db !! j = Some x ->
    exists x', bookings db' !! j = Some x' /\ same_content x x'.
Proof.
  intros Hwf Hrun Hfail.
  destruct (handle_failed current_user r db db' resp Hrun Hfail)
    as [-> | [(k & b & Hb & ->) | ->]].
  - split; [reflexivity|]. eauto using same_content_refl.
  - by eapply bound_db_content.
  - split; [reflexivity|]. intros j x Hx. cbn [bookings].
    destruct (wf_id db j x Hwf Hx) as [_ Hlt].
    rewrite lookup_insert_ne by lia. eauto using same_content_refl.
Qed.
(** ** Cancelling, reading, and asking for an intent *)

(** [cancel] by a caller who passes the ownership check answers 200 and
    stores the booking as [cancelled] whatever its status was, bound to the
    caller and with its slots and total as they were (the total is not
    recomputed); a second [cancel] answers the same and changes nothing. *)
Theorem cancel_always_cancels (uid : Z) (body : payload) (db : DB) (i : Z) (b : Booking) :
  wf db -> p_booking_id body = Some i -> bookings db !! i = Some b ->
  permitted (Some uid) b = true ->
  exists b',
    cancel (Some uid) body db = (Jsonify (cancelled_body i) 200, commit b' db) /\
    bookings (commit b' db) !! i = Some b' /\
    booking_status b' = cancelled /\
    user_id b' = Some uid /\
    same_content (set_status cancelled b) b' /\
    cancel (Some uid) body (commit b' db) = (Jsonify (cancelled_body i) 200, commit b' db).
Proof.
  intros Hwf Hbody Hb Hperm. destruct (wf_id db i b Hwf Hb) as [Hid _].
  remember (set_status cancelled (bound (Some uid) b)) as b' eqn:Hb'.
  assert (Hid' : id b' = i) by (subst b'; cbn [id set_status]; rewrite id_bound; exact Hid).
  assert (Hown : user_id b' = Some uid).
  { subst b'. cbn [user_id set_status]. unfold bound, permitted in *.
    destruct (user_id b) as [owner|] eqn:Ho; cbn [user_id set_user_id]; [|reflexivity].
    rewrite Ho. apply Z.eqb_eq in Hperm. congruence. }
  assert (Hfirst : forall db0 b0, bookings db0 !! i = Some b0 ->
            permitted (Some uid) b0 = true -> id b0 = i ->
            cancel (Some uid) body db0 =
              (Jsonify (cancelled_body i) 200,
               commit (set_status cancelled (bound (Some uid) b0)) db0)).
  { intros db0 b0 Hb0 Hperm0 Hid0. unfold cancel.
    rewrite Hbody. cbn [get_or_404]. rewrite Hb0, attach_spec, Hperm0. cbn [negb].
    cbn [id set_status]. rewrite id_bound, Hid0.
    rewrite commit_bound_db by (cbn [id set_status]; apply id_bound). reflexivity. }
  exists b'. split; [subst b'; by apply Hfirst|].
  split; [rewrite <- Hid'; apply lookup_commit|].
  split; [subst b'; reflexivity|]. split; [exact Hown|].
  split.
  { subst b'. unfold same_content, bound.
    destruct (user_id b); repeat split. }
  assert (Hlook : bookings (commit b' db) !! i = Some b')
    by (rewrite <- Hid'; apply lookup_commit).
  assert (Hperm' : permitted (Some uid) b' = true)
    by (unfold permitted; rewrite Hown; apply Z.eqb_refl).
  rewrite (Hfirst _ b' Hlook Hperm' Hid').
  assert (Hfix : set_status cancelled (bound (Some uid) b') = b').
  { unfold bound. rewrite Hown. subst b'. reflexivity. }
  rewrite Hfix, commit_commit by reflexivity. reflexivity.
Qed.

Lemma total_recompute_bound (current_user : user) (b : Booking) :
  total_amount (_recompute_total (bound current_user b)) =
  spec_total (selection_data b) (addons_data b).
Proof.
  rewrite recompute_total_spec. cbn [total_amount set_total_amount].
  unfold bound. destruct current_user, (user_id b); reflexivity.
Qed.

(** [create_payment_intent] stores nothing of what it computes: it adds no
    payment and leaves every booking with the slots, total and status it
    had, the recomputed total included; and when it answers 200, the
    processor was asked for [int(total * 100)] cents of the recomputed
    total, tagged with the booking id, and the answer carries the intent's
    client secret and id. *)
Theorem create_payment_intent_stores_nothing (current_user : user) (body : payload)
    (create : Z -> Z -> stripe_result) (db : DB) :
  wf db ->
  payments (snd (create_payment_intent current_user body create db)) = payments db /\
  (forall j x, bookings db !! j = Some x ->
     exists x', bookings (snd (create_payment_intent current_user body create db)) !! j
                  = Some x' /\ same_content x x') /\
  (forall answer,
     fst (create_payment_intent current_user body create db) = Jsonify answer 200 ->
     exists b cents intent,
       get_or_404 (p_booking_id body) db = Some b /\
       py_int (spec_total (selection_data b) (addons_data b) * 100)%float = inl cents /\
       create cents (id b) = StripeOk intent /\
       answer = [("clientSecret", PStr (client_secret intent));
                 ("paymentIntentId", PStr (intent_id intent))]).
Proof.
  intros Hwf. unfold create_payment_intent.
  destruct current_user as [uid|];
    [|split; [reflexivity | split; [eauto using same_content_refl | discriminate]]].
  destruct (get_or_404 (p_booking_id body) db) as [b|] eqn:Hget;
    [|split; [reflexivity | split; [eauto using same_content_refl | discriminate]]].
  destruct (get_or_404_Some _ _ _ Hget) as (k & _ & Hb).
  rewrite attach_spec.
  destruct (bound_db_content (Some uid) b db k Hwf Hb) as [Hpay Hrows].
  assert (Hid : id (_recompute_total (bound (Some uid) b)) = id b)
    by (rewrite id_recompute; apply id_bound).
  rewrite Hid, total_recompute_bound.
  destruct (permitted (Some uid) b); cbn [negb];
    [|split; [exact Hpay | split; [exact Hrows | discriminate]]].
  destruct (py_int _) as [cents|e] eqn:Hcents;
    [|split; [exact Hpay | split; [exact Hrows | discriminate]]].
  destruct (create cents (id b)) as [intent|msg] eqn:Hcreate;
    (split; [exact Hpay | split; [exact Hrows|]]); cbn [fst]; [|discriminate].
  intros answer Hanswer. exists b, cents, intent.
  split; [reflexivity|]. split; [exact Hcents|]. split; [exact Hcreate|]. congruence.
Qed.

(** What a logged-in caller saves, the same caller reads back: after a
    successful [save_step], [get_booking] by that caller answers 200 with
    the row, which holds the payload in the step's slot, the caller as
    owner and the total its selection and add-ons give. *)
Theorem get_booking_after_save (uid : Z) (step : Z) (body : payload)
    (db db0 : DB) (b0 : Booking) :
  0 <= step <= 4 ->
  _get_or_create_booking (Some uid) (p_booking_id body) db = Some (b0, db0) ->
  permitted (Some uid) b0 = true ->
  exists b,
    get_booking (Some uid) (id b0) (snd (save_step (Some uid) step body db)) =
      Jsonify (booking_body b) 200 /\
    id b = id b0 /\
    user_id b = Some uid /\
    step_slot step b = Some (p_data body) /\
    total_amount b = spec_total (selection_data b) (addons_data b).
Proof.
  intros Hstep Hget Hperm.
  destruct (save_step_saved (Some uid) step body db db0 b0 Hstep Hget Hperm)
    as (b1 & Hset & ->).
  destruct (set_step_data_in_range step (p_data body) (bound (Some uid) b0) Hstep)
    as (b1' & Hset' & Hslot & Hid & Hown & _).
  assert (b1' = b1) as -> by congruence.
  assert (Hidr : id (_recompute_total b1) = id b0)
    by (rewrite id_recompute, Hid; apply id_bound).
  assert (Hownr : user_id (_recompute_total b1) = Some uid).
  { rewrite user_id_recompute, Hown. unfold bound, permitted in *.
    destruct (user_id b0) as [owner|] eqn:Ho; cbn [user_id set_user_id]; [|reflexivity].
    rewrite Ho. apply Z.eqb_eq in Hperm. congruence. }
  exists (_recompute_total b1). cbn [snd].
  split; [|split; [exact Hidr | split; [exact Hownr | split]]].
  - unfold get_booking. rewrite <- Hidr, lookup_commit, Hownr, Z.eqb_refl.
    rewrite andb_false_r. reflexivity.
  - rewrite step_slot_recompute. exact Hslot.
  - apply recompute_total_total.
Qed.

(** ** Totals that are no number of cents *)


(** ** Payments *)

Ltac payments_same :=
  cbn [negb snd commit payments next_payment_id];
  rewrite ?(proj1 (payments_bound_db _ _ _)), ?(proj2 (payments_bound_db _ _ _));
  cbn [payments next_payment_id]; auto.

Lemma handle_payments (current_user : user) (r : request) (db : DB) :
  (payments (snd (handle current_user r db)) = payments db /\
   next_payment_id (snd (handle current_user r db)) = next_payment_id db) \/
  (exists p,
     payments (snd (handle current_user r db)) = (payments db ++ [p])%list /\
     payment_id p = next_payment_id db /\
     next_payment_id (snd (handle current_user r db)) = next_payment_id db + 1 /\
     payment_status p = "success" /\ provider p = "stripe").
Proof.
  destruct r as [step body | body | body create | body retrieve confirm | body];
    cbn [handle].
  - left. unfold save_step, _get_or_create_booking.
    destruct (match p_booking_id body with Some i => negb (i =? 0) | None => false end).
    + destruct (get_or_404 (p_booking_id body) db) as [b|]; [|auto].
      rewrite attach_spec.
      destruct (permitted current_user b), (set_step_data _ _ _); payments_same.
    + rewrite attach_spec.
      destruct (permitted current_user _), (set_step_data _ _ _); payments_same.
  - left. unfold confirm_booking.
    destruct current_user as [uid|]; [|auto].
    destruct (get_or_404 (p_booking_id body) db) as [b|]; [|auto].
    rewrite attach_spec. destruct (permitted _ b); payments_same.
  - left. unfold create_payment_intent.
    destruct current_user as [uid|]; [|auto].
    destruct (get_or_404 (p_booking_id body) db) as [b|]; [|auto].
    rewrite attach_spec. destruct (permitted _ b); [|payments_same].
    cbn [negb]. repeat case_match; payments_same.
  - unfold pay.
    destruct current_user as [uid|]; [|auto].
    destruct (get_or_404 (p_booking_id body) db) as [b|]; [|auto].
    rewrite attach_spec. destruct (permitted _ b); [|left; payments_same].
    cbn [negb]. repeat case_match; try solve [left; payments_same].
    all: right; eexists; cbn [snd commit add_payment payments next_payment_id];
      destruct (payments_bound_db (Some uid) b db) as [-> ->];
      repeat split; reflexivity.
  - left. unfold cancel.
    destruct current_user as [uid|]; [|auto].
    destruct (get_or_404 (p_booking_id body) db) as [b|]; [|auto].
    rewrite attach_spec. destruct (permitted _ b); payments_same.
Qed.

(** Payment rows are only ever appended: after any run of requests the
    payments table is the old one followed by new rows, each with status
    [success] and provider [stripe]; and if the ids were 1, 2, ... in row
    order with the next id following, they still are, so no two payments
    share an id. *)
Theorem payments_append_only (reqs : list (user * request)) (db : DB) :
  payments_numbered db ->
  payments_numbered (run reqs db) /\
  exists added,
    payments (run reqs db) = (payments db ++ added)%list /\
    Forall (fun p => payment_status p = "success" /\ provider p = "stripe") added.
Proof.
  revert db. induction reqs as [|[u r] reqs IH]; intros db Hnum; cbn [run].
  - split; [exact Hnum|]. exists []. rewrite app_nil_r. auto.
  - destruct (handle_payments u r db) as [[Hp Hn] | (p & Hp & Hid & Hn & Hst & Hpr)].
    + destruct (IH (snd (handle u r db))) as (Hnum' & added & Hadd & Hall).
      { unfold payments_numbered. rewrite Hp, Hn. exact Hnum. }
      split; [exact Hnum'|]. exists added. rewrite Hadd, Hp. auto.
    + destruct (IH (snd (handle u r db))) as (Hnum' & added & Hadd & Hall).
      { destruct Hnum as [Hids Hnext]. unfold payments_numbered.
        rewrite Hp, Hn, length_app, map_app, Hids. cbn [length map].
        rewrite Nat2Z.inj_add. change (Z.of_nat 1) with 1.
        rewrite seqZ_app by lia. cbn [seqZ]. split; [|lia].
        rewrite Hid, Hnext. reflexivity. }
      split; [exact Hnum'|]. exists (p :: added).
      rewrite Hadd, Hp, <- app_assoc. split; [reflexivity|].
      constructor; auto.
Qed.

(** ** The status after one request *)

Lemma lookup_bound_db (current_user : user) (db : DB) (i : Z) (b : Booking) :
  wf db -> bookings db !! i = Some b ->
  bookings (bound_db current_user b db) !! i = Some (bound current_user b).
Proof.
  intros Hwf Hb. destruct (wf_id db i b Hwf Hb) as [Hid _].
  destruct (bound_db_cases current_user b db) as [[-> ->] | ->]; [exact Hb|].
  cbn [commit bookings]. rewrite id_bound, Hid. apply lookup_insert_eq.
Qed.

Lemma lookup_commit_at (x : Booking) (db : DB) (i : Z) :
  id x = i -> bookings (commit x db) !! i = Some x.
Proof. intros <-. apply lookup_commit. Qed.

Lemma create_payment_intent_outcome (uid : Z) (body : payload)
    (create : Z -> Z -> stripe_result) (db : DB) (b : Booking) :
  get_or_404 (p_booking_id body) db = Some b -> permitted (Some uid) b = true ->
  exists resp,
    create_payment_intent (Some uid) body create db = (resp, bound_db (Some uid) b db).
Proof.
  intros Hget Hperm. unfold create_payment_intent.
  rewrite Hget, attach_spec, Hperm. cbn [negb].
  repeat case_match; eexists; reflexivity.
Qed.

Lemma pay_outcome (uid : Z) (body : payload)
    (retrieve confirm : option string -> stripe_result) (db : DB) (b : Booking) :
  get_or_404 (p_booking_id body) db = Some b -> permitted (Some uid) b = true ->
  (exists resp,
     pay (Some uid) body retrieve confirm db = (resp, bound_db (Some uid) b db) /\
     succeeded resp = false) \/
  (exists resp p,
     pay (Some uid) body retrieve confirm db =
       (resp, commit (set_status confirmed (_recompute_total (bound (Some uid) b)))
                     (add_payment p (bound_db (Some uid) b db))) /\
     succeeded resp = true).
Proof.
  intros Hget Hperm. unfold pay.
  rewrite Hget, attach_spec, Hperm. cbn [negb].
  repeat case_match;
    first [left; eexists; split; reflexivity
          | right; do 2 eexists; split; reflexivity].
Qed.

(** The row under the id a request names, after the request. *)
Lemma handle_named (current_user : user) (r : request) (db : DB) (i : Z) (b : Booking) :
  wf db -> bookings db !! i = Some b -> p_booking_id (request_body r) = Some i ->
  bookings (snd (handle current_user r db)) !! i =
    Some (if succeeded (fst (handle current_user r db))
          then stored_by current_user r b else bound current_user b).
Proof.
  intros Hwf Hb Hbody. destruct (wf_id db i b Hwf Hb) as [Hid Hi].
  assert (Hget : get_or_404 (p_booking_id (request_body r)) db = Some b)
    by (rewrite Hbody; exact Hb).
  pose proof (lookup_bound_db current_user db i b Hwf Hb) as Hbound.
  assert (Hidb : id (bound current_user b) = i) by (rewrite id_bound; exact Hid).
  destruct r as [step body | body | body create | body retrieve confirm | body];
    cbn [request_body] in Hbody, Hget; cbn [handle stored_by].
  - unfold save_step, _get_or_create_booking. rewrite Hbody.
    rewrite (proj2 (Z.eqb_neq i 0)) by lia. cbn [negb]. rewrite <- Hbody, Hget.
    rewrite attach_spec.
    destruct (permitted current_user b); cbn [negb fst snd succeeded Z.eqb Pos.eqb orb]; [|exact Hbound].
    destruct (set_step_data step (p_data body) (bound current_user b)) as [b1|] eqn:Hset;
      cbn [fst snd succeeded Z.eqb Pos.eqb orb]; [|exact Hbound].
    apply id_set_step_data in Hset as (Hid1 & _).
    apply lookup_commit_at. rewrite id_recompute. congruence.
  - unfold confirm_booking.
    destruct current_user as [uid|]; [|exact Hb].
    rewrite Hget, attach_spec.
    destruct (permitted (Some uid) b); cbn [negb fst snd succeeded Z.eqb Pos.eqb orb]; [|exact Hbound].
    apply lookup_commit_at. rewrite id_recompute. exact Hidb.
  - destruct current_user as [uid|]; [|exact Hb].
    destruct (permitted (Some uid) b) eqn:Hperm.
    + destruct (create_payment_intent_outcome uid body create db b Hget Hperm)
        as (resp & ->).
      cbn [fst snd]. rewrite Hbound. destruct (succeeded resp); reflexivity.
    + unfold create_payment_intent. rewrite Hget, attach_spec, Hperm.
      cbn [negb fst snd succeeded Z.eqb Pos.eqb orb]. exact Hbound.
  - destruct current_user as [uid|]; [|exact Hb].
    destruct (permitted (Some uid) b) eqn:Hperm.
    + destruct (pay_outcome uid body retrieve confirm db b Hget Hperm)
        as [(resp & Heq & Hs) | (resp & p & Heq & Hs)];
        rewrite Heq; cbn [fst snd]; rewrite Hs.
      * exact Hbound.
      * apply lookup_commit_at. cbn [id set_status]. rewrite id_recompute. exact Hidb.
    + unfold pay. rewrite Hget, attach_spec, Hperm.
      cbn [negb fst snd succeeded Z.eqb Pos.eqb orb]. exact Hbound.
  - unfold cancel.
    destruct current_user as [uid|]; [|exact Hb].
    rewrite Hget, attach_spec.
    destruct (permitted (Some uid) b); cbn [negb fst snd succeeded Z.eqb Pos.eqb orb]; [|exact Hbound].
    apply lookup_commit_at. exact Hidb.
Qed.





(** ** Which requests recompute the total *)

Lemma consistent_stored_by (current_user : user) (r : request) (b : Booking) :
  recomputes r = true ->
  (forall step body, r = SaveStep step body -> 0 <= step <= 4) ->
  consistent (stored_by current_user r b).
Proof.
  intros Hrec Hstep. unfold consistent.
  destruct r as [step body | body | body create | body retrieve confirm | body];
    try discriminate; cbn [stored_by].
  - destruct (set_step_data_in_range step (p_data body) (bound current_user b)
                (Hstep step body eq_refl)) as (b1 & -> & _).
    apply recompute_total_total.
  - apply recompute_total_total.
  - rewrite recompute_total_spec. reflexivity.
Qed.

Lemma stored_by_keeps (current_user : user) (r : request) (b : Booking) :
  recomputes r = false ->
  total_amount (stored_by current_user r b) = total_amount b /\
  selection_data (stored_by current_user r b) = selection_data b /\
  addons_data (stored_by current_user r b) = addons_data b.
Proof.
  intros Hrec.
  destruct r as [step body | body | body create | body retrieve confirm | body];
    try discriminate; cbn [stored_by];
    unfold bound; destruct current_user, (user_id b); auto.
Qed.

Lemma bound_keeps (current_user : user) (b : Booking) :
  total_amount (bound current_user b) = total_amount b /\
  selection_data (bound current_user b) = selection_data b /\
  addons_data (bound current_user b) = addons_data b.
Proof. unfold bound. destruct current_user, (user_id b); auto. Qed.

Lemma save_step_succeeded (current_user : user) (step : Z) (body : payload) (db : DB) :
  succeeded (fst (save_step current_user step body db)) = true -> 0 <= step <= 4.
Proof.
  unfold save_step. destruct (_get_or_create_booking _ _ _) as [[b0 db0]|]; [|discriminate].
  rewrite attach_spec. destruct (permitted current_user b0); [|discriminate].
  cbn [negb]. unfold set_step_data.
  repeat case_match; try discriminate; lia.
Qed.

(** Totals and the requests that recompute them.  A database in which every
    booking's [total_amount] is the rounded sum its own selection and
    add-ons give is still such after any run of requests.  A total that is
    not is put right only by a [save_step], [confirm] or [pay] that names
    the booking and is answered 200 or 201: after any other request
    ([cancel], [create_payment_intent], a request that fails or names
    another booking, and with them the commit that binds an owner) the
    booking has the total, the selection and the add-ons it had. *)
Theorem totals_stay_consistent (reqs : list (user * request)) (db : DB) :
  wf db ->
  (db_consistent db -> db_consistent (run reqs db)) /\
  (forall current_user r i b,
     bookings db !! i = Some b ->
     exists b',
       bookings (snd (handle current_user r db)) !! i = Some b' /\
       if succeeded (fst (handle current_user r db)) && names r i && recomputes r
       then consistent b'
       else total_amount b' = total_amount b /\
            selection_data b' = selection_data b /\
            addons_data b' = addons_data b).
Proof.
  intros Hwf. split.
  - revert db Hwf. induction reqs as [|[u r] reqs IH]; intros db Hwf Hcons; cbn [run].
    + exact Hcons.
    + apply IH; [by apply handle_wf | by apply handle_consistent].
  - intros current_user r i b Hb. unfold names.
    destruct (decide (p_booking_id (request_body r) = Some i)) as [Hbody | Hne].
    + rewrite bool_decide_eq_true_2 by exact Hbody. rewrite andb_true_r.
      rewrite (handle_named current_user r db i b Hwf Hb Hbody).
      eexists. split; [reflexivity|].
      destruct (succeeded (fst (handle current_user r db))) eqn:Hs; cbn [andb];
        [|apply bound_keeps].
      destruct (recomputes r) eqn:Hrec; [|by apply stored_by_keeps].
      apply consistent_stored_by; [exact Hrec|].
      intros step body ->. cbn [handle] in Hs. by eapply save_step_succeeded.
    + rewrite bool_decide_eq_false_2 by exact Hne.
      rewrite andb_false_r. cbn [andb].
      exists b. split; [|auto].
      destruct (wf_id db i b Hwf Hb) as [_ Hlt].
      destruct (handle_touches current_user r db Hwf)
        as [[-> _] | [(k & b0 & b' & Hbody & _ & _ & _ & _ & ->) | (b' & _ & -> & _)]].
      * exact Hb.
      * rewrite lookup_insert_ne; [exact Hb | congruence].
      * rewrite lookup_insert_ne; [exact Hb | lia].
Qed.

End Blueprint.

(** ** Closed examples *)

(** The builtins on the values CPython's documentation and practice quote:
    [round(2.675, 2)] is 2.67, halves go to the even digit, [-0.001]
    rounds to [-0.0], and [int] truncates where [round] rounds. *)
Example round2_examples :
  py_round2 2.675 = 2.67%float /\ py_round2 0.125 = 0.12%float /\
  py_round2 0.375 = 0.38%float /\ py_round2 (0.1 + 0.2) = 0.3%float /\
  py_round2 (-0.001) = (-0)%float /\ py_round2 1e16 = 1e16%float /\
  py_round2 infinity = infinity /\ py_round2 nan = nan.
Proof. vm_compute. repeat split; reflexivity. Qed.

Example int_round_examples :
  py_int (-3.7) = inl (-3) /\ py_round 2.5 = inl 2 /\ py_round 3.5 = inl 4 /\
  py_int (535.5 * 100) = inl 53550 /\ py_int nan = inr ValueError /\
  py_int infinity = inr OverflowError /\
  float_of_int 9007199254740993 = inl 9007199254740992%float /\
  float_of_int (2 ^ 1024) = inr OverflowError.
Proof. vm_compute. repeat split; reflexivity. Qed.

(** The worked example of the specification: a price of 500, then add-ons
    of 20 and 15.5, a confirm, and a payment of 53550 cents. *)
Example worked_example :
  let fs := no_numeric_strings in
  let s1 := save_step fs None 1 (mkPayload None (PDict [("price", PInt 500)]) None) empty_db in
  let s2 := save_step fs (Some 7) 3
              (body_for 1 (PDict [("meal", PInt 20); ("insurance", PFloat 15.5)])) (snd s1) in
  let s3 := confirm_booking fs (Some 7) (body_for 1 PNone) (snd s2) in
  let s4 := pay fs (Some 7) (pay_body 1 "pi_1") (stripe_has (succeeded_intent 53550))
              stripe_down (snd s3) in
  fst s1 = Jsonify (saved_body 1 500 (Some "/booking2.html?booking_id=1")) 200 /\
  fst s2 = Jsonify (saved_body 1 535.5 (Some "/booking4.html?booking_id=1")) 200 /\
  dict_get "total" (match get_booking (Some 7) 1 (snd s2) with
                    | Jsonify body _ => body
                    | Abort _ => []
                    end) = Some (PFloat 535.5) /\
  bookings (snd s3) !! 1 = Some (trip in_progress) /\
  s4 = (Jsonify paid_answer 201, paid_db).
Proof. vm_compute. repeat split; reflexivity. Qed.

(** C1, an instance: user 7 saves add-ons of which two are not numeric
    and one is null on booking 1 (price 500). *)
Lemma save_step_total_witness :
  0 <= 3 <= 4 /\
  _get_or_create_booking (Some 7) (p_booking_id (body_for 1 mixed_addons))
    (trip_db draft) = Some (trip draft, trip_db draft) /\
  permitted (Some 7) (trip draft) = true /\
  exists b,
    fst (save_step no_numeric_strings (Some 7) 3 (body_for 1 mixed_addons) (trip_db draft)) =
      Jsonify (saved_body (id (trip draft)) (total_amount b)
                          (_next_url_for_step 3 (id (trip draft)))) 200 /\
    bookings (snd (save_step no_numeric_strings (Some 7) 3 (body_for 1 mixed_addons)
                             (trip_db draft))) !! id (trip draft) = Some b /\
    step_slot 3 b = Some (p_data (body_for 1 mixed_addons)) /\
    total_amount b = spec_total no_numeric_strings (selection_data b) (addons_data b) /\
    forall any : Booking,
      _recompute_total no_numeric_strings any =
      set_total_amount
        (spec_total no_numeric_strings (selection_data any) (addons_data any)) any.
Proof.
  split; [lia|]. split; [reflexivity|]. split; [reflexivity|].
  apply (save_step_total no_numeric_strings (Some 7) 3 (body_for 1 mixed_addons)
           (trip_db draft) (trip_db draft) (trip draft));
    [lia | reflexivity | reflexivity].
Defined.

(** The total of that instance: the list, the dict and the null add
    nothing. *)
Example mixed_addons_total :
  fst (save_step no_numeric_strings (Some 7) 3 (body_for 1 mixed_addons) (trip_db draft)) =
  Jsonify (saved_body 1 535.5 (Some "/booking4.html?booking_id=1")) 200.
Proof. vm_compute. reflexivity. Qed.



(** C3, the defect: a booking whose total is 0.29.  [int(0.29 * 100)] is 28
    where [round(0.29 * 100)] is 29, so the handler asks the processor for
    28 cents, answers "Amount mismatch" to an intent of 29 cents, and
    records a payment of 0.29 for an intent of 28. *)
Theorem pay_truncates_cents :
  total_amount (_recompute_total no_numeric_strings snack) = 0.29%float /\
  py_round (0.29 * 100)%float = inl 29 /\
  py_int (0.29 * 100)%float = inl 28 /\
  fst (create_payment_intent no_numeric_strings (Some 7) (body_for 1 PNone)
                             stripe_creates snack_db) =
    Jsonify [("clientSecret", PStr "secret"); ("paymentIntentId", PStr "pi_28")] 200 /\
  pay no_numeric_strings (Some 7) (pay_body 1 "pi_1") (stripe_has (succeeded_intent 29))
      stripe_down snack_db =
    (Jsonify [("error", PStr "Amount mismatch")] 400, snack_db) /\
  payments (snd (pay no_numeric_strings (Some 7) (pay_body 1 "pi_1")
                     (stripe_has (succeeded_intent 28)) stripe_down snack_db)) =
    [mkPayment 1 1 0.29%float "success" "stripe" "pi_1"].
Proof. vm_compute. repeat split; reflexivity. Qed.

(** C4, an instance: booking 1 of user 7. *)
Lemma ownership_permanent_witness :
  wf (trip_db draft) /\
  bookings (trip_db draft) !! 1 = Some (trip draft) /\
  user_id (trip draft) = Some 7 /\
  (forall reqs, exists b', bookings (run no_numeric_strings reqs (trip_db draft)) !! 1 = Some b' /\
                           user_id b' = Some 7) /\
  (forall other r, other <> 7 -> p_booking_id (request_body r) = Some 1 ->
     handle no_numeric_strings (Some other) r (trip_db draft) = (forbidden, trip_db draft)).
Proof.
  split; [split; [reflexivity | apply map_Forall_singleton; simpl; lia]|].
  split; [reflexivity|]. split; [reflexivity|].
  apply (ownership_permanent no_numeric_strings (trip_db draft) 1 7 (trip draft));
    [split; [reflexivity | apply map_Forall_singleton; simpl; lia]
    | reflexivity | reflexivity].
Defined.



(** C6, an instance: user 7 confirms booking 1 twice. *)
Lemma confirm_idempotent_witness :
  p_booking_id (body_for 1 PNone) = Some 1 /\
  bookings (trip_db draft) !! 1 = Some (trip draft) /\
  permitted (Some 7) (trip draft) = true /\
  exists b1 answer,
    confirm_booking no_numeric_strings (Some 7) (body_for 1 PNone) (trip_db draft) =
      (Jsonify answer 200, commit b1 (trip_db draft)) /\
    confirm_booking no_numeric_strings (Some 7) (body_for 1 PNone)
                    (commit b1 (trip_db draft)) =
      (Jsonify answer 200, commit b1 (trip_db draft)) /\
    dict_get "total" answer = Some (PFloat (total_amount b1)) /\
    bookings (commit b1 (trip_db draft)) !! id (trip draft) = Some b1 /\
    booking_status b1 = in_progress /\
    total_amount b1 = spec_total no_numeric_strings (selection_data (trip draft))
                                 (addons_data (trip draft)) /\
    b1 = mkBooking (id (trip draft)) (Some 7) (search_data (trip draft))
                   (selection_data (trip draft)) (travelers_data (trip draft))
                   (addons_data (trip draft)) (review_data (trip draft))
                   (spec_total no_numeric_strings (selection_data (trip draft))
                               (addons_data (trip draft))) in_progress.
Proof.
  split; [reflexivity|]. split; [reflexivity|]. split; [reflexivity|].
  apply (confirm_idempotent no_numeric_strings 7 (body_for 1 PNone) (trip_db draft) 1
           (trip draft)); reflexivity.
Defined.

(** C7, an instance: the processor reports 53550 cents, succeeded, for the
    booking of 535.5. *)
Lemma pay_success_witness :
  pay no_numeric_strings (Some 7) (pay_body 1 "pi_1") (stripe_has (succeeded_intent 53550))
      stripe_down (trip_db in_progress) = (Jsonify paid_answer 201, paid_db) /\
  exists b b' intent p,
    get_or_404 (p_booking_id (pay_body 1 "pi_1")) (trip_db in_progress) = Some b /\
    (stripe_has (succeeded_intent 53550) (p_payment_intent_id (pay_body 1 "pi_1")) =
       StripeOk intent \/
     stripe_down (p_payment_intent_id (pay_body 1 "pi_1")) = StripeOk intent) /\
    intent_status intent = "succeeded" /\
    py_int (total_amount b' * 100)%float = inl (intent_amount intent) /\
    p = mkPayment (next_payment_id (trip_db in_progress)) (id b) (total_amount b')
                  "success" "stripe" (intent_id intent) /\
    payments paid_db = (payments (trip_db in_progress) ++ [p])%list /\
    bookings paid_db !! id b = Some b' /\
    booking_status b' = confirmed /\
    total_amount b' = spec_total no_numeric_strings (selection_data b') (addons_data b') /\
    paid_answer = [("message", PStr "Payment success");
                   ("payment_id", PInt (payment_id p));
                   ("txn_ref", PStr (intent_id intent));
                   ("booking_id", PInt (id b));
                   ("next_url", PStr ("/dashboard.html?booking_id=" ++ py_str_int (id b)))].
Proof.
  split; [vm_compute; reflexivity|].
  apply (pay_success no_numeric_strings (Some 7) (pay_body 1 "pi_1")
           (stripe_has (succeeded_intent 53550)) stripe_down
           (trip_db in_progress) paid_db paid_answer).
  vm_compute. reflexivity.
Defined.

(** C8, an instance: the processor reports 50000 cents for the booking of
    535.5. *)
Lemma amount_mismatch_witness :
  wf (trip_db in_progress) /\
  pay no_numeric_strings (Some 7) (pay_body 1 "pi_1") (stripe_has (succeeded_intent 50000))
      stripe_down (trip_db in_progress) =
    (Jsonify [("error", PStr "Amount mismatch")] 400, trip_db in_progress) /\
  payments (trip_db in_progress) = payments (trip_db in_progress) /\
  forall i b, bookings (trip_db in_progress) !! i = Some b ->
    exists b', bookings (trip_db in_progress) !! i = Some b' /\
               booking_status b' = booking_status b /\
               total_amount b' = total_amount b.
Proof.
  split; [split; [reflexivity | apply map_Forall_singleton; simpl; lia]|].
  split; [vm_compute; reflexivity|].
  apply (amount_mismatch_changes_nothing no_numeric_strings (Some 7) (pay_body 1 "pi_1")
           (stripe_has (succeeded_intent 50000)) stripe_down
           (trip_db in_progress) (trip_db in_progress));
    [split; [reflexivity | apply map_Forall_singleton; simpl; lia]
    | vm_compute; reflexivity].
Defined.

(** C9, an instance: an anonymous caller rewrites the selection of booking
    1, which user 7 owns. *)
Lemma anonymous_save_step_witness :
  wf (trip_db draft) /\ 0 <= 1 <= 4 /\
  p_booking_id (body_for 1 (PDict [("price", PInt 1)])) = Some 1 /\
  bookings (trip_db draft) !! 1 = Some (trip draft) /\
  user_id (trip draft) = Some 7 /\
  exists b',
    save_step no_numeric_strings None 1 (body_for 1 (PDict [("price", PInt 1)]))
              (trip_db draft) =
      (Jsonify (saved_body 1 (total_amount b') (_next_url_for_step 1 1)) 200,
       commit b' (trip_db draft)) /\
    bookings (snd (save_step no_numeric_strings None 1
                     (body_for 1 (PDict [("price", PInt 1)])) (trip_db draft))) !! 1
    = Some b' /\
    (forall j, j <> 1 ->
       bookings (snd (save_step no_numeric_strings None 1
                        (body_for 1 (PDict [("price", PInt 1)])) (trip_db draft))) !! j
       = bookings (trip_db draft) !! j) /\
    id b' = 1 /\
    user_id b' = Some 7 /\
    booking_status b' = booking_status (trip draft) /\
    step_slot 1 b' = Some (p_data (body_for 1 (PDict [("price", PInt 1)]))) /\
    (forall other, other <> 1 -> step_slot other b' = step_slot other (trip draft)) /\
    total_amount b' = spec_total no_numeric_strings (selection_data b') (addons_data b').
Proof.
  assert (Hwf : wf (trip_db draft))
    by (split; [reflexivity | apply map_Forall_singleton; simpl; lia]).
  split; [exact Hwf|]. split; [lia|]. split; [reflexivity|]. split; [reflexivity|].
  split; [reflexivity|].
  apply (anonymous_save_step_overwrites no_numeric_strings 1
           (body_for 1 (PDict [("price", PInt 1)])) (trip_db draft) 1 7 (trip draft));
    [exact Hwf | lia | reflexivity | reflexivity | reflexivity].
Defined.

(** The total that anonymous call leaves on user 7's booking. *)
Example anonymous_save_step_total :
  fst (save_step no_numeric_strings None 1 (body_for 1 (PDict [("price", PInt 1)]))
                 (trip_db draft)) =
  Jsonify (saved_body 1 36.5 (Some "/booking2.html?booking_id=1")) 200.
Proof. vm_compute. reflexivity. Qed.

(** C10, an instance: step 9 with no booking id on the empty database. *)
Lemma invalid_step_witness :
  wf empty_db /\ p_booking_id no_body = None /\ (9 < 0 \/ 4 < 9) /\
  bookings empty_db !! next_booking_id empty_db = None /\
  save_step no_numeric_strings (Some 7) 9 no_body empty_db =
    (Jsonify [("error", PStr "Invalid step")] 400,
     mkDB (<[next_booking_id empty_db := new_booking (next_booking_id empty_db) (Some 7)]>
             (bookings empty_db))
          (next_booking_id empty_db + 1) (payments empty_db) (next_payment_id empty_db)).
Proof.
  split; [split; [reflexivity | apply map_Forall_empty]|].
  split; [reflexivity|]. split; [right; lia|].
  apply (invalid_step_leaves_draft no_numeric_strings (Some 7) 9 no_body empty_db);
    [split; [reflexivity | apply map_Forall_empty] | reflexivity | right; lia].
Defined.

(** ** Instances of the further properties *)

Lemma other_bookings_untouched_witness :
  wf (trip_db draft) /\
  bookings (trip_db draft) !! 1 = Some (trip draft) /\
  p_booking_id (request_body (SaveStep 1 no_body)) <> Some 1 /\
  bookings (snd (handle no_numeric_strings (Some 9) (SaveStep 1 no_body) (trip_db draft)))
    !! 1 = Some (trip draft).
Proof.
  split; [split; [reflexivity | apply map_Forall_singleton; simpl; lia]|].
  split; [reflexivity|]. split; [discriminate|].
  apply (other_bookings_untouched no_numeric_strings (Some 9) (SaveStep 1 no_body)
           (trip_db draft) 1 (trip draft));
    [split; [reflexivity | apply map_Forall_singleton; simpl; lia]
    | reflexivity | discriminate].
Defined.

Lemma totals_stay_consistent_witness :
  wf (trip_db draft) /\
  (db_consistent no_numeric_strings (trip_db draft) ->
   db_consistent no_numeric_strings (run no_numeric_strings busy_day (trip_db draft))) /\
  (forall current_user r i b,
     bookings (trip_db draft) !! i = Some b ->
     exists b',
       bookings (snd (handle no_numeric_strings current_user r (trip_db draft))) !! i
       = Some b' /\
       if succeeded (fst (handle no_numeric_strings current_user r (trip_db draft)))
          && names r i && recomputes r
       then consistent no_numeric_strings b'
       else total_amount b' = total_amount b /\
            selection_data b' = selection_data b /\
            addons_data b' = addons_data b).
Proof.
  assert (Hwf : wf (trip_db draft))
    by (split; [reflexivity | apply map_Forall_singleton; simpl; lia]).
  split; [exact Hwf|].
  exact (totals_stay_consistent no_numeric_strings busy_day (trip_db draft) Hwf).
Defined.

(** A total that the slots do not give: [cancel] stores it as it is, and
    [confirm] puts it right. *)
Example stale_total :
  total_amount <$>
    bookings (snd (cancel (Some 7) (body_for 1 PNone) stale_db)) !! 1
  = Some 99%float /\
  total_amount <$>
    bookings (snd (confirm_booking no_numeric_strings (Some 7) (body_for 1 PNone)
                                   stale_db)) !! 1
  = Some 12.5%float.
Proof. vm_compute. split; reflexivity. Qed.

(** User 7 is the first to name booking 1, with a step that does not
    exist. *)
Lemma first_caller_binds_witness :
  wf unclaimed_db /\
  bookings unclaimed_db !! 1 = Some unclaimed /\
  user_id unclaimed = None /\
  p_booking_id (request_body (SaveStep 9 (body_for 1 PNone))) = Some 1 /\
  (exists b',
     bookings (snd (handle no_numeric_strings (Some 7) (SaveStep 9 (body_for 1 PNone))
                           unclaimed_db)) !! 1 = Some b' /\
     user_id b' = Some 7) /\
  (forall other r', other <> 7 -> p_booking_id (request_body r') = Some 1 ->
     handle no_numeric_strings (Some other) r'
            (snd (handle no_numeric_strings (Some 7) (SaveStep 9 (body_for 1 PNone))
                         unclaimed_db)) =
       (forbidden,
        snd (handle no_numeric_strings (Some 7) (SaveStep 9 (body_for 1 PNone))
                    unclaimed_db))) /\
  (forall reader,
     get_booking (Some reader) 1 unclaimed_db = Jsonify (booking_body unclaimed) 200).
Proof.
  split; [split; [reflexivity | apply map_Forall_singleton; simpl; lia]|].
  split; [reflexivity|]. split; [reflexivity|]. split; [reflexivity|].
  apply (first_caller_binds no_numeric_strings 7 (SaveStep 9 (body_for 1 PNone))
           unclaimed_db 1 unclaimed);
    [split; [reflexivity | apply map_Forall_singleton; simpl; lia]
    | reflexivity | reflexivity | reflexivity].
Defined.

Lemma failed_request_witness :
  wf (trip_db in_progress) /\
  handle no_numeric_strings (Some 7)
         (Pay (pay_body 1 "pi_1") (stripe_has (succeeded_intent 50000)) stripe_down)
         (trip_db in_progress) =
    (Jsonify [("error", PStr "Amount mismatch")] 400, trip_db in_progress) /\
  succeeded (Jsonify [("error", PStr "Amount mismatch")] 400) = false /\
  payments (trip_db in_progress) = payments (trip_db in_progress) /\
  forall j x, bookings (trip_db in_progress) !! j = Some x ->
    exists x', bookings (trip_db in_progress) !! j = Some x' /\ same_content x x'.
Proof.
  split; [split; [reflexivity | apply map_Forall_singleton; simpl; lia]|].
  split; [vm_compute; reflexivity|]. split; [reflexivity|].
  apply (failed_request_keeps_content no_numeric_strings (Some 7)
           (Pay (pay_body 1 "pi_1") (stripe_has (succeeded_intent 50000)) stripe_down)
           (trip_db in_progress) (trip_db in_progress)
           (Jsonify [("error", PStr "Amount mismatch")] 400));
    [split; [reflexivity | apply map_Forall_singleton; simpl; lia]
    | vm_compute; reflexivity | reflexivity].
Defined.

(** User 7 cancels booking 1 after it was paid. *)
Lemma cancel_always_cancels_witness :
  wf (trip_db confirmed) /\
  p_booking_id (body_for 1 PNone) = Some 1 /\
  bookings (trip_db confirmed) !! 1 = Some (trip confirmed) /\
  permitted (Some 7) (trip confirmed) = true /\
  exists b',
    cancel (Some 7) (body_for 1 PNone) (trip_db confirmed) =
      (Jsonify (cancelled_body 1) 200, commit b' (trip_db confirmed)) /\
    bookings (commit b' (trip_db confirmed)) !! 1 = Some b' /\
    booking_status b' = cancelled /\
    user_id b' = Some 7 /\
    same_content (set_status cancelled (trip confirmed)) b' /\
    cancel (Some 7) (body_for 1 PNone) (commit b' (trip_db confirmed)) =
      (Jsonify (cancelled_body 1) 200, commit b' (trip_db confirmed)).
Proof.
  split; [split; [reflexivity | apply map_Forall_singleton; simpl; lia]|].
  split; [reflexivity|]. split; [reflexivity|]. split; [reflexivity|].
  apply (cancel_always_cancels 7 (body_for 1 PNone) (trip_db confirmed) 1 (trip confirmed));
    [split; [reflexivity | apply map_Forall_singleton; simpl; lia]
    | reflexivity | reflexivity | reflexivity].
Defined.

Lemma create_payment_intent_witness :
  wf (trip_db in_progress) /\
  fst (create_payment_intent no_numeric_strings (Some 7) (body_for 1 PNone)
                             stripe_creates (trip_db in_progress)) =
    Jsonify [("clientSecret", PStr "secret"); ("paymentIntentId", PStr "pi_53550")] 200 /\
  payments (snd (create_payment_intent no_numeric_strings (Some 7) (body_for 1 PNone)
                   stripe_creates (trip_db in_progress))) =
    payments (trip_db in_progress).
Proof.
  split; [split; [reflexivity | apply map_Forall_singleton; simpl; lia]|].
  split; [vm_compute; reflexivity|].
  apply (create_payment_intent_stores_nothing no_numeric_strings (Some 7)
           (body_for 1 PNone) stripe_creates (trip_db in_progress)).
  split; [reflexivity | apply map_Forall_singleton; simpl; lia].
Defined.

Lemma get_booking_after_save_witness :
  0 <= 3 <= 4 /\
  _get_or_create_booking (Some 7) (p_booking_id (body_for 1 mixed_addons))
    (trip_db draft) = Some (trip draft, trip_db draft) /\
  permitted (Some 7) (trip draft) = true /\
  exists b,
    get_booking (Some 7) (id (trip draft))
      (snd (save_step no_numeric_strings (Some 7) 3 (body_for 1 mixed_addons)
                      (trip_db draft))) = Jsonify (booking_body b) 200 /\
    id b = id (trip draft) /\
    user_id b = Some 7 /\
    step_slot 3 b = Some (p_data (body_for 1 mixed_addons)) /\
    total_amount b = spec_total no_numeric_strings (selection_data b) (addons_data b).
Proof.
  split; [lia|]. split; [reflexivity|]. split; [reflexivity|].
  apply (get_booking_after_save no_numeric_strings 7 3 (body_for 1 mixed_addons)
           (trip_db draft) (trip_db draft) (trip draft));
    [lia | reflexivity | reflexivity].
Defined.


Lemma payments_append_only_witness :
  payments_numbered paid_db /\
  payments_numbered
    (run no_numeric_strings
         pay_again paid_db) /\
  exists added,
    payments
      (run no_numeric_strings
           pay_again paid_db) = (payments paid_db ++ added)%list /\
    Forall (fun p => payment_status p = "success" /\ provider p = "stripe") added.
Proof.
  split; [split; reflexivity|].
  apply (payments_append_only no_numeric_strings). split; reflexivity.
Defined.

(** A booking can be paid twice: confirmed and paid, booking 1 is confirmed
    again and a second payment of the same amount is recorded. *)
Example paid_twice :
  map payment_id
    (payments
       (run no_numeric_strings
            pay_again paid_db)) = [1; 2].
Proof. vm_compute. reflexivity. Qed.


(** ** [app.py]: what the checks let through *)

Module AppFacts.
Import App.

Lemma eps_inv s : lang Eps s -> s = [].
Proof. inversion 1. reflexivity. Qed.

Lemma class_inv p s : lang (Class p) s -> exists c, s = [c] /\ p c = true.
Proof. inversion 1; subst. eauto. Qed.

Lemma cat_inv r1 r2 s :
  lang (Cat r1 r2) s -> exists s1 s2, s = (s1 ++ s2)%list /\ lang r1 s1 /\ lang r2 s2.
Proof. inversion 1; subst. eauto. Qed.

Lemma alt_inv r1 r2 s : lang (Alt r1 r2) s -> lang r1 s \/ lang r2 s.
Proof. inversion 1; subst; auto. Qed.

Lemma nullable_lang r : nullable r = true <-> lang r [].
Proof.
  induction r as [| |p|r1 IH1 r2 IH2|r1 IH1 r2 IH2|r1 IH1]; simpl.
  - split; [discriminate | inversion 1].
  - split; [constructor | reflexivity].
  - split; [discriminate|]. intros H.
    apply class_inv in H as (c & Hc & _). discriminate.
  - rewrite andb_true_iff, IH1, IH2. split.
    + intros [H1 H2]. change (@nil Z) with (@nil Z ++ [])%list. by constructor.
    + intros H. apply cat_inv in H as (s1 & s2 & Heq & H1 & H2).
      symmetry in Heq. apply app_eq_nil in Heq as [-> ->]. auto.
  - rewrite orb_true_iff, IH1, IH2. split.
    + intros [H|H]; [by apply lang_alt_l | by apply lang_alt_r].
    + apply alt_inv.
  - split; [constructor | reflexivity].
Qed.

Lemma star_cons_inv r c s :
  lang (Star r) (c :: s) ->
  exists s1 s2, s = (s1 ++ s2)%list /\ lang r (c :: s1) /\ lang (Star r) s2.
Proof.
  intros H. remember (Star r) as r' eqn:Hr. remember (c :: s) as cs eqn:Hcs.
  revert s Hr Hcs.
  induction H as [|p0 c0 Hp0|r1 r2 s1 s2 H1 _ H2 _|r1 r2 s0 H0 _|r1 r2 s0 H0 _
                 |r0|r0 s1 s2 H1 _ H2 IH2];
    intros s Hr Hcs; try discriminate.
  injection Hr as ->. destruct s1 as [|c1 s1].
  - simpl in Hcs. by apply IH2.
  - simpl in Hcs. injection Hcs as -> <-. eauto.
Qed.

Lemma cat_cons_lang r1 r2 c s :
  (forall s', lang (deriv c r1) s' <-> lang r1 (c :: s')) ->
  lang (Cat (deriv c r1) r2) s \/ (lang r1 [] /\ lang r2 (c :: s))
  <-> lang (Cat r1 r2) (c :: s).
Proof.
  intros IH1. split.
  - intros [H | [H1 H2]].
    + apply cat_inv in H as (s1 & s2 & -> & H1 & H2).
      change (c :: s1 ++ s2)%list with ((c :: s1) ++ s2)%list.
      constructor; [by apply IH1 | exact H2].
    + change (c :: s) with ([] ++ c :: s)%list. by constructor.
  - intros H. apply cat_inv in H as (s1 & s2 & Heq & H1 & H2).
    destruct s1 as [|c1 s1]; simpl in Heq.
    + subst. right. auto.
    + injection Heq as <- ->. left. constructor; [by apply IH1 | exact H2].
Qed.

Lemma deriv_lang r c s : lang (deriv c r) s <-> lang r (c :: s).
Proof.
  revert s. induction r as [| |p|r1 IH1 r2 IH2|r1 IH1 r2 IH2|r1 IH1]; intros s; simpl.
  - split; intros H; inversion H.
  - split; intros H; inversion H.
  - destruct (p c) eqn:Hp; split; intros H.
    + apply eps_inv in H as ->. by constructor.
    + apply class_inv in H as (c' & Heq & _). injection Heq as _ ->. constructor.
    + inversion H.
    + apply class_inv in H as (c' & Heq & Hp'). injection Heq as <- _. congruence.
  - rewrite <- (cat_cons_lang r1 r2 c s IH1).
    destruct (nullable r1) eqn:Hn.
    + split.
      * intros H. apply alt_inv in H as [H|H]; [by left | right].
        split; [by apply nullable_lang | by apply IH2].
      * intros [H | [H1 H2]]; [by apply lang_alt_l | apply lang_alt_r; by apply IH2].
    + split; [by left|].
      intros [H | [H1 _]]; [exact H|].
      apply nullable_lang in H1. congruence.
  - split; intros H; apply alt_inv in H as [H|H];
      solve [apply lang_alt_l; by apply IH1 | apply lang_alt_r; by apply IH2].
  - split.
    + intros H. apply cat_inv in H as (s1 & s2 & -> & H1 & H2).
      change (c :: s1 ++ s2)%list with ((c :: s1) ++ s2)%list.
      constructor; [by apply IH1 | exact H2].
    + intros H. apply star_cons_inv in H as (s1 & s2 & -> & H1 & H2).
      constructor; [by apply IH1 | exact H2].
Qed.

(** The matcher decides the language. *)
Lemma fullmatch_lang r s : fullmatch r s = true <-> lang r s.
Proof.
  revert r. induction s as [|c s IH]; intros r; simpl.
  - apply nullable_lang.
  - rewrite IH. apply deriv_lang.
Qed.

Lemma star_class_lang p s :
  lang (Star (Class p)) s <-> Forall (fun c => p c = true) s.
Proof.
  induction s as [|c s IH]; split; intros H.
  - constructor.
  - constructor.
  - apply star_cons_inv in H as (s1 & s2 & -> & H1 & H2).
    apply class_inv in H1 as (c' & Heq & Hp). injection Heq as <- ->.
    constructor; [exact Hp | by apply IH].
  - inversion H as [|? ? Hp Hs]; subst.
    change (c :: s) with ([c] ++ s)%list.
    constructor; [by constructor | by apply IH].
Qed.

Lemma plus_class_lang p s :
  lang (Plus (Class p)) s <-> s <> [] /\ Forall (fun c => p c = true) s.
Proof.
  unfold Plus. split.
  - intros H. apply cat_inv in H as (s1 & s2 & -> & H1 & H2).
    apply class_inv in H1 as (c & -> & Hp). apply star_class_lang in H2.
    split; [discriminate | by constructor].
  - intros [Hne H]. destruct s as [|c s]; [contradiction|].
    inversion H as [|? ? Hp Hs]; subst.
    change (c :: s) with ([c] ++ s)%list.
    constructor; [by constructor | by apply star_class_lang].
Qed.

Lemma char_lang (k : Z) s : lang (Class (Z.eqb k)) s <-> s = [k].
Proof.
  split.
  - intros H. apply class_inv in H as (c & -> & Hc). apply Z.eqb_eq in Hc. by subst.
  - intros ->. constructor. apply Z.eqb_refl.
Qed.

(** What the pattern stands for: a word, [@], a word, a dot, a word. *)
Lemma email_pattern_lang s :
  lang email_pattern s <->
  exists l d t, word l /\ word d /\ word t /\ s = (l ++ 64 :: d ++ 46 :: t)%list.
Proof.
  unfold email_pattern, word. split.
  - intros H.
    apply cat_inv in H as (l & s1 & -> & Hl & H).
    apply cat_inv in H as (a & s2 & -> & Ha & H).
    apply cat_inv in H as (d & s3 & -> & Hd & H).
    apply cat_inv in H as (o & t & -> & Ho & Ht).
    apply char_lang in Ha as ->. apply char_lang in Ho as ->.
    apply plus_class_lang in Hl, Hd, Ht.
    exists l, d, t. repeat split; try tauto.
  - intros (l & d & t & Hl & Hd & Ht & ->).
    constructor; [by apply plus_class_lang|].
    change (64 :: d ++ 46 :: t)%list with ([64] ++ d ++ [46] ++ t)%list.
    constructor; [by apply char_lang|].
    constructor; [by apply plus_class_lang|].
    constructor; [by apply char_lang | by apply plus_class_lang].
Qed.

Lemma last_Some_removelast (s : pystr) (c : Z) :
  last s = Some c <-> s = (removelast s ++ [c])%list.
Proof.
  split.
  - intros H. apply last_Some in H as (s' & ->).
    rewrite removelast_last. reflexivity.
  - intros H. rewrite H. apply last_snoc.
Qed.

(** [validate_email] accepts exactly the strings [word@word.word], with or
    without one newline after them; a word is a non-empty run of characters
    that are neither whitespace nor [@]. *)
Theorem validate_email_accepts (email : pystr) :
  validate_email email = true <->
  exists l d t,
    word l /\ word d /\ word t /\
    (email = (l ++ 64 :: d ++ 46 :: t)%list \/
     email = (l ++ 64 :: d ++ 46 :: t ++ [10])%list).
Proof.
  unfold validate_email, match_to_end. rewrite orb_true_iff, fullmatch_lang. split.
  - intros [H | H].
    + apply email_pattern_lang in H as (l & d & t & Hl & Hd & Ht & ->). eauto 10.
    + destruct (last email) as [c|] eqn:Hlast; [|discriminate].
      destruct (Z.eq_dec c 10) as [-> | Hne].
      * apply fullmatch_lang, email_pattern_lang in H
          as (l & d & t & Hl & Hd & Ht & Heq).
        apply last_Some_removelast in Hlast. rewrite Heq in Hlast.
        exists l, d, t. split; [exact Hl|]. split; [exact Hd|]. split; [exact Ht|].
        right. rewrite Hlast, <- app_assoc. cbn [app]. rewrite <- app_assoc. reflexivity.
      * destruct c as [|p|p]; try discriminate.
        repeat (destruct p as [p|p|]; try discriminate). congruence.
  - intros (l & d & t & Hl & Hd & Ht & [-> | ->]).
    + left. apply email_pattern_lang. eauto 10.
    + right.
      assert (Heq : (l ++ 64 :: d ++ 46 :: t ++ [10])%list
                    = ((l ++ 64 :: d ++ 46 :: t) ++ [10])%list)
        by (rewrite <- app_assoc; cbn [app]; rewrite <- app_assoc; reflexivity).
      rewrite Heq, last_snoc, removelast_last.
      apply fullmatch_lang, email_pattern_lang. eauto 10.
Qed.

Lemma cut_last_None sep s : cut_last sep s = None <-> contains sep s = false.
Proof.
  induction s as [|c s IH]; simpl; [tauto|].
  destruct (cut_last sep s) as [[a b]|].
  - split; [discriminate|]. intros H. apply orb_false_iff in H as [_ H].
    apply IH in H. discriminate.
  - rewrite (Z.eqb_sym sep c). destruct (c =? sep); simpl.
    + split; discriminate.
    + split; [intros _; by apply IH | reflexivity].
Qed.

Lemma cut_last_Some sep s a b :
  cut_last sep s = Some (a, b) <->
  s = (a ++ sep :: b)%list /\ contains sep b = false.
Proof.
  revert a. induction s as [|c s IH]; intros a; simpl.
  - split; [discriminate|]. intros [H _]. destruct a; discriminate.
  - destruct (cut_last sep s) as [[a' b']|] eqn:Hcut.
    + split.
      * intros H. injection H as <- <-.
        destruct (proj1 (IH a') eq_refl) as [-> Hb]. auto.
      * intros [Heq Hb]. destruct a as [|c0 a]; simpl in Heq.
        -- injection Heq as -> ->. apply cut_last_None in Hb. congruence.
        -- injection Heq as -> ->.
           assert (H : Some (a', b') = Some (a, b)) by (apply IH; auto).
           injection H as -> ->. reflexivity.
    + apply cut_last_None in Hcut. split.
      * destruct (Z.eqb_spec c sep) as [-> | Hne]; [|discriminate].
        intros H. injection H as <- <-. auto.
      * intros [Heq Hb]. destruct a as [|c0 a]; simpl in Heq.
        -- injection Heq as -> ->. rewrite Z.eqb_refl. reflexivity.
        -- injection Heq as -> ->. unfold contains in Hcut.
           rewrite existsb_app in Hcut. simpl in Hcut.
           rewrite Z.eqb_refl, orb_true_r in Hcut. discriminate.
Qed.

Lemma lower_is_pdf (ext : pystr) :
  lower ext = of_ascii "pdf" <->
  exists c1 c2 c3, ext = [c1; c2; c3] /\
    (c1 = 112 \/ c1 = 80) /\ (c2 = 100 \/ c2 = 68) /\ (c3 = 102 \/ c3 = 70).
Proof.
  assert (Hlow : forall c k, 97 <= k <= 122 ->
            lower_char c = k <-> c = k \/ c = k - 32).
  { intros c k Hk. unfold lower_char.
    destruct (65 <=? c) eqn:H1, (c <=? 90) eqn:H2; simpl; lia. }
  change (of_ascii "pdf") with [112; 100; 102]. split.
  - intros H. destruct ext as [|c1 [|c2 [|c3 [|c4 ext]]]]; try discriminate.
    injection H as H1 H2 H3.
    apply Hlow in H1, H2, H3; try lia. exists c1, c2, c3. auto.
  - intros (c1 & c2 & c3 & -> & H1 & H2 & H3). simpl.
    f_equal; [|f_equal; [|f_equal]]; apply Hlow; lia.
Qed.

(** [allowed_file] never raises, and it says yes exactly to the names that
    end in a dot and [pdf] in whatever case: what precedes the dot may be
    empty or hold further dots. *)
Theorem allowed_file_pdf (filename : pystr) :
  exists ok, allowed_file filename = Some ok /\
    (ok = true <->
     exists stem c1 c2 c3,
       filename = (stem ++ [46; c1; c2; c3])%list /\
       (c1 = 112 \/ c1 = 80) /\ (c2 = 100 \/ c2 = 68) /\ (c3 = 102 \/ c3 = 70)).
Proof.
  unfold allowed_file, rsplit1.
  destruct (contains 46 filename) eqn:Hdot.
  - destruct (cut_last 46 filename) as [[stem ext]|] eqn:Hcut;
      [|apply cut_last_None in Hcut; congruence].
    apply cut_last_Some in Hcut as [-> Hext]. cbn [lookup list_lookup].
    eexists. split; [reflexivity|].
    cbn [existsb ALLOWED_EXTENSIONS]. rewrite orb_false_r.
    unfold pystr_eqb. rewrite bool_decide_eq_true, lower_is_pdf. split.
    + intros (c1 & c2 & c3 & -> & H). exists stem, c1, c2, c3. auto.
    + intros (stem' & c1 & c2 & c3 & Heq & H1 & H2 & H3).
      exists c1, c2, c3. split; [|auto].
      assert (Hcut : cut_last 46 (stem ++ 46 :: ext)%list = Some (stem', [c1; c2; c3])).
      { apply cut_last_Some. split; [exact Heq|].
        simpl. destruct H1 as [-> | ->], H2 as [-> | ->], H3 as [-> | ->]; reflexivity. }
      assert (Hcut' : cut_last 46 (stem ++ 46 :: ext)%list = Some (stem, ext))
        by (apply cut_last_Some; auto).
      rewrite Hcut in Hcut'. injection Hcut' as _ <-. reflexivity.
  - exists false. split; [reflexivity|]. split; [discriminate|].
    intros (stem & c1 & c2 & c3 & -> & _).
    unfold contains in Hdot. rewrite existsb_app in Hdot. simpl in Hdot.
    rewrite orb_true_r in Hdot. discriminate.
Qed.

Lemma py_str_int_inj (j k : Z) : py_str_int j = py_str_int k -> j = k.
Proof.
  unfold py_str_int. intros H.
  assert (Hok : forall z, NilZero.int_of_string (NilZero.string_of_int (Z.to_int z))
                          = Some (Z.to_int z)).
  { intros z. apply NilZero.isi; destruct z as [|p|p]; simpl; try discriminate;
      intros [= Hp]; by apply DecimalPos.Unsigned.to_uint_nonnil in Hp. }
  apply DecimalZ.to_int_inj.
  assert (Some (Z.to_int j) = Some (Z.to_int k)) as [= ->] by (rewrite <- !Hok, H; reflexivity).
  reflexivity.
Qed.

Lemma of_ascii_inj (s t : string) : of_ascii s = of_ascii t -> s = t.
Proof.
  unfold of_ascii. intros H.
  rewrite <- (string_of_list_ascii_of_string s), <- (string_of_list_ascii_of_string t).
  f_equal. revert H. generalize (list_ascii_of_string s) (list_ascii_of_string t).
  intros l. induction l as [|a l IH]; intros [|b m] H; try discriminate; [reflexivity|].
  simpl in H. injection H as Hab Hlm. f_equal; [|by apply IH].
  apply Znat.N2Z.inj in Hab.
  rewrite <- (Ascii.ascii_N_embedding a), <- (Ascii.ascii_N_embedding b), Hab.
  reflexivity.
Qed.

Lemma numbered_inj (name ext : pystr) (j k : Z) :
  numbered name ext j = numbered name ext k -> j = k.
Proof.
  unfold numbered. intros H.
  apply app_inv_head, app_inv_head in H. apply app_inv_tail in H.
  by apply py_str_int_inj, of_ascii_inj.
Qed.

Lemma unused_name_step (fuel : nat) (exists_ : pystr -> bool) (name ext final_name : pystr)
    (counter : Z) :
  exists_ final_name = true ->
  unused_name (S fuel) exists_ name ext final_name counter =
  unused_name fuel exists_ name ext (numbered name ext counter) (counter + 1).
Proof. intros H. simpl. rewrite H. reflexivity. Qed.

(** From a taken name, the loop stops at the first numbered name that is
    free, [m] names on. *)
Lemma unused_name_first_free (exists_ : pystr -> bool) (name ext : pystr) (m : nat) :
  forall (fuel : nat) (final_name : pystr) (counter : Z),
    exists_ final_name = true ->
    (forall j, counter <= j < counter + Z.of_nat m ->
               exists_ (numbered name ext j) = true) ->
    exists_ (numbered name ext (counter + Z.of_nat m)) = false ->
    (m + 2 <= fuel)%nat ->
    unused_name fuel exists_ name ext final_name counter =
      Some (numbered name ext (counter + Z.of_nat m)).
Proof.
  induction m as [|m IH]; intros fuel final_name counter Htaken Hocc Hfree Hfuel.
  - destruct fuel as [|[|fuel]]; try lia.
    rewrite unused_name_step by exact Htaken. simpl.
    rewrite Z.add_0_r in Hfree. rewrite Hfree, Z.add_0_r. reflexivity.
  - destruct fuel as [|fuel]; [lia|].
    rewrite unused_name_step by exact Htaken.
    replace (counter + Z.of_nat (S m)) with (counter + 1 + Z.of_nat m) in * by lia.
    apply IH; [apply Hocc; lia | intros j Hj; apply Hocc; lia | exact Hfree | lia].
Qed.

(** The numbered names from [counter] on are searched in order: among the
    first [n] either one is free, or all are taken. *)
Lemma numbered_search (exists_ : pystr -> bool) (name ext : pystr) (counter : Z) (n : nat) :
  (exists m, (m < n)%nat /\
     (forall j, counter <= j < counter + Z.of_nat m ->
                exists_ (numbered name ext j) = true) /\
     exists_ (numbered name ext (counter + Z.of_nat m)) = false) \/
  (forall j, counter <= j < counter + Z.of_nat n ->
             exists_ (numbered name ext j) = true).
Proof.
  induction n as [|n [IHn | IHn]].
  - right. intros j Hj. lia.
  - left. destruct IHn as (m & Hm & H). exists m. split; [lia | exact H].
  - destruct (exists_ (numbered name ext (counter + Z.of_nat n))) eqn:Hn.
    + right. intros j Hj.
      destruct (Z.eq_dec j (counter + Z.of_nat n)) as [-> | Hne];
        [exact Hn | apply IHn; lia].
    + left. exists n. split; [lia | auto].
Qed.

(** A numbered name is longer than the name it is made from. *)
Lemma numbered_longer (name ext : pystr) (j : Z) :
  (length (name ++ ext) < length (numbered name ext j))%nat.
Proof.
  unfold numbered. rewrite !length_app.
  change (length (of_ascii "_")) with 1%nat.
  generalize (length name) (length ext) (length (of_ascii (py_str_int j))).
  intros a b c. lia.
Qed.

(** When the file's own name is taken and every taken name is in [files],
    one of the first [length files] numbered names is free: the taken ones
    among them and the file's own name are different names of [files]. *)
Lemma numbered_free (exists_ : pystr -> bool) (files : list pystr) (name ext : pystr) :
  (forall x, exists_ x = true -> x ∈ files) ->
  exists_ (name ++ ext)%list = true ->
  exists m, (m < length files)%nat /\
    (forall j, 1 <= j < 1 + Z.of_nat m -> exists_ (numbered name ext j) = true) /\
    exists_ (numbered name ext (1 + Z.of_nat m)) = false.
Proof.
  intros Hfin Hown.
  destruct (numbered_search exists_ name ext 1 (length files)) as [H | Hall];
    [exact H|].
  exfalso.
  set (taken := ((name ++ ext) ::
                 map (fun i => numbered name ext (1 + Z.of_nat i))
                     (seq 0 (length files)))%list).
  assert (Hnodup : NoDup taken).
  { apply NoDup_cons. split.
    - intros Hx. apply list_elem_of_fmap in Hx as (i & Hi & _).
      pose proof (numbered_longer name ext (1 + Z.of_nat i)) as Hlen.
      rewrite <- Hi in Hlen. lia.
    - apply NoDup_fmap_2_strong; [|apply NoDup_seq].
      intros i j _ _ Hij. apply numbered_inj in Hij. lia. }
  assert (Hsub : taken ⊆ files).
  { intros x Hx. apply elem_of_cons in Hx as [-> | Hx]; [by apply Hfin|].
    apply list_elem_of_fmap in Hx as (i & -> & Hi).
    apply elem_of_seq in Hi. apply Hfin, Hall. lia. }
  pose proof (submseteq_length _ _ (NoDup_submseteq _ _ Hnodup Hsub)) as Hlen.
  unfold taken in Hlen. cbn [length] in Hlen.
  rewrite length_map, length_seq in Hlen.
  exact (Nat.nle_succ_diag_l _ Hlen).
Qed.

(** The two halves [splitext] makes of a name give the name back. *)
Lemma splitext_join (p name ext : pystr) :
  splitext p = (name, ext) -> p = (name ++ ext)%list.
Proof.
  unfold splitext. destruct (cut_last 46 p) as [[root after]|] eqn:Hcut.
  - apply cut_last_Some in Hcut as [-> _].
    destruct (existsb _ root); intros [= <- <-];
      [reflexivity | by rewrite app_nil_r].
  - intros [= <- <-]. by rewrite app_nil_r.
Qed.

(** The upload never takes a name in use: if every name in use is among
    the finitely many [files], the loop of [documents] ends, after no more
    tests than there are such names and one, on a name no file has; that is
    the uploaded file's own name when it is free, and otherwise the first
    free one of [name_1ext], [name_2ext], ..., which has a number no greater
    than the number of names in use. *)
Theorem unused_name_is_unused (exists_ : pystr -> bool) (files : list pystr)
    (filename : pystr) :
  (forall x, exists_ x = true -> x ∈ files) ->
  exists final_name,
    upload_name (length files + 1) exists_ filename = Some final_name /\
    exists_ final_name = false /\
    (exists_ filename = false -> final_name = filename) /\
    (exists_ filename = true ->
     exists k, 1 <= k <= Z.of_nat (length files) /\
       final_name = numbered (splitext filename).1 (splitext filename).2 k /\
       forall j, 1 <= j < k ->
         exists_ (numbered (splitext filename).1 (splitext filename).2 j) = true).
Proof.
  intros Hfin. unfold upload_name.
  destruct (splitext filename) as [name ext] eqn:Hsplit. cbn [fst snd].
  apply splitext_join in Hsplit.
  destruct (exists_ filename) eqn:Hfile.
  - rewrite Hsplit in Hfile.
    destruct (numbered_free exists_ files name ext Hfin Hfile) as (m & Hm & Hocc & Hfree).
    exists (numbered name ext (1 + Z.of_nat m)).
    split; [apply unused_name_first_free; auto; [by rewrite Hsplit | lia]|].
    split; [exact Hfree|]. split; [discriminate|].
    intros _. exists (1 + Z.of_nat m). split; [lia|]. split; [reflexivity | exact Hocc].
  - exists filename. rewrite Nat.add_1_r. simpl. rewrite Hfile.
    repeat split; auto. discriminate.
Qed.

(** The instance of [unused_name_is_unused] on the folder of the examples:
    [report.pdf] is stored as [report_2.pdf]. *)
Lemma unused_name_witness :
  (forall x, in_folder x = true -> x ∈ folder) /\
  exists final_name,
    upload_name (length folder + 1) in_folder (of_ascii "report.pdf") = Some final_name /\
    in_folder final_name = false /\
    (in_folder (of_ascii "report.pdf") = false -> final_name = of_ascii "report.pdf") /\
    (in_folder (of_ascii "report.pdf") = true ->
     exists k, 1 <= k <= Z.of_nat (length folder) /\
       final_name = numbered (splitext (of_ascii "report.pdf")).1
                             (splitext (of_ascii "report.pdf")).2 k /\
       forall j, 1 <= j < k ->
         in_folder (numbered (splitext (of_ascii "report.pdf")).1
                             (splitext (of_ascii "report.pdf")).2 j) = true).
Proof.
  assert (H : forall x, in_folder x = true -> x ∈ folder).
  { intros x Hx. apply bool_decide_eq_true in Hx. exact Hx. }
  split; [exact H|].
  exact (unused_name_is_unused in_folder folder _ H).
Defined.

(** [splitext] at its edges, and the loop where every test but the last
    finds a file. *)
Example splitext_edges :
  splitext (of_ascii "report.pdf") = (of_ascii "report", of_ascii ".pdf") /\
  splitext (of_ascii "a.b.c") = (of_ascii "a.b", of_ascii ".c") /\
  splitext (of_ascii ".bashrc") = (of_ascii ".bashrc", []) /\
  splitext (of_ascii "..a.b") = (of_ascii "..a", of_ascii ".b") /\
  splitext (of_ascii "a.") = (of_ascii "a", of_ascii ".") /\
  splitext (of_ascii "...") = (of_ascii "...", []).
Proof. repeat split; vm_compute; reflexivity. Qed.

Example three_tests_for_two_files :
  upload_name 3 in_folder (of_ascii "report.pdf") = Some (of_ascii "report_2.pdf") /\
  upload_name 2 in_folder (of_ascii "report.pdf") = None.
Proof. split; vm_compute; reflexivity. Qed.

Example stored_as_report_2 :
  unused_name 4 in_folder (of_ascii "report") (of_ascii ".pdf") (of_ascii "report.pdf") 1
  = Some (of_ascii "report_2.pdf").
Proof. vm_compute. reflexivity. Qed.

(** [validate_email] and [allowed_file] at their edges: a newline after the
    address is let through, a no-break space is not; a name that is only
    [.pdf] is allowed, a [pdf] that is not the last extension is not. *)
Example validate_email_edges :
  validate_email (of_ascii "a@b.c" ++ [10])%list = true /\
  validate_email (of_ascii "a@b" ++ [160] ++ of_ascii ".c")%list = false /\
  validate_email (of_ascii "a@b@c.d") = false /\
  validate_email (of_ascii "a@b.c.d") = true.
Proof. repeat split; vm_compute; reflexivity. Qed.

Example allowed_file_edges :
  allowed_file (of_ascii ".pdf") = Some true /\
  allowed_file (of_ascii "ticket.PdF") = Some true /\
  allowed_file (of_ascii "ticket.pdf.exe") = Some false /\
  allowed_file (of_ascii "pdf") = Some false.
Proof. repeat split; vm_compute; reflexivity. Qed.

End AppFacts.

(** ** [app2.py]: cancelling and deleting *)

Module App2Facts.
Import App2.

Section Routes.

Variable ObjectId : string -> option string.
Variable isoformat : Z -> string.
Variable py_str : bson -> string.

Abbreviation cancel_booking := (cancel_booking ObjectId isoformat py_str).
Abbreviation delete_booking := (delete_booking ObjectId).

Lemma status_of_found oid fields :
  doc_get (<["_id" := BOid oid]> fields) "status" = doc_get fields "status".
Proof. unfold doc_get. rewrite lookup_insert_ne; [reflexivity | discriminate]. Qed.

Lemma status_set_cancelled now fields :
  doc_get (set_cancelled now fields) "status" = BStr "cancelled".
Proof. unfold doc_get, set_cancelled. rewrite lookup_insert_eq. reflexivity. Qed.

Lemma is_str_true v s : is_str v s = true <-> v = BStr s.
Proof.
  destruct v; cbn; try (split; [discriminate | intros; discriminate]).
  rewrite String.eqb_eq. split; [intros -> | intros [= ->]]; reflexivity.
Qed.

(** What [cancel_booking] leaves in the collection for a booking it finds. *)
Lemma cancel_booking_found booking_id oid fields now bookings :
  get_object_id ObjectId booking_id = Some oid ->
  bookings !! oid = Some fields ->
  exists fields',
    (cancel_booking booking_id now bookings).2 = <[oid := fields']> bookings /\
    doc_get fields' "status" = BStr "cancelled" /\
    (doc_get fields "status" = BStr "cancelled" -> fields' = fields) /\
    (doc_get fields "status" <> BStr "cancelled" -> fields' = set_cancelled now fields) /\
    (cancel_booking booking_id now bookings).1.2 = 200.
Proof.
  intros Hid Hfind. unfold App2.cancel_booking, find_one. rewrite Hid, Hfind.
  rewrite status_of_found.
  destruct (is_str (doc_get fields "status") "cancelled") eqn:Hs.
  - apply is_str_true in Hs. exists fields. cbn [fst snd].
    split; [symmetry; apply insert_id; exact Hfind|].
    split; [exact Hs|]. split; [reflexivity|]. split; [congruence | reflexivity].
  - assert (Hn : doc_get fields "status" <> BStr "cancelled").
    { intros H. apply is_str_true in H. congruence. }
    exists (set_cancelled now fields). cbn [fst snd].
    split.
    { apply map_eq. intros k. destruct (decide (k = oid)) as [-> | Hk].
      - rewrite lookup_alter_eq, lookup_insert_eq, Hfind. reflexivity.
      - rewrite lookup_alter_ne, lookup_insert_ne by congruence. reflexivity. }
    split; [apply status_set_cancelled|].
    split; [congruence|]. split; reflexivity.
Qed.

(** A cancelled booking can always be deleted: whatever its age, and
    whenever the two requests are made, cancelling and then deleting a stored
    booking answers 200 twice and leaves the collection without it. *)
Theorem cancel_then_delete booking_id oid fields now now' bookings :
  get_object_id ObjectId booking_id = Some oid ->
  bookings !! oid = Some fields ->
  (cancel_booking booking_id now bookings).1.2 = 200 /\
  delete_booking booking_id now' (cancel_booking booking_id now bookings).2
  = ((Message "Booking deleted", 200), delete oid bookings).
Proof.
  intros Hid Hfind.
  destruct (cancel_booking_found booking_id oid fields now bookings Hid Hfind)
    as (fields' & -> & Hs & _ & _ & Hcode).
  split; [exact Hcode|].
  unfold App2.delete_booking, find_one. rewrite Hid, lookup_insert_eq.
  unfold allow_delete. rewrite status_of_found, Hs. cbn.
  rewrite delete_insert_eq. reflexivity.
Qed.

Lemma set_cancelled_fields (now : Z) (fields : document) :
  doc_get (set_cancelled now fields) "status" = BStr "cancelled" /\
  doc_get (set_cancelled now fields) "cancelled_at" = stored_date now /\
  doc_get (set_cancelled now fields) "updated_at" = stored_date now /\
  forall k, k <> "status" -> k <> "cancelled_at" -> k <> "updated_at" ->
            set_cancelled now fields !! k = fields !! k.
Proof.
  unfold doc_get, set_cancelled. repeat split.
  - rewrite lookup_insert_eq. reflexivity.
  - rewrite lookup_insert_ne by discriminate. rewrite lookup_insert_eq. reflexivity.
  - rewrite !lookup_insert_ne by discriminate. rewrite lookup_insert_eq. reflexivity.
  - intros k H1 H2 H3. rewrite !lookup_insert_ne by congruence. reflexivity.
Qed.

(** Cancelling is done once.  A second [cancel_booking] of a stored
    booking, at any later time, answers "Booking already cancelled" with the
    booking as the first call left it and writes nothing.  When the booking
    was not cancelled before, the first call answers "Booking cancelled" and
    writes the status [cancelled] and, in [cancelled_at] and [updated_at],
    the time of the call as the database keeps it, leaving the other fields;
    so after the second call the three fields are as the first call wrote
    them. *)
Theorem cancel_twice booking_id oid fields now now' bookings :
  get_object_id ObjectId booking_id = Some oid ->
  bookings !! oid = Some fields ->
  let first := cancel_booking booking_id now bookings in
  let second := cancel_booking booking_id now' first.2 in
  second = ((MessageBooking "Booking already cancelled"
               (serialize_booking isoformat py_str (find_one oid first.2)), 200),
            first.2) /\
  (doc_get fields "status" <> BStr "cancelled" ->
   first = ((MessageBooking "Booking cancelled"
               (serialize_booking isoformat py_str (find_one oid first.2)), 200),
            <[oid := set_cancelled now fields]> bookings) /\
   exists fields2,
     second.2 !! oid = Some fields2 /\
     doc_get fields2 "status" = BStr "cancelled" /\
     doc_get fields2 "cancelled_at" = stored_date now /\
     doc_get fields2 "updated_at" = stored_date now /\
     forall k, k <> "status" -> k <> "cancelled_at" -> k <> "updated_at" ->
               fields2 !! k = fields !! k).
Proof.
  intros Hid Hfind. cbn zeta.
  assert (Hsecond : cancel_booking booking_id now'
                      (cancel_booking booking_id now bookings).2
            = ((MessageBooking "Booking already cancelled"
                  (serialize_booking isoformat py_str
                     (find_one oid (cancel_booking booking_id now bookings).2)), 200),
               (cancel_booking booking_id now bookings).2)).
  { destruct (cancel_booking_found booking_id oid fields now bookings Hid Hfind)
      as (fields' & -> & Hs & _ & _ & _).
    unfold App2.cancel_booking at 1. unfold find_one. rewrite Hid, lookup_insert_eq.
    rewrite status_of_found, Hs. reflexivity. }
  split; [exact Hsecond|].
  intros Hnot. rewrite Hsecond. cbn [snd].
  assert (Hfirst : cancel_booking booking_id now bookings
            = ((MessageBooking "Booking cancelled"
                  (serialize_booking isoformat py_str
                     (find_one oid (<[oid := set_cancelled now fields]> bookings))), 200),
               <[oid := set_cancelled now fields]> bookings)).
  { unfold App2.cancel_booking, find_one at 1. rewrite Hid, Hfind.
    rewrite status_of_found.
    destruct (is_str (doc_get fields "status") "cancelled") eqn:Hs.
    { apply is_str_true in Hs. contradiction. }
    assert (Halter : alter (set_cancelled now) oid bookings
                     = <[oid := set_cancelled now fields]> bookings).
    { apply map_eq. intros k. destruct (decide (k = oid)) as [-> | Hk].
      - rewrite lookup_alter_eq, lookup_insert_eq, Hfind. reflexivity.
      - rewrite lookup_alter_ne, lookup_insert_ne by congruence. reflexivity. }
    cbn zeta. rewrite Halter. reflexivity. }
  destruct (set_cancelled_fields now fields) as (Hs & Hc & Hu & Hrest).
  rewrite Hfirst. cbn [snd]. split; [reflexivity|].
  exists (set_cancelled now fields).
  split; [apply lookup_insert_eq|]. auto.
Qed.

(** [delete_booking] removes at most the booking asked for, and that only
    with a 200 and when it is cancelled or its [created_at] is a datetime
    less than 600 seconds old; with any other answer the collection is as it
    was. *)
Theorem delete_booking_rule booking_id now bookings :
  let r := delete_booking booking_id now bookings in
  (r.1.2 <> 200 /\ r.2 = bookings) \/
  (exists oid fields,
      get_object_id ObjectId booking_id = Some oid /\
      bookings !! oid = Some fields /\
      r = ((Message "Booking deleted", 200), delete oid bookings) /\
      (doc_get fields "status" = BStr "cancelled" \/
       exists created,
         doc_get fields "created_at" = BDate created /\
         PrimFloat.ltb (total_seconds (now - created)) 600%float = true)).
Proof.
  cbn zeta. unfold App2.delete_booking, find_one.
  destruct (get_object_id ObjectId booking_id) as [oid|] eqn:Hid;
    [| left; split; [discriminate | reflexivity]].
  destruct (bookings !! oid) as [fields|] eqn:Hfind;
    [| left; split; [discriminate | reflexivity]].
  destruct (allow_delete now (<["_id" := BOid oid]> fields)) eqn:Hallow; cbn [negb];
    [| left; split; [discriminate | reflexivity]].
  right. exists oid, fields. split; [reflexivity|]. split; [exact Hfind|].
  split; [reflexivity|].
  unfold allow_delete in Hallow. rewrite status_of_found in Hallow.
  assert (Hc : doc_get (<["_id" := BOid oid]> fields) "created_at"
               = doc_get fields "created_at").
  { unfold doc_get. rewrite lookup_insert_ne; [reflexivity | discriminate]. }
  rewrite Hc in Hallow.
  destruct (is_str (doc_get fields "status") "cancelled") eqn:Hs.
  - left. apply is_str_true. exact Hs.
  - right. cbn [negb andb] in Hallow.
    destruct (bson_truthy (doc_get fields "created_at")); [| discriminate].
    destruct (doc_get fields "created_at") as [| | | | | created | | |];
      try discriminate.
    exists created. split; [reflexivity|].
    destruct (PrimFloat.ltb _ _); [reflexivity | discriminate].
Qed.

End Routes.

(** The instance of [cancel_then_delete] on the collection of one booking,
    cancelled a day after it was made and deleted a day later. *)
Lemma cancel_then_delete_witness :
  get_object_id one_id "65f0c0ffee65f0c0ffee65f0" = Some "65f0c0ffee65f0c0ffee65f0" /\
  one_booking !! "65f0c0ffee65f0c0ffee65f0" = Some week_trip /\
  (cancel_booking one_id no_format no_str "65f0c0ffee65f0c0ffee65f0"
     1700086400000000 one_booking).1.2 = 200 /\
  delete_booking one_id "65f0c0ffee65f0c0ffee65f0" 1700172800000000
    (cancel_booking one_id no_format no_str "65f0c0ffee65f0c0ffee65f0"
       1700086400000000 one_booking).2
  = ((Message "Booking deleted", 200), delete "65f0c0ffee65f0c0ffee65f0" one_booking).
Proof.
  assert (H1 : get_object_id one_id "65f0c0ffee65f0c0ffee65f0"
               = Some "65f0c0ffee65f0c0ffee65f0") by reflexivity.
  assert (H2 : one_booking !! "65f0c0ffee65f0c0ffee65f0" = Some week_trip)
    by reflexivity.
  split; [exact H1|]. split; [exact H2|].
  exact (cancel_then_delete one_id no_format no_str _ _ _
           1700086400000000 1700172800000000 _ H1 H2).
Defined.

Lemma cancel_twice_witness :
  get_object_id one_id "65f0c0ffee65f0c0ffee65f0" = Some "65f0c0ffee65f0c0ffee65f0" /\
  one_booking !! "65f0c0ffee65f0c0ffee65f0" = Some week_trip /\
  let first := cancel_booking one_id no_format no_str "65f0c0ffee65f0c0ffee65f0"
                 1700086400000123 one_booking in
  let second := cancel_booking one_id no_format no_str "65f0c0ffee65f0c0ffee65f0"
                  1700172800000000 first.2 in
  second = ((MessageBooking "Booking already cancelled"
               (serialize_booking no_format no_str
                  (find_one "65f0c0ffee65f0c0ffee65f0" first.2)), 200),
            first.2) /\
  (doc_get week_trip "status" <> BStr "cancelled" ->
   first = ((MessageBooking "Booking cancelled"
               (serialize_booking no_format no_str
                  (find_one "65f0c0ffee65f0c0ffee65f0" first.2)), 200),
            <["65f0c0ffee65f0c0ffee65f0" := set_cancelled 1700086400000123 week_trip]>
              one_booking) /\
   exists fields2,
     second.2 !! "65f0c0ffee65f0c0ffee65f0" = Some fields2 /\
     doc_get fields2 "status" = BStr "cancelled" /\
     doc_get fields2 "cancelled_at" = stored_date 1700086400000123 /\
     doc_get fields2 "updated_at" = stored_date 1700086400000123 /\
     forall k, k <> "status" -> k <> "cancelled_at" -> k <> "updated_at" ->
               fields2 !! k = week_trip !! k).
Proof.
  assert (H1 : get_object_id one_id "65f0c0ffee65f0c0ffee65f0"
               = Some "65f0c0ffee65f0c0ffee65f0") by reflexivity.
  assert (H2 : one_booking !! "65f0c0ffee65f0c0ffee65f0" = Some week_trip)
    by reflexivity.
  split; [exact H1|]. split; [exact H2|].
  exact (cancel_twice one_id no_format no_str _ _ _
           1700086400000123 1700172800000000 _ H1 H2).
Defined.

(** The time of the first cancel, as the database keeps it: whole
    milliseconds. *)
Example cancelled_at_kept :
  doc_get (set_cancelled 1700086400000123 week_trip) "cancelled_at"
  = BDate 1700086400000000.
Proof. vm_compute. reflexivity. Qed.

(** The ten minutes of [delete_booking], on the booking of the examples:
    one microsecond short of 600 seconds it may go, at 600 seconds it may
    not. *)
Example ten_minutes :
  (delete_booking one_id "65f0c0ffee65f0c0ffee65f0" 1700000599999999 one_booking).1
  = (Message "Booking deleted", 200) /\
  delete_booking one_id "65f0c0ffee65f0c0ffee65f0" 1700000600000000 one_booking
  = ((Message "Deletion not allowed for this booking", 403), one_booking).
Proof. split; vm_compute; reflexivity. Qed.

End App2Facts.

(** ** [app4.py]: users and reset tokens *)

Module App4Facts.
Import App4.

Lemma py_eq_refl (a : value) : py_eq a a = true.
Proof.
  destruct a as [| b | n | s | us]; cbn; auto using Z.eqb_refl, String.eqb_refl.
  destruct b; reflexivity.
Qed.

Lemma py_eq_sym (a b : value) : py_eq a b = py_eq b a.
Proof.
  destruct a as [| x | m | s | x], b as [| y | n | t | y]; cbn; try reflexivity.
  - destruct x, y; reflexivity.
  - apply Z.eqb_sym.
  - apply Z.eqb_sym.
  - apply Z.eqb_sym.
  - apply String.eqb_sym.
  - apply Z.eqb_sym.
Qed.

Section Searches.

Context {A : Type}.
Implicit Types (p : A -> bool) (l : list A).

Lemma find_app_Some p l l' x : find p l = Some x -> find p (l ++ l') = Some x.
Proof.
  induction l as [|y l IH]; cbn; [discriminate|].
  destruct (p y); [trivial | exact IH].
Qed.

Lemma find_app_None p l l' : find p l = None -> find p (l ++ l') = find p l'.
Proof.
  induction l as [|y l IH]; cbn; [reflexivity|].
  destruct (p y); [discriminate | exact IH].
Qed.

Lemma find_None_lookup p l :
  find p l = None <-> forall (i : nat) x, l !! i = Some x -> p x = false.
Proof.
  induction l as [|y l IH]; cbn.
  - split; [intros _ i x Hi; destruct i; discriminate | reflexivity].
  - destruct (p y) eqn:Hy.
    + split; [discriminate|]. intros H. specialize (H 0%nat y eq_refl). congruence.
    + rewrite IH. split.
      * intros H [|i] x Hi; [injection Hi as <-; exact Hy | exact (H i x Hi)].
      * intros H i x Hi. exact (H (S i) x Hi).
Qed.

(** [find] returns the first element that passes. *)
Lemma find_Some_lookup p l x :
  find p l = Some x <->
  exists i : nat, l !! i = Some x /\ p x = true /\
    forall (j : nat) y, (j < i)%nat -> l !! j = Some y -> p y = false.
Proof.
  induction l as [|y l IH]; cbn.
  - split; [discriminate | intros (i & Hi & _); destruct i; discriminate].
  - destruct (p y) eqn:Hy.
    + split.
      * intros [= <-]. exists 0%nat. split; [reflexivity|]. split; [exact Hy|]. lia.
      * intros ([|i] & Hi & Hx & Hfirst); [cbn in Hi; congruence|].
        specialize (Hfirst 0%nat y ltac:(lia) eq_refl). congruence.
    + rewrite IH. split.
      * intros (i & Hi & Hx & Hfirst). exists (S i). split; [exact Hi|].
        split; [exact Hx|]. intros [|j] z Hj Hz; [injection Hz as <-; exact Hy|].
        apply (Hfirst j); [lia | exact Hz].
      * intros ([|i] & Hi & Hx & Hfirst); [injection Hi as <-; congruence|].
        exists i. split; [exact Hi|]. split; [exact Hx|].
        intros j z Hj Hz. apply (Hfirst (S j)); [lia | exact Hz].
Qed.

Lemma update_first_None p (f : A -> A) l :
  update_first p f l = None <-> find p l = None.
Proof.
  induction l as [|y l IH]; cbn; [tauto|].
  destruct (p y); [split; discriminate|].
  destruct (update_first p f l); [|tauto].
  split; [discriminate|]. intros H. apply IH in H. discriminate.
Qed.

(** [update_first] rewrites the element [find] returns, in its place. *)
Lemma update_first_Some p (f : A -> A) l l' :
  update_first p f l = Some l' <->
  exists (i : nat) x, l !! i = Some x /\ p x = true /\
    (forall (j : nat) y, (j < i)%nat -> l !! j = Some y -> p y = false) /\
    l' = <[i := f x]> l.
Proof.
  revert l'. induction l as [|y l IH]; intros l'; cbn.
  - split; [discriminate | intros (i & x & Hi & _); destruct i; discriminate].
  - destruct (p y) eqn:Hy.
    + split.
      * intros [= <-]. exists 0%nat, y. split; [reflexivity|]. split; [exact Hy|].
        split; [lia | reflexivity].
      * intros ([|i] & x & Hi & Hx & Hfirst & ->).
        -- injection Hi as <-. reflexivity.
        -- specialize (Hfirst 0%nat y ltac:(lia) eq_refl). congruence.
    + destruct (update_first p f l) as [l''|] eqn:Hu.
      * destruct (proj1 (IH l'') eq_refl) as (i & x & Hi & Hx & Hfirst & ->).
        split.
        -- intros [= <-]. exists (S i), x. split; [exact Hi|]. split; [exact Hx|].
           split; [|reflexivity].
           intros [|j] z Hj Hz; [injection Hz as <-; exact Hy|].
           apply (Hfirst j); [lia | exact Hz].
        -- intros ([|k] & z & Hk & Hz & Hfirstk & ->); [injection Hk as <-; congruence|].
           cbn. f_equal. f_equal.
           assert (k = i) as ->.
           { destruct (Nat.lt_trichotomy k i) as [Hlt | [-> | Hlt]]; [|reflexivity|].
             - specialize (Hfirst k z Hlt Hk). congruence.
             - specialize (Hfirstk (S i) x ltac:(lia) Hi). congruence. }
           change ((y :: l) !! S i) with (l !! i) in Hk.
           rewrite Hi in Hk. injection Hk as <-. reflexivity.
      * split; [discriminate|].
        intros ([|i] & x & Hi & Hx & _); [injection Hi as <-; congruence|].
        apply update_first_None in Hu.
        rewrite find_None_lookup in Hu. specialize (Hu i x Hi). congruence.
Qed.

End Searches.

Section Memory.

Variable date_str : Z -> string.
Variable RESET_TOKEN_EXPIRY : Z.

Abbreviation py_str := (py_str date_str).
Abbreviation find_by_id := (find_by_id date_str).
Abbreviation update_user := (update_user date_str).
Abbreviation create_password_reset_token :=
  (create_password_reset_token date_str RESET_TOKEN_EXPIRY).
Abbreviation use_reset_token := (use_reset_token date_str).
Abbreviation fresh_token := (fresh_token date_str RESET_TOKEN_EXPIRY).

Lemma found_numbered users (i : nat) u :
  ids_numbered users -> users !! i = Some u -> found (Some u) = true.
Proof.
  intros Hnum Hi. unfold found. destruct (decide (u = ∅)) as [-> | _]; [|reflexivity].
  apply Hnum in Hi. rewrite lookup_empty in Hi. discriminate.
Qed.

Lemma found_find p users :
  ids_numbered users -> found (find p users) = true <-> find p users <> None.
Proof.
  intros Hnum. destruct (find p users) as [u|] eqn:Hf.
  - apply find_Some_lookup in Hf as (i & Hi & _).
    rewrite (found_numbered users i u Hnum Hi). split; [discriminate | reflexivity].
  - cbn. split; [discriminate | congruence].
Qed.

(** The user at place [i] is the one its id finds. *)
Lemma numbered_first users (i : nat) u :
  ids_numbered users -> users !! i = Some u ->
  forall (j : nat) v, users !! j = Some v ->
    String.eqb (py_str (get v "_id")) (py_str (get u "_id")) = true -> j = i.
Proof.
  intros Hnum Hi j v Hj Heq. apply String.eqb_eq in Heq.
  unfold get in Heq. rewrite (Hnum _ _ Hi), (Hnum _ _ Hj) in Heq. cbn in Heq.
  apply AppFacts.py_str_int_inj in Heq. lia.
Qed.

Lemma numbered_snoc users u :
  ids_numbered users -> u !! "_id" = Some (VInt (Z.of_nat (length users) + 1)) ->
  ids_numbered (users ++ [u]).
Proof.
  intros Hnum Hu i v Hi. apply lookup_app_Some in Hi as [Hi | [Hlen Hi]].
  - exact (Hnum i v Hi).
  - apply list_lookup_singleton_Some in Hi as [Hz <-].
    replace i with (length users) by lia. exact Hu.
Qed.

Lemma stored_user_email now user_data user_id :
  stored_user now user_data user_id !! "email" = user_data !! "email".
Proof.
  unfold stored_user, none_if_missing.
  rewrite lookup_insert_ne by discriminate.
  repeat (case_match; rewrite ?lookup_insert_ne by discriminate); reflexivity.
Qed.

Lemma create_user_cases now user_data users e :
  user_data !! "email" = Some e ->
  create_user now user_data users =
    if found (find_by_email e users) then inl (None, users)
    else inl (Some (Z.of_nat (length users) + 1),
              (users ++ [stored_user now user_data (Z.of_nat (length users) + 1)])%list).
Proof.
  intros He. unfold create_user.
  assert (Hm : none_if_missing "oauth_id"
                 (none_if_missing "oauth_provider"
                    (<["created_at" := VDate now]> user_data)) !! "email" = Some e).
  { rewrite <- He. unfold none_if_missing.
    repeat (case_match; rewrite ?lookup_insert_ne by discriminate);
      rewrite ?lookup_insert_ne by discriminate; reflexivity. }
  rewrite Hm. reflexivity.
Qed.

(** A user that [create_user] accepts gets the next id, goes to the end of
    the list with the creation time and the OAuth defaults added, and is
    from then on the user that its id and its e-mail find; the ids stay
    1, 2, ... in list order. *)
Theorem create_user_round_trip (now : Z) (user_data : pydict) (users : list pydict)
    (e : value) :
  ids_numbered users ->
  user_data !! "email" = Some e ->
  find_by_email e users = None ->
  let user_id := Z.of_nat (length users) + 1 in
  let u := stored_user now user_data user_id in
  create_user now user_data users = inl (Some user_id, (users ++ [u])%list) /\
  ids_numbered (users ++ [u]) /\
  find_by_id (VInt user_id) (users ++ [u]) = Some u /\
  find_by_email e (users ++ [u]) = Some u.
Proof.
  intros Hnum He Hnone user_id u.
  assert (Hid : u !! "_id" = Some (VInt user_id))
    by (unfold u, stored_user; apply lookup_insert_eq).
  split; [rewrite (create_user_cases _ _ _ e He), Hnone; reflexivity|].
  split; [apply numbered_snoc; assumption|].
  split.
  - unfold App4.find_by_id. rewrite find_app_None.
    + cbn. unfold get at 1. rewrite Hid. cbn. rewrite String.eqb_refl. reflexivity.
    + apply find_None_lookup. intros i v Hi. apply not_true_iff_false. intros Heq.
      apply String.eqb_eq in Heq. unfold get in Heq. rewrite (Hnum _ _ Hi) in Heq.
      cbn in Heq. apply AppFacts.py_str_int_inj in Heq.
      apply lookup_lt_Some in Hi. unfold user_id in Heq. lia.
  - unfold find_by_email in *. rewrite find_app_None by exact Hnone.
    cbn. unfold get. unfold u. rewrite stored_user_email, He. cbn.
    rewrite py_eq_refl. reflexivity.
Qed.

(** [create_user] keeps e-mails apart: if the ids are 1, 2, ... and no two
    users have equal e-mails, the same holds after it, whatever it was
    given; and when it returns [None] the list is as it was. *)
Theorem create_user_keeps_emails_distinct (now : Z) (user_data : pydict)
    (users users' : list pydict) (r : option Z) :
  ids_numbered users -> emails_distinct users ->
  create_user now user_data users = inl (r, users') ->
  ids_numbered users' /\ emails_distinct users' /\ (r = None -> users' = users).
Proof.
  intros Hnum Hdist Hcreate.
  destruct (user_data !! "email") as [e|] eqn:He.
  2:{ unfold create_user in Hcreate.
      assert (Hm : none_if_missing "oauth_id"
                     (none_if_missing "oauth_provider"
                        (<["created_at" := VDate now]> user_data)) !! "email" = None).
      { rewrite <- He. unfold none_if_missing.
        repeat (case_match; rewrite ?lookup_insert_ne by discriminate);
          rewrite ?lookup_insert_ne by discriminate; reflexivity. }
      rewrite Hm in Hcreate. discriminate. }
  rewrite (create_user_cases _ _ _ e He) in Hcreate.
  destruct (found (find_by_email e users)) eqn:Hfound.
  - injection Hcreate as <- <-. auto.
  - assert (Hnone : find_by_email e users = None).
    { destruct (find_by_email e users) eqn:Hf; [|reflexivity].
      assert (found (find_by_email e users) = true)
        by (apply found_find; [exact Hnum | unfold find_by_email in *; congruence]).
      rewrite Hf in H. congruence. }
    injection Hcreate as <- <-.
    set (u := stored_user now user_data (Z.of_nat (length users) + 1)).
    assert (Hu : get u "email" = e)
      by (unfold get, u; rewrite stored_user_email, He; reflexivity).
    split; [apply numbered_snoc; [exact Hnum | apply lookup_insert_eq]|].
    split; [|discriminate].
    unfold find_by_email in Hnone. rewrite find_None_lookup in Hnone.
    intros i j x y Hi Hj Heq.
    apply lookup_app_Some in Hi as [Hi | [Hil Hi]];
      apply lookup_app_Some in Hj as [Hj | [Hjl Hj]].
    + exact (Hdist i j x y Hi Hj Heq).
    + apply list_lookup_singleton_Some in Hj as [_ <-]. rewrite Hu in Heq.
      rewrite (Hnone i x Hi) in Heq. discriminate.
    + apply list_lookup_singleton_Some in Hi as [_ <-]. rewrite Hu, py_eq_sym in Heq.
      rewrite (Hnone j y Hj) in Heq. discriminate.
    + apply list_lookup_singleton_Some in Hi as [Hi _].
      apply list_lookup_singleton_Some in Hj as [Hj _]. lia.
Qed.

(** A reset token works once: when no two stored tokens have the same
    string, a [use_reset_token] that returned [True] leaves the token
    refused by [verify_reset_token] at any time, and so by any further
    [use_reset_token], which returns [False] and changes nothing. *)
Theorem reset_token_single_use (tk hashed : string) (now : Z)
    (users users' : list pydict) (tokens tokens' : list reset_token) :
  NoDup (token <$> tokens) ->
  use_reset_token tk hashed now users tokens = (Some true, users', tokens') ->
  forall (hashed' : string) (now' : Z),
    verify_reset_token tk now' tokens' = None /\
    use_reset_token tk hashed' now' users' tokens' = (Some false, users', tokens').
Proof.
  intros Hnodup Huse hashed' now'.
  assert (Hdead : verify_reset_token tk now' tokens' = None).
  { unfold App4.use_reset_token in Huse.
    destruct (verify_reset_token tk now tokens) as [td|] eqn:Hv; [|discriminate].
    destruct (update_user _ _ _) as [[] users1]; [|discriminate].
    injection Huse as <- <-.
    apply find_Some_lookup in Hv as (k & Hk & Hp & _).
    apply andb_true_iff in Hp as [Hp _]. apply andb_true_iff in Hp as [Htk _].
    destruct (update_first (fun t => String.eqb (token t) tk) mark_used tokens)
      as [tokens1|] eqn:Hu.
    2:{ apply update_first_None in Hu. rewrite find_None_lookup in Hu.
        specialize (Hu k td Hk). cbn in Hu. congruence. }
    apply update_first_Some in Hu as (i & x & Hi & Hx & _ & ->).
    apply find_None_lookup. intros j t Hj.
    destruct (decide (j = i)) as [-> | Hne].
    - rewrite list_lookup_insert_eq in Hj by (eapply lookup_lt_Some; eauto).
      injection Hj as <-. cbn. rewrite andb_false_r. reflexivity.
    - rewrite list_lookup_insert_ne in Hj by congruence.
      destruct (String.eqb (token t) tk) eqn:Ht; [|reflexivity].
      exfalso. apply Hne. apply String.eqb_eq in Ht, Hx.
      apply (NoDup_lookup (token <$> tokens) j i tk Hnodup);
        rewrite list_lookup_fmap; [rewrite Hj | rewrite Hi]; cbn; congruence. }
  split; [exact Hdead|].
  unfold App4.use_reset_token. rewrite Hdead. reflexivity.
Qed.

Lemma create_token_cases e tk now users tokens u uid :
  find_by_email e users = Some u -> u !! "_id" = Some uid ->
  create_password_reset_token e tk now users tokens =
    inl (Some tk, (kept_tokens e tokens
                   ++ [fresh_token e uid tk now (kept_tokens e tokens)])%list).
Proof.
  intros Hfind Hid. unfold App4.create_password_reset_token. rewrite Hfind.
  unfold found. destruct (decide (u = ∅)) as [-> | _].
  { rewrite lookup_empty in Hid. discriminate. }
  cbn [negb]. rewrite Hid. reflexivity.
Qed.

Lemma kept_tokens_elem e tokens t :
  t ∈ kept_tokens e tokens <-> t ∈ tokens /\ py_eq (email t) e = false.
Proof.
  unfold kept_tokens. rewrite list_elem_of_filter.
  rewrite Is_true_true, negb_true_iff. tauto.
Qed.

(** A new reset token replaces the old ones of its e-mail and lives for the
    configured time: when the e-mail finds a user with an id and the token
    string is not among the stored ones, [create_password_reset_token]
    returns it, keeps the tokens of other e-mails only, and
    [verify_reset_token] accepts the new token exactly at the times before
    [now] plus the lifetime. *)
Theorem fresh_token_lifetime (e : value) (tk : string) (now : Z)
    (users : list pydict) (tokens : list reset_token) (u : pydict) (uid : value) :
  find_by_email e users = Some u ->
  u !! "_id" = Some uid ->
  tk ∉ (token <$> tokens) ->
  exists tokens',
    create_password_reset_token e tk now users tokens = inl (Some tk, tokens') /\
    (forall t, t ∈ tokens' ->
       py_eq (email t) e = true ->
       t = fresh_token e uid tk now (kept_tokens e tokens)) /\
    (forall t, t ∈ tokens -> py_eq (email t) e = false -> t ∈ tokens') /\
    (forall now',
       verify_reset_token tk now' tokens' =
         if now' <? now + RESET_TOKEN_EXPIRY * 1000000
         then Some (fresh_token e uid tk now (kept_tokens e tokens))
         else None).
Proof.
  intros Hfind Hid Hfresh. eexists. split; [apply (create_token_cases _ _ _ _ _ u uid); assumption|].
  split; [|split].
  - intros t Ht Heq. apply elem_of_app in Ht as [Ht | Ht].
    + apply kept_tokens_elem in Ht as [_ Hne]. congruence.
    + apply list_elem_of_singleton in Ht. exact Ht.
  - intros t Ht Hne. apply elem_of_app. left. apply kept_tokens_elem. auto.
  - intros now'. unfold verify_reset_token. rewrite find_app_None.
    + cbn. rewrite String.eqb_refl. cbn.
      destruct (now' <? now + RESET_TOKEN_EXPIRY * 1000000); reflexivity.
    + apply find_None_lookup. intros i t Hi.
      destruct (String.eqb (token t) tk) eqn:Ht; [|reflexivity].
      exfalso. apply Hfresh. apply String.eqb_eq in Ht. subst tk.
      apply list_elem_of_fmap. exists t. split; [reflexivity|].
      apply list_elem_of_lookup_2 in Hi. apply kept_tokens_elem in Hi. tauto.
Qed.

(** Asking for a reset and using it: when the ids are 1, 2, ..., the e-mail
    finds a user and the token string is new, a [use_reset_token] before the
    expiry returns [True], puts the new hash in the [password] of that user
    and of no other, leaves the user findable by the same e-mail, and uses
    the token up. *)
Theorem password_reset_flow (e : value) (tk hashed : string) (now now' : Z)
    (users : list pydict) (tokens : list reset_token) (i : nat) (u : pydict) :
  ids_numbered users ->
  find_by_email e users = Some u ->
  users !! i = Some u ->
  tk ∉ (token <$> tokens) ->
  now' < now + RESET_TOKEN_EXPIRY * 1000000 ->
  exists tokens1 tokens2,
    create_password_reset_token e tk now users tokens = inl (Some tk, tokens1) /\
    use_reset_token tk hashed now' users tokens1
    = (Some true, <[i := <["password" := VStr hashed]> u]> users, tokens2) /\
    find_by_email e (<[i := <["password" := VStr hashed]> u]> users)
    = Some (<["password" := VStr hashed]> u) /\
    forall now'', verify_reset_token tk now'' tokens2 = None.
Proof.
  intros Hnum Hfind Hi Hfresh Hnow.
  pose proof (Hnum i u Hi) as Hid.
  set (uid := VInt (Z.of_nat i + 1)) in *.
  set (kept := kept_tokens e tokens).
  set (t := fresh_token e uid tk now kept).
  assert (Hkept : forall (j : nat) x, kept !! j = Some x -> String.eqb (token x) tk = false).
  { intros j x Hj. apply not_true_iff_false. intros Hx. apply String.eqb_eq in Hx.
    apply Hfresh. subst tk. apply list_elem_of_fmap. exists x. split; [reflexivity|].
    apply list_elem_of_lookup_2 in Hj. apply kept_tokens_elem in Hj. tauto. }
  exists (kept ++ [t])%list, (kept ++ [mark_used t])%list.
  split; [apply (create_token_cases _ _ _ _ _ u uid); assumption|].
  assert (Hverify : verify_reset_token tk now' (kept ++ [t]) = Some t).
  { unfold verify_reset_token. rewrite find_app_None.
    - cbn. rewrite String.eqb_refl. cbn.
      destruct (Z.ltb_spec now' (now + RESET_TOKEN_EXPIRY * 1000000)); [reflexivity | lia].
    - apply find_None_lookup. intros j x Hj. rewrite (Hkept j x Hj). reflexivity. }
  assert (Hupdate : update_user (VStr (user_id t)) {["password" := VStr hashed]} users
                    = (true, <[i := <["password" := VStr hashed]> u]> users)).
  { unfold App4.update_user.
    destruct (update_first _ _ users) as [users1|] eqn:Hu.
    - apply update_first_Some in Hu as (j & v & Hj & Hv & _ & ->).
      assert (j = i) as ->.
      { apply (numbered_first users i u Hnum Hi j v Hj).
        unfold get at 2. rewrite Hid. exact Hv. }
      rewrite Hi in Hj. injection Hj as <-.
      rewrite <- insert_union_singleton_l. reflexivity.
    - apply update_first_None in Hu. rewrite find_None_lookup in Hu.
      specialize (Hu i u Hi). cbn in Hu. unfold get in Hu. rewrite Hid in Hu.
      cbn in Hu. rewrite String.eqb_refl in Hu. discriminate. }
  assert (Hmark : update_first (fun x => String.eqb (token x) tk) mark_used (kept ++ [t])
                  = Some (kept ++ [mark_used t])%list).
  { apply update_first_Some. exists (length kept), t.
    split; [apply list_lookup_middle; reflexivity|].
    split; [cbn; apply String.eqb_refl|].
    split.
    - intros j x Hj Hx. apply (Hkept j). rewrite lookup_app_l in Hx by exact Hj. exact Hx.
    - rewrite insert_app_r_alt by lia. rewrite Nat.sub_diag. reflexivity. }
  split.
  { unfold App4.use_reset_token. rewrite Hverify, Hupdate, Hmark. reflexivity. }
  split.
  - apply find_Some_lookup in Hfind as (k & Hk & Hp & Hfirst).
    assert (k = i) as ->.
    { apply (numbered_first users i u Hnum Hi k u Hk). apply String.eqb_refl. }
    apply find_Some_lookup. exists i.
    split; [apply list_lookup_insert_eq; eapply lookup_lt_Some; eauto|].
    split.
    + unfold get in *. rewrite lookup_insert_ne by discriminate. exact Hp.
    + intros j y Hj Hy. rewrite list_lookup_insert_ne in Hy by lia.
      exact (Hfirst j y Hj Hy).
  - intros now''. unfold verify_reset_token. rewrite find_app_None.
    + cbn. rewrite andb_false_r. reflexivity.
    + apply find_None_lookup. intros j x Hj. rewrite (Hkept j x Hj). reflexivity.
Qed.

End Memory.

(** *** Instances *)

Example init_test_user_once :
  init_test_user "hash:123" 0 [] = [test_user] /\
  init_test_user "hash:456" 9 [test_user] = [test_user].
Proof. split; vm_compute; reflexivity. Qed.

Lemma test_user_numbered : ids_numbered [test_user].
Proof. intros [|i] u Hi; [injection Hi as <-; reflexivity | destruct i; discriminate]. Qed.

Lemma create_user_round_trip_witness :
  ids_numbered [test_user] /\
  ann !! "email" = Some (VStr "ann@example.com") /\
  find_by_email (VStr "ann@example.com") [test_user] = None /\
  create_user 5 ann [test_user] = inl (Some 2, [test_user; stored_user 5 ann 2]) /\
  ids_numbered [test_user; stored_user 5 ann 2] /\
  find_by_id no_date_str (VInt 2) [test_user; stored_user 5 ann 2]
  = Some (stored_user 5 ann 2) /\
  find_by_email (VStr "ann@example.com") [test_user; stored_user 5 ann 2]
  = Some (stored_user 5 ann 2).
Proof.
  split; [exact test_user_numbered|]. split; [reflexivity|]. split; [reflexivity|].
  exact (create_user_round_trip no_date_str 5 ann [test_user] (VStr "ann@example.com")
           test_user_numbered eq_refl eq_refl).
Defined.

Lemma test_user_emails_distinct : emails_distinct [test_user].
Proof.
  intros [|i] [|j] u v Hi Hj _; try reflexivity;
    [destruct j | destruct i | destruct i]; discriminate.
Qed.

(** A second user with the e-mail of the test user is turned away. *)
Lemma create_user_keeps_emails_distinct_witness :
  ids_numbered [test_user] /\ emails_distinct [test_user] /\
  create_user 5 (<["email" := VStr "test@test.com"]> ann) [test_user]
  = inl (None, [test_user]) /\
  ids_numbered [test_user] /\ emails_distinct [test_user] /\
  (@None Z = None -> [test_user] = [test_user]).
Proof.
  split; [exact test_user_numbered|]. split; [exact test_user_emails_distinct|].
  split; [reflexivity|].
  exact (create_user_keeps_emails_distinct 5 (<["email" := VStr "test@test.com"]> ann)
           [test_user] [test_user] None
           test_user_numbered test_user_emails_distinct eq_refl).
Defined.

Lemma reset_token_single_use_witness :
  NoDup (token <$> [test_token]) /\
  use_reset_token no_date_str "tok1" "hash:new" 1000 [test_user] [test_token]
  = (Some true, [<["password" := VStr "hash:new"]> test_user], [mark_used test_token]) /\
  forall (hashed' : string) (now' : Z),
    verify_reset_token "tok1" now' [mark_used test_token] = None /\
    use_reset_token no_date_str "tok1" hashed' now'
      [<["password" := VStr "hash:new"]> test_user] [mark_used test_token]
    = (Some false, [<["password" := VStr "hash:new"]> test_user], [mark_used test_token]).
Proof.
  assert (H1 : NoDup (token <$> [test_token])) by apply NoDup_singleton.
  split; [exact H1|]. split; [reflexivity|].
  exact (reset_token_single_use no_date_str "tok1" "hash:new" 1000
           [test_user] _ [test_token] _ H1 eq_refl).
Defined.

(** Two stored tokens with one string: using it marks the first, which had
    expired, and the second stays good. *)
Example shared_token_string_reused :
  let stale := mkToken "tok1" (VStr "ann@example.com") "2" 10 false 1 in
  use_reset_token no_date_str "tok1" "hash:new" 1000 [test_user] [stale; test_token]
  = (Some true, [<["password" := VStr "hash:new"]> test_user],
     [mark_used stale; test_token]) /\
  verify_reset_token "tok1" 2000 [mark_used stale; test_token] = Some test_token.
Proof. split; reflexivity. Qed.

Lemma fresh_token_lifetime_witness :
  find_by_email (VStr "test@test.com") [test_user] = Some test_user /\
  test_user !! "_id" = Some (VInt 1) /\
  ("tok2" ∉ (token <$> [test_token])) /\
  exists tokens',
    create_password_reset_token no_date_str 3600 (VStr "test@test.com") "tok2" 500
      [test_user] [test_token] = inl (Some "tok2", tokens') /\
    (forall t, t ∈ tokens' ->
       py_eq (email t) (VStr "test@test.com") = true ->
       t = fresh_token no_date_str 3600 (VStr "test@test.com") (VInt 1) "tok2" 500
             (kept_tokens (VStr "test@test.com") [test_token])) /\
    (forall t, t ∈ [test_token] ->
       py_eq (email t) (VStr "test@test.com") = false -> t ∈ tokens') /\
    (forall now',
       verify_reset_token "tok2" now' tokens' =
         if now' <? 500 + 3600 * 1000000
         then Some (fresh_token no_date_str 3600 (VStr "test@test.com") (VInt 1) "tok2" 500
                      (kept_tokens (VStr "test@test.com") [test_token]))
         else None).
Proof.
  assert (H3 : "tok2" ∉ (token <$> [test_token])).
  { intros H. apply list_elem_of_singleton in H. discriminate. }
  split; [reflexivity|]. split; [reflexivity|]. split; [exact H3|].
  exact (fresh_token_lifetime no_date_str 3600 (VStr "test@test.com") "tok2" 500
           [test_user] [test_token] test_user (VInt 1) eq_refl eq_refl H3).
Defined.

Lemma password_reset_flow_witness :
  ids_numbered [test_user] /\
  find_by_email (VStr "test@test.com") [test_user] = Some test_user /\
  [test_user] !! 0%nat = Some test_user /\
  ("tok2" ∉ (token <$> [test_token])) /\
  1000 < 500 + 3600 * 1000000 /\
  exists tokens1 tokens2,
    create_password_reset_token no_date_str 3600 (VStr "test@test.com") "tok2" 500
      [test_user] [test_token] = inl (Some "tok2", tokens1) /\
    use_reset_token no_date_str "tok2" "hash:new" 1000 [test_user] tokens1
    = (Some true, <[0%nat := <["password" := VStr "hash:new"]> test_user]> [test_user],
       tokens2) /\
    find_by_email (VStr "test@test.com")
      (<[0%nat := <["password" := VStr "hash:new"]> test_user]> [test_user])
    = Some (<["password" := VStr "hash:new"]> test_user) /\
    forall now'', verify_reset_token "tok2" now'' tokens2 = None.
Proof.
  assert (H4 : "tok2" ∉ (token <$> [test_token])).
  { intros H. apply list_elem_of_singleton in H. discriminate. }
  split; [exact test_user_numbered|]. split; [reflexivity|]. split; [reflexivity|].
  split; [exact H4|]. split; [lia|].
  exact (password_reset_flow no_date_str 3600 (VStr "test@test.com") "tok2" "hash:new"
           500 1000 [test_user] [test_token] 0 test_user
           test_user_numbered eq_refl eq_refl H4 ltac:(lia)).
Defined.

End App4Facts.
